(** * The ethernet-interface namespace of pango (package [eth])

    A shallow embedding of [netw/eth/eth.go]: the normalized [Entry], the two
    wire schemas ([entry_v1] for PAN-OS below 7.1.0, [entry_v2] from 7.1.0 on),
    the [Normalize] / [specify] mappings between them, the version dispatch
    and the namespace operations [Set], [Edit] and [Delete] run against an
    arbitrary [XapiClient].

    Go data is modelled as follows.
    - [string] is [string]; [int] is [Z] (the code only copies these values
      and compares them with 0, so no wrap-around arises); [bool] is [bool].
    - [[]string] is [list string].
    - A pointer to a struct that is only tested against [nil] and read is an
      [option].
    - [map[string]string] that may be [nil] is [option (gmap string string)]:
      [None] is the nil map, [Some ∅] an allocated empty one.
    - [interface{}] is a sum over the dynamic types the code distinguishes. *)

From Stdlib Require Import ZArith.
From stdpp Require Import gmap strings list fin_maps.

(** ** Packages the namespace imports *)

(** [encoding/xml]: [xml.Name]. *)
Record xml_Name := { Space : string; Local : string }.

(** Package [util] is imported by [eth.go] but is not part of the sources at
    hand.  The namespace is therefore written against the signature of the
    helpers it calls; [EntryType] is the struct behind [*util.EntryType]. *)
Class Util := {
  EntryType : Type;
  StrToEnt : list string -> option EntryType;
  EntToStr : option EntryType -> list string;
  YesNo : bool -> string;
  AsBool : string -> bool;
  CleanRawXml : string -> string;
  AsEntryXpath : list string -> string
}.

(** What the round trip through a wire schema needs from those helpers:
    the yes/no token of a boolean reads back as that boolean, and a member
    list survives the conversion to entries and back. *)
Class UtilLaws (U : Util) : Prop := {
  AsBool_YesNo : forall b : bool, AsBool (YesNo b) = b;
  EntToStr_StrToEnt : forall l : list string, EntToStr (StrToEnt l) = l
}.

(** [util.RawXml{Text string}], as used by [&util.RawXml{text}] and [.Text]. *)
Record RawXml := { Text : string }.

Module version.

(** [version.Number{7, 1, 0, ""}]: three integers and a suffix. *)
Record Number := { Major : Z; Minor : Z; Patch : Z; Suffix : string }.

End version.

(** Package [version] is not part of the sources either: the comparison
    [v.Gte(o)] is a member of the signature the namespace is written
    against. *)
Class VersionOrder := {
  Gte : version.Number -> version.Number -> bool
}.

(** [Gte] is an order: what is at or above a version at or above [o] is at or
    above [o]. *)
Class VersionLaws (V : VersionOrder) : Prop := {
  Gte_trans : forall a b c : version.Number,
    Gte c b = true -> Gte b a = true -> Gte c a = true
}.

(** ** The normalized object *)

Record Entry := {
  Name : string;
  Mode : string;
  StaticIps : list string;
  EnableDhcp : bool;
  CreateDhcpDefaultRoute : bool;
  DhcpDefaultRouteMetric : Z;
  Ipv6Enabled : bool;
  ManagementProfile : string;
  Mtu : Z;
  AdjustTcpMss : bool;
  NetflowProfile : string;
  LldpEnabled : bool;
  LldpProfile : string;
  LinkSpeed : string;
  LinkDuplex : string;
  LinkState : string;
  AggregateGroup : string;
  Comment : string;
  Ipv4MssAdjust : Z;
  Ipv6MssAdjust : Z;
  raw : option (gmap string string)
}.

(** Field assignments [e.F = v]. *)

Definition set_Mode (v : string) (e : Entry) : Entry :=
  {| Name := Name e; Mode := v; StaticIps := StaticIps e;
     EnableDhcp := EnableDhcp e;
     CreateDhcpDefaultRoute := CreateDhcpDefaultRoute e;
     DhcpDefaultRouteMetric := DhcpDefaultRouteMetric e;
     Ipv6Enabled := Ipv6Enabled e; ManagementProfile := ManagementProfile e;
     Mtu := Mtu e; AdjustTcpMss := AdjustTcpMss e;
     NetflowProfile := NetflowProfile e; LldpEnabled := LldpEnabled e;
     LldpProfile := LldpProfile e; LinkSpeed := LinkSpeed e;
     LinkDuplex := LinkDuplex e; LinkState := LinkState e;
     AggregateGroup := AggregateGroup e; Comment := Comment e;
     Ipv4MssAdjust := Ipv4MssAdjust e; Ipv6MssAdjust := Ipv6MssAdjust e;
     raw := raw e |}.

Definition set_StaticIps (v : list string) (e : Entry) : Entry :=
  {| Name := Name e; Mode := Mode e; StaticIps := v;
     EnableDhcp := EnableDhcp e;
     CreateDhcpDefaultRoute := CreateDhcpDefaultRoute e;
     DhcpDefaultRouteMetric := DhcpDefaultRouteMetric e;
     Ipv6Enabled := Ipv6Enabled e; ManagementProfile := ManagementProfile e;
     Mtu := Mtu e; AdjustTcpMss := AdjustTcpMss e;
     NetflowProfile := NetflowProfile e; LldpEnabled := LldpEnabled e;
     LldpProfile := LldpProfile e; LinkSpeed := LinkSpeed e;
     LinkDuplex := LinkDuplex e; LinkState := LinkState e;
     AggregateGroup := AggregateGroup e; Comment := Comment e;
     Ipv4MssAdjust := Ipv4MssAdjust e; Ipv6MssAdjust := Ipv6MssAdjust e;
     raw := raw e |}.

Definition set_EnableDhcp (v : bool) (e : Entry) : Entry :=
  {| Name := Name e; Mode := Mode e; StaticIps := StaticIps e;
     EnableDhcp := v; CreateDhcpDefaultRoute := CreateDhcpDefaultRoute e;
     DhcpDefaultRouteMetric := DhcpDefaultRouteMetric e;
     Ipv6Enabled := Ipv6Enabled e; ManagementProfile := ManagementProfile e;
     Mtu := Mtu e; AdjustTcpMss := AdjustTcpMss e;
     NetflowProfile := NetflowProfile e; LldpEnabled := LldpEnabled e;
     LldpProfile := LldpProfile e; LinkSpeed := LinkSpeed e;
     LinkDuplex := LinkDuplex e; LinkState := LinkState e;
     AggregateGroup := AggregateGroup e; Comment := Comment e;
     Ipv4MssAdjust := Ipv4MssAdjust e; Ipv6MssAdjust := Ipv6MssAdjust e;
     raw := raw e |}.

Definition set_CreateDhcpDefaultRoute (v : bool) (e : Entry) : Entry :=
  {| Name := Name e; Mode := Mode e; StaticIps := StaticIps e;
     EnableDhcp := EnableDhcp e; CreateDhcpDefaultRoute := v;
     DhcpDefaultRouteMetric := DhcpDefaultRouteMetric e;
     Ipv6Enabled := Ipv6Enabled e; ManagementProfile := ManagementProfile e;
     Mtu := Mtu e; AdjustTcpMss := AdjustTcpMss e;
     NetflowProfile := NetflowProfile e; LldpEnabled := LldpEnabled e;
     LldpProfile := LldpProfile e; LinkSpeed := LinkSpeed e;
     LinkDuplex := LinkDuplex e; LinkState := LinkState e;
     AggregateGroup := AggregateGroup e; Comment := Comment e;
     Ipv4MssAdjust := Ipv4MssAdjust e; Ipv6MssAdjust := Ipv6MssAdjust e;
     raw := raw e |}.

Definition set_DhcpDefaultRouteMetric (v : Z) (e : Entry) : Entry :=
  {| Name := Name e; Mode := Mode e; StaticIps := StaticIps e;
     EnableDhcp := EnableDhcp e;
     CreateDhcpDefaultRoute := CreateDhcpDefaultRoute e;
     DhcpDefaultRouteMetric := v; Ipv6Enabled := Ipv6Enabled e;
     ManagementProfile := ManagementProfile e; Mtu := Mtu e;
     AdjustTcpMss := AdjustTcpMss e; NetflowProfile := NetflowProfile e;
     LldpEnabled := LldpEnabled e; LldpProfile := LldpProfile e;
     LinkSpeed := LinkSpeed e; LinkDuplex := LinkDuplex e;
     LinkState := LinkState e; AggregateGroup := AggregateGroup e;
     Comment := Comment e; Ipv4MssAdjust := Ipv4MssAdjust e;
     Ipv6MssAdjust := Ipv6MssAdjust e; raw := raw e |}.

Definition set_Ipv6Enabled (v : bool) (e : Entry) : Entry :=
  {| Name := Name e; Mode := Mode e; StaticIps := StaticIps e;
     EnableDhcp := EnableDhcp e;
     CreateDhcpDefaultRoute := CreateDhcpDefaultRoute e;
     DhcpDefaultRouteMetric := DhcpDefaultRouteMetric e; Ipv6Enabled := v;
     ManagementProfile := ManagementProfile e; Mtu := Mtu e;
     AdjustTcpMss := AdjustTcpMss e; NetflowProfile := NetflowProfile e;
     LldpEnabled := LldpEnabled e; LldpProfile := LldpProfile e;
     LinkSpeed := LinkSpeed e; LinkDuplex := LinkDuplex e;
     LinkState := LinkState e; AggregateGroup := AggregateGroup e;
     Comment := Comment e; Ipv4MssAdjust := Ipv4MssAdjust e;
     Ipv6MssAdjust := Ipv6MssAdjust e; raw := raw e |}.

Definition set_ManagementProfile (v : string) (e : Entry) : Entry :=
  {| Name := Name e; Mode := Mode e; StaticIps := StaticIps e;
     EnableDhcp := EnableDhcp e;
     CreateDhcpDefaultRoute := CreateDhcpDefaultRoute e;
     DhcpDefaultRouteMetric := DhcpDefaultRouteMetric e;
     Ipv6Enabled := Ipv6Enabled e; ManagementProfile := v; Mtu := Mtu e;
     AdjustTcpMss := AdjustTcpMss e; NetflowProfile := NetflowProfile e;
     LldpEnabled := LldpEnabled e; LldpProfile := LldpProfile e;
     LinkSpeed := LinkSpeed e; LinkDuplex := LinkDuplex e;
     LinkState := LinkState e; AggregateGroup := AggregateGroup e;
     Comment := Comment e; Ipv4MssAdjust := Ipv4MssAdjust e;
     Ipv6MssAdjust := Ipv6MssAdjust e; raw := raw e |}.

Definition set_Mtu (v : Z) (e : Entry) : Entry :=
  {| Name := Name e; Mode := Mode e; StaticIps := StaticIps e;
     EnableDhcp := EnableDhcp e;
     CreateDhcpDefaultRoute := CreateDhcpDefaultRoute e;
     DhcpDefaultRouteMetric := DhcpDefaultRouteMetric e;
     Ipv6Enabled := Ipv6Enabled e; ManagementProfile := ManagementProfile e;
     Mtu := v; AdjustTcpMss := AdjustTcpMss e;
     NetflowProfile := NetflowProfile e; LldpEnabled := LldpEnabled e;
     LldpProfile := LldpProfile e; LinkSpeed := LinkSpeed e;
     LinkDuplex := LinkDuplex e; LinkState := LinkState e;
     AggregateGroup := AggregateGroup e; Comment := Comment e;
     Ipv4MssAdjust := Ipv4MssAdjust e; Ipv6MssAdjust := Ipv6MssAdjust e;
     raw := raw e |}.

Definition set_AdjustTcpMss (v : bool) (e : Entry) : Entry :=
  {| Name := Name e; Mode := Mode e; StaticIps := StaticIps e;
     EnableDhcp := EnableDhcp e;
     CreateDhcpDefaultRoute := CreateDhcpDefaultRoute e;
     DhcpDefaultRouteMetric := DhcpDefaultRouteMetric e;
     Ipv6Enabled := Ipv6Enabled e; ManagementProfile := ManagementProfile e;
     Mtu := Mtu e; AdjustTcpMss := v; NetflowProfile := NetflowProfile e;
     LldpEnabled := LldpEnabled e; LldpProfile := LldpProfile e;
     LinkSpeed := LinkSpeed e; LinkDuplex := LinkDuplex e;
     LinkState := LinkState e; AggregateGroup := AggregateGroup e;
     Comment := Comment e; Ipv4MssAdjust := Ipv4MssAdjust e;
     Ipv6MssAdjust := Ipv6MssAdjust e; raw := raw e |}.

Definition set_NetflowProfile (v : string) (e : Entry) : Entry :=
  {| Name := Name e; Mode := Mode e; StaticIps := StaticIps e;
     EnableDhcp := EnableDhcp e;
     CreateDhcpDefaultRoute := CreateDhcpDefaultRoute e;
     DhcpDefaultRouteMetric := DhcpDefaultRouteMetric e;
     Ipv6Enabled := Ipv6Enabled e; ManagementProfile := ManagementProfile e;
     Mtu := Mtu e; AdjustTcpMss := AdjustTcpMss e; NetflowProfile := v;
     LldpEnabled := LldpEnabled e; LldpProfile := LldpProfile e;
     LinkSpeed := LinkSpeed e; LinkDuplex := LinkDuplex e;
     LinkState := LinkState e; AggregateGroup := AggregateGroup e;
     Comment := Comment e; Ipv4MssAdjust := Ipv4MssAdjust e;
     Ipv6MssAdjust := Ipv6MssAdjust e; raw := raw e |}.

Definition set_LldpEnabled (v : bool) (e : Entry) : Entry :=
  {| Name := Name e; Mode := Mode e; StaticIps := StaticIps e;
     EnableDhcp := EnableDhcp e;
     CreateDhcpDefaultRoute := CreateDhcpDefaultRoute e;
     DhcpDefaultRouteMetric := DhcpDefaultRouteMetric e;
     Ipv6Enabled := Ipv6Enabled e; ManagementProfile := ManagementProfile e;
     Mtu := Mtu e; AdjustTcpMss := AdjustTcpMss e;
     NetflowProfile := NetflowProfile e; LldpEnabled := v;
     LldpProfile := LldpProfile e; LinkSpeed := LinkSpeed e;
     LinkDuplex := LinkDuplex e; LinkState := LinkState e;
     AggregateGroup := AggregateGroup e; Comment := Comment e;
     Ipv4MssAdjust := Ipv4MssAdjust e; Ipv6MssAdjust := Ipv6MssAdjust e;
     raw := raw e |}.

Definition set_LldpProfile (v : string) (e : Entry) : Entry :=
  {| Name := Name e; Mode := Mode e; StaticIps := StaticIps e;
     EnableDhcp := EnableDhcp e;
     CreateDhcpDefaultRoute := CreateDhcpDefaultRoute e;
     DhcpDefaultRouteMetric := DhcpDefaultRouteMetric e;
     Ipv6Enabled := Ipv6Enabled e; ManagementProfile := ManagementProfile e;
     Mtu := Mtu e; AdjustTcpMss := AdjustTcpMss e;
     NetflowProfile := NetflowProfile e; LldpEnabled := LldpEnabled e;
     LldpProfile := v; LinkSpeed := LinkSpeed e; LinkDuplex := LinkDuplex e;
     LinkState := LinkState e; AggregateGroup := AggregateGroup e;
     Comment := Comment e; Ipv4MssAdjust := Ipv4MssAdjust e;
     Ipv6MssAdjust := Ipv6MssAdjust e; raw := raw e |}.

Definition set_LinkSpeed (v : string) (e : Entry) : Entry :=
  {| Name := Name e; Mode := Mode e; StaticIps := StaticIps e;
     EnableDhcp := EnableDhcp e;
     CreateDhcpDefaultRoute := CreateDhcpDefaultRoute e;
     DhcpDefaultRouteMetric := DhcpDefaultRouteMetric e;
     Ipv6Enabled := Ipv6Enabled e; ManagementProfile := ManagementProfile e;
     Mtu := Mtu e; AdjustTcpMss := AdjustTcpMss e;
     NetflowProfile := NetflowProfile e; LldpEnabled := LldpEnabled e;
     LldpProfile := LldpProfile e; LinkSpeed := v;
     LinkDuplex := LinkDuplex e; LinkState := LinkState e;
     AggregateGroup := AggregateGroup e; Comment := Comment e;
     Ipv4MssAdjust := Ipv4MssAdjust e; Ipv6MssAdjust := Ipv6MssAdjust e;
     raw := raw e |}.

Definition set_LinkDuplex (v : string) (e : Entry) : Entry :=
  {| Name := Name e; Mode := Mode e; StaticIps := StaticIps e;
     EnableDhcp := EnableDhcp e;
     CreateDhcpDefaultRoute := CreateDhcpDefaultRoute e;
     DhcpDefaultRouteMetric := DhcpDefaultRouteMetric e;
     Ipv6Enabled := Ipv6Enabled e; ManagementProfile := ManagementProfile e;
     Mtu := Mtu e; AdjustTcpMss := AdjustTcpMss e;
     NetflowProfile := NetflowProfile e; LldpEnabled := LldpEnabled e;
     LldpProfile := LldpProfile e; LinkSpeed := LinkSpeed e; LinkDuplex := v;
     LinkState := LinkState e; AggregateGroup := AggregateGroup e;
     Comment := Comment e; Ipv4MssAdjust := Ipv4MssAdjust e;
     Ipv6MssAdjust := Ipv6MssAdjust e; raw := raw e |}.

Definition set_LinkState (v : string) (e : Entry) : Entry :=
  {| Name := Name e; Mode := Mode e; StaticIps := StaticIps e;
     EnableDhcp := EnableDhcp e;
     CreateDhcpDefaultRoute := CreateDhcpDefaultRoute e;
     DhcpDefaultRouteMetric := DhcpDefaultRouteMetric e;
     Ipv6Enabled := Ipv6Enabled e; ManagementProfile := ManagementProfile e;
     Mtu := Mtu e; AdjustTcpMss := AdjustTcpMss e;
     NetflowProfile := NetflowProfile e; LldpEnabled := LldpEnabled e;
     LldpProfile := LldpProfile e; LinkSpeed := LinkSpeed e;
     LinkDuplex := LinkDuplex e; LinkState := v;
     AggregateGroup := AggregateGroup e; Comment := Comment e;
     Ipv4MssAdjust := Ipv4MssAdjust e; Ipv6MssAdjust := Ipv6MssAdjust e;
     raw := raw e |}.

Definition set_AggregateGroup (v : string) (e : Entry) : Entry :=
  {| Name := Name e; Mode := Mode e; StaticIps := StaticIps e;
     EnableDhcp := EnableDhcp e;
     CreateDhcpDefaultRoute := CreateDhcpDefaultRoute e;
     DhcpDefaultRouteMetric := DhcpDefaultRouteMetric e;
     Ipv6Enabled := Ipv6Enabled e; ManagementProfile := ManagementProfile e;
     Mtu := Mtu e; AdjustTcpMss := AdjustTcpMss e;
     NetflowProfile := NetflowProfile e; LldpEnabled := LldpEnabled e;
     LldpProfile := LldpProfile e; LinkSpeed := LinkSpeed e;
     LinkDuplex := LinkDuplex e; LinkState := LinkState e;
     AggregateGroup := v; Comment := Comment e;
     Ipv4MssAdjust := Ipv4MssAdjust e; Ipv6MssAdjust := Ipv6MssAdjust e;
     raw := raw e |}.

Definition set_Comment (v : string) (e : Entry) : Entry :=
  {| Name := Name e; Mode := Mode e; StaticIps := StaticIps e;
     EnableDhcp := EnableDhcp e;
     CreateDhcpDefaultRoute := CreateDhcpDefaultRoute e;
     DhcpDefaultRouteMetric := DhcpDefaultRouteMetric e;
     Ipv6Enabled := Ipv6Enabled e; ManagementProfile := ManagementProfile e;
     Mtu := Mtu e; AdjustTcpMss := AdjustTcpMss e;
     NetflowProfile := NetflowProfile e; LldpEnabled := LldpEnabled e;
     LldpProfile := LldpProfile e; LinkSpeed := LinkSpeed e;
     LinkDuplex := LinkDuplex e; LinkState := LinkState e;
     AggregateGroup := AggregateGroup e; Comment := v;
     Ipv4MssAdjust := Ipv4MssAdjust e; Ipv6MssAdjust := Ipv6MssAdjust e;
     raw := raw e |}.

Definition set_Ipv4MssAdjust (v : Z) (e : Entry) : Entry :=
  {| Name := Name e; Mode := Mode e; StaticIps := StaticIps e;
     EnableDhcp := EnableDhcp e;
     CreateDhcpDefaultRoute := CreateDhcpDefaultRoute e;
     DhcpDefaultRouteMetric := DhcpDefaultRouteMetric e;
     Ipv6Enabled := Ipv6Enabled e; ManagementProfile := ManagementProfile e;
     Mtu := Mtu e; AdjustTcpMss := AdjustTcpMss e;
     NetflowProfile := NetflowProfile e; LldpEnabled := LldpEnabled e;
     LldpProfile := LldpProfile e; LinkSpeed := LinkSpeed e;
     LinkDuplex := LinkDuplex e; LinkState := LinkState e;
     AggregateGroup := AggregateGroup e; Comment := Comment e;
     Ipv4MssAdjust := v; Ipv6MssAdjust := Ipv6MssAdjust e; raw := raw e |}.

Definition set_Ipv6MssAdjust (v : Z) (e : Entry) : Entry :=
  {| Name := Name e; Mode := Mode e; StaticIps := StaticIps e;
     EnableDhcp := EnableDhcp e;
     CreateDhcpDefaultRoute := CreateDhcpDefaultRoute e;
     DhcpDefaultRouteMetric := DhcpDefaultRouteMetric e;
     Ipv6Enabled := Ipv6Enabled e; ManagementProfile := ManagementProfile e;
     Mtu := Mtu e; AdjustTcpMss := AdjustTcpMss e;
     NetflowProfile := NetflowProfile e; LldpEnabled := LldpEnabled e;
     LldpProfile := LldpProfile e; LinkSpeed := LinkSpeed e;
     LinkDuplex := LinkDuplex e; LinkState := LinkState e;
     AggregateGroup := AggregateGroup e; Comment := Comment e;
     Ipv4MssAdjust := Ipv4MssAdjust e; Ipv6MssAdjust := v; raw := raw e |}.

Definition set_raw (v : option (gmap string string)) (e : Entry) : Entry :=
  {| Name := Name e; Mode := Mode e; StaticIps := StaticIps e;
     EnableDhcp := EnableDhcp e;
     CreateDhcpDefaultRoute := CreateDhcpDefaultRoute e;
     DhcpDefaultRouteMetric := DhcpDefaultRouteMetric e;
     Ipv6Enabled := Ipv6Enabled e; ManagementProfile := ManagementProfile e;
     Mtu := Mtu e; AdjustTcpMss := AdjustTcpMss e;
     NetflowProfile := NetflowProfile e; LldpEnabled := LldpEnabled e;
     LldpProfile := LldpProfile e; LinkSpeed := LinkSpeed e;
     LinkDuplex := LinkDuplex e; LinkState := LinkState e;
     AggregateGroup := AggregateGroup e; Comment := Comment e;
     Ipv4MssAdjust := Ipv4MssAdjust e; Ipv6MssAdjust := Ipv6MssAdjust e;
     raw := v |}.

(** [Copy] copies the information from source Entry [s] to [o]; the result
    is the new value of the receiver. *)
Definition Copy (o s : Entry) : Entry :=
  let o := set_Mode (Mode s) o in
  let o := set_StaticIps (StaticIps s) o in
  let o := set_EnableDhcp (EnableDhcp s) o in
  let o := set_CreateDhcpDefaultRoute (CreateDhcpDefaultRoute s) o in
  let o := set_DhcpDefaultRouteMetric (DhcpDefaultRouteMetric s) o in
  let o := set_Ipv6Enabled (Ipv6Enabled s) o in
  let o := set_ManagementProfile (ManagementProfile s) o in
  let o := set_Mtu (Mtu s) o in
  let o := set_AdjustTcpMss (AdjustTcpMss s) o in
  let o := set_NetflowProfile (NetflowProfile s) o in
  let o := set_LldpEnabled (LldpEnabled s) o in
  let o := set_LldpProfile (LldpProfile s) o in
  let o := set_LinkSpeed (LinkSpeed s) o in
  let o := set_LinkDuplex (LinkDuplex s) o in
  let o := set_LinkState (LinkState s) o in
  let o := set_AggregateGroup (AggregateGroup s) o in
  let o := set_Comment (Comment s) o in
  let o := set_Ipv4MssAdjust (Ipv4MssAdjust s) o in
  let o := set_Ipv6MssAdjust (Ipv6MssAdjust s) o in
  o.

(** Reading and writing the fragment map.  Reading a nil map finds nothing.
    Go panics on a write to a nil map; [Normalize] writes only to the map it
    has just made, so that case is never reached and leaves [e] as it is. *)
Definition raw_get (k : string) (e : Entry) : option string :=
  match raw e with
  | Some m => m !! k
  | None => None
  end.

Definition raw_put (k v : string) (e : Entry) : Entry :=
  match raw e with
  | Some m => set_raw (Some (<[k := v]> m)) e
  | None => e
  end.

Definition raw_len (e : Entry) : nat :=
  match raw e with
  | Some m => size m
  | None => 0
  end.

(** The last step of [Normalize]:
    [if len(ans.raw) == 0 { ans.raw = nil }]. *)
Definition nil_if_empty (ans : Entry) : Entry :=
  if (raw_len ans =? 0)%nat then set_raw None ans else ans.

(** ** Wire schemas *)

Section Schemas.

Context {U : Util}.

Record emptyMode := { }.

Record otherMode := {
  otherMode_LldpEnabled : string;
  otherMode_LldpProfile : string;
  otherMode_NetflowProfile : string;
  otherMode_Subinterface : option RawXml
}.

Record ipv6 := {
  ipv6_Enabled : string;
  ipv6_Address : option RawXml
}.

Record dhcpSettings := {
  dhcp_Enable : string;
  dhcp_CreateDefaultRoute : string;
  dhcp_Metric : Z
}.

Record l3Mode_v1 := {
  l3v1_Ipv6 : ipv6;
  l3v1_ManagementProfile : string;
  l3v1_Mtu : Z;
  l3v1_NetflowProfile : string;
  l3v1_AdjustTcpMss : string;
  l3v1_StaticIps : option EntryType;
  l3v1_Dhcp : option dhcpSettings;
  l3v1_Arp : option RawXml;
  l3v1_Subinterface : option RawXml
}.

Record entry_v1 := {
  v1_XMLName : xml_Name;
  v1_Name : string;
  v1_ModeL2 : option otherMode;
  v1_ModeL3 : option l3Mode_v1;
  v1_ModeVwire : option otherMode;
  v1_TapMode : option emptyMode;
  v1_HaMode : option emptyMode;
  v1_DecryptMirrorMode : option emptyMode;
  v1_AggregateGroupMode : option emptyMode;
  v1_LinkSpeed : string;
  v1_LinkDuplex : string;
  v1_LinkState : string;
  v1_Comment : string
}.

Record container_v1 := { v1_Answer : entry_v1 }.

Record l3Mode_v2 := {
  l3v2_Ipv6 : ipv6;
  l3v2_ManagementProfile : string;
  l3v2_Mtu : Z;
  l3v2_NetflowProfile : string;
  l3v2_AdjustTcpMss : string;
  l3v2_Ipv4MssAdjust : Z;
  l3v2_Ipv6MssAdjust : Z;
  l3v2_StaticIps : option EntryType;
  l3v2_Dhcp : option dhcpSettings;
  l3v2_Arp : option RawXml;
  l3v2_Subinterface : option RawXml
}.

Record entry_v2 := {
  v2_XMLName : xml_Name;
  v2_Name : string;
  v2_ModeL3 : option l3Mode_v2;
  v2_ModeL2 : option otherMode;
  v2_ModeVwire : option otherMode;
  v2_TapMode : option emptyMode;
  v2_HaMode : option emptyMode;
  v2_DecryptMirrorMode : option emptyMode;
  v2_AggregateGroupMode : option emptyMode;
  v2_LinkSpeed : string;
  v2_LinkDuplex : string;
  v2_LinkState : string;
  v2_Comment : string
}.

Record container_v2 := { v2_Answer : entry_v2 }.

(** Zero values of the structs, as Go's composite literals leave the fields
    they do not name. *)
Definition xml_Name_zero : xml_Name := {| Space := ""; Local := "" |}.

Definition ipv6_zero : ipv6 := {| ipv6_Enabled := ""; ipv6_Address := None |}.

Definition Entry_zero : Entry :=
  {| Name := ""; Mode := ""; StaticIps := []; EnableDhcp := false;
     CreateDhcpDefaultRoute := false; DhcpDefaultRouteMetric := 0;
     Ipv6Enabled := false; ManagementProfile := ""; Mtu := 0;
     AdjustTcpMss := false; NetflowProfile := ""; LldpEnabled := false;
     LldpProfile := ""; LinkSpeed := ""; LinkDuplex := ""; LinkState := "";
     AggregateGroup := ""; Comment := ""; Ipv4MssAdjust := 0;
     Ipv6MssAdjust := 0; raw := None |}.

Definition entry_v1_zero : entry_v1 :=
  {| v1_XMLName := xml_Name_zero; v1_Name := ""; v1_ModeL2 := None;
     v1_ModeL3 := None; v1_ModeVwire := None; v1_TapMode := None;
     v1_HaMode := None; v1_DecryptMirrorMode := None;
     v1_AggregateGroupMode := None; v1_LinkSpeed := ""; v1_LinkDuplex := "";
     v1_LinkState := ""; v1_Comment := "" |}.

Definition entry_v2_zero : entry_v2 :=
  {| v2_XMLName := xml_Name_zero; v2_Name := ""; v2_ModeL3 := None;
     v2_ModeL2 := None; v2_ModeVwire := None; v2_TapMode := None;
     v2_HaMode := None; v2_DecryptMirrorMode := None;
     v2_AggregateGroupMode := None; v2_LinkSpeed := ""; v2_LinkDuplex := "";
     v2_LinkState := ""; v2_Comment := "" |}.

(** Assignments [ans.ModeX = i] of [specify_v1] and [specify_v2]. *)

Definition set_v1_ModeL2 (v : option otherMode) (a : entry_v1) : entry_v1 :=
  {| v1_XMLName := v1_XMLName a; v1_Name := v1_Name a; v1_ModeL2 := v;
     v1_ModeL3 := v1_ModeL3 a; v1_ModeVwire := v1_ModeVwire a;
     v1_TapMode := v1_TapMode a; v1_HaMode := v1_HaMode a;
     v1_DecryptMirrorMode := v1_DecryptMirrorMode a;
     v1_AggregateGroupMode := v1_AggregateGroupMode a;
     v1_LinkSpeed := v1_LinkSpeed a; v1_LinkDuplex := v1_LinkDuplex a;
     v1_LinkState := v1_LinkState a; v1_Comment := v1_Comment a |}.

Definition set_v1_ModeL3 (v : option l3Mode_v1) (a : entry_v1) : entry_v1 :=
  {| v1_XMLName := v1_XMLName a; v1_Name := v1_Name a;
     v1_ModeL2 := v1_ModeL2 a; v1_ModeL3 := v;
     v1_ModeVwire := v1_ModeVwire a; v1_TapMode := v1_TapMode a;
     v1_HaMode := v1_HaMode a;
     v1_DecryptMirrorMode := v1_DecryptMirrorMode a;
     v1_AggregateGroupMode := v1_AggregateGroupMode a;
     v1_LinkSpeed := v1_LinkSpeed a; v1_LinkDuplex := v1_LinkDuplex a;
     v1_LinkState := v1_LinkState a; v1_Comment := v1_Comment a |}.

Definition set_v1_ModeVwire (v : option otherMode) (a : entry_v1) : entry_v1 :=
  {| v1_XMLName := v1_XMLName a; v1_Name := v1_Name a;
     v1_ModeL2 := v1_ModeL2 a; v1_ModeL3 := v1_ModeL3 a; v1_ModeVwire := v;
     v1_TapMode := v1_TapMode a; v1_HaMode := v1_HaMode a;
     v1_DecryptMirrorMode := v1_DecryptMirrorMode a;
     v1_AggregateGroupMode := v1_AggregateGroupMode a;
     v1_LinkSpeed := v1_LinkSpeed a; v1_LinkDuplex := v1_LinkDuplex a;
     v1_LinkState := v1_LinkState a; v1_Comment := v1_Comment a |}.

Definition set_v1_TapMode (v : option emptyMode) (a : entry_v1) : entry_v1 :=
  {| v1_XMLName := v1_XMLName a; v1_Name := v1_Name a;
     v1_ModeL2 := v1_ModeL2 a; v1_ModeL3 := v1_ModeL3 a;
     v1_ModeVwire := v1_ModeVwire a; v1_TapMode := v;
     v1_HaMode := v1_HaMode a;
     v1_DecryptMirrorMode := v1_DecryptMirrorMode a;
     v1_AggregateGroupMode := v1_AggregateGroupMode a;
     v1_LinkSpeed := v1_LinkSpeed a; v1_LinkDuplex := v1_LinkDuplex a;
     v1_LinkState := v1_LinkState a; v1_Comment := v1_Comment a |}.

Definition set_v1_HaMode (v : option emptyMode) (a : entry_v1) : entry_v1 :=
  {| v1_XMLName := v1_XMLName a; v1_Name := v1_Name a;
     v1_ModeL2 := v1_ModeL2 a; v1_ModeL3 := v1_ModeL3 a;
     v1_ModeVwire := v1_ModeVwire a; v1_TapMode := v1_TapMode a;
     v1_HaMode := v; v1_DecryptMirrorMode := v1_DecryptMirrorMode a;
     v1_AggregateGroupMode := v1_AggregateGroupMode a;
     v1_LinkSpeed := v1_LinkSpeed a; v1_LinkDuplex := v1_LinkDuplex a;
     v1_LinkState := v1_LinkState a; v1_Comment := v1_Comment a |}.

Definition set_v1_DecryptMirrorMode (v : option emptyMode) (a : entry_v1) : entry_v1 :=
  {| v1_XMLName := v1_XMLName a; v1_Name := v1_Name a;
     v1_ModeL2 := v1_ModeL2 a; v1_ModeL3 := v1_ModeL3 a;
     v1_ModeVwire := v1_ModeVwire a; v1_TapMode := v1_TapMode a;
     v1_HaMode := v1_HaMode a; v1_DecryptMirrorMode := v;
     v1_AggregateGroupMode := v1_AggregateGroupMode a;
     v1_LinkSpeed := v1_LinkSpeed a; v1_LinkDuplex := v1_LinkDuplex a;
     v1_LinkState := v1_LinkState a; v1_Comment := v1_Comment a |}.

Definition set_v1_AggregateGroupMode (v : option emptyMode) (a : entry_v1) : entry_v1 :=
  {| v1_XMLName := v1_XMLName a; v1_Name := v1_Name a;
     v1_ModeL2 := v1_ModeL2 a; v1_ModeL3 := v1_ModeL3 a;
     v1_ModeVwire := v1_ModeVwire a; v1_TapMode := v1_TapMode a;
     v1_HaMode := v1_HaMode a;
     v1_DecryptMirrorMode := v1_DecryptMirrorMode a;
     v1_AggregateGroupMode := v; v1_LinkSpeed := v1_LinkSpeed a;
     v1_LinkDuplex := v1_LinkDuplex a; v1_LinkState := v1_LinkState a;
     v1_Comment := v1_Comment a |}.
Definition set_v2_ModeL3 (v : option l3Mode_v2) (a : entry_v2) : entry_v2 :=
  {| v2_XMLName := v2_XMLName a; v2_Name := v2_Name a; v2_ModeL3 := v;
     v2_ModeL2 := v2_ModeL2 a; v2_ModeVwire := v2_ModeVwire a;
     v2_TapMode := v2_TapMode a; v2_HaMode := v2_HaMode a;
     v2_DecryptMirrorMode := v2_DecryptMirrorMode a;
     v2_AggregateGroupMode := v2_AggregateGroupMode a;
     v2_LinkSpeed := v2_LinkSpeed a; v2_LinkDuplex := v2_LinkDuplex a;
     v2_LinkState := v2_LinkState a; v2_Comment := v2_Comment a |}.

Definition set_v2_ModeL2 (v : option otherMode) (a : entry_v2) : entry_v2 :=
  {| v2_XMLName := v2_XMLName a; v2_Name := v2_Name a;
     v2_ModeL3 := v2_ModeL3 a; v2_ModeL2 := v;
     v2_ModeVwire := v2_ModeVwire a; v2_TapMode := v2_TapMode a;
     v2_HaMode := v2_HaMode a;
     v2_DecryptMirrorMode := v2_DecryptMirrorMode a;
     v2_AggregateGroupMode := v2_AggregateGroupMode a;
     v2_LinkSpeed := v2_LinkSpeed a; v2_LinkDuplex := v2_LinkDuplex a;
     v2_LinkState := v2_LinkState a; v2_Comment := v2_Comment a |}.

Definition set_v2_ModeVwire (v : option otherMode) (a : entry_v2) : entry_v2 :=
  {| v2_XMLName := v2_XMLName a; v2_Name := v2_Name a;
     v2_ModeL3 := v2_ModeL3 a; v2_ModeL2 := v2_ModeL2 a; v2_ModeVwire := v;
     v2_TapMode := v2_TapMode a; v2_HaMode := v2_HaMode a;
     v2_DecryptMirrorMode := v2_DecryptMirrorMode a;
     v2_AggregateGroupMode := v2_AggregateGroupMode a;
     v2_LinkSpeed := v2_LinkSpeed a; v2_LinkDuplex := v2_LinkDuplex a;
     v2_LinkState := v2_LinkState a; v2_Comment := v2_Comment a |}.

Definition set_v2_TapMode (v : option emptyMode) (a : entry_v2) : entry_v2 :=
  {| v2_XMLName := v2_XMLName a; v2_Name := v2_Name a;
     v2_ModeL3 := v2_ModeL3 a; v2_ModeL2 := v2_ModeL2 a;
     v2_ModeVwire := v2_ModeVwire a; v2_TapMode := v;
     v2_HaMode := v2_HaMode a;
     v2_DecryptMirrorMode := v2_DecryptMirrorMode a;
     v2_AggregateGroupMode := v2_AggregateGroupMode a;
     v2_LinkSpeed := v2_LinkSpeed a; v2_LinkDuplex := v2_LinkDuplex a;
     v2_LinkState := v2_LinkState a; v2_Comment := v2_Comment a |}.

Definition set_v2_HaMode (v : option emptyMode) (a : entry_v2) : entry_v2 :=
  {| v2_XMLName := v2_XMLName a; v2_Name := v2_Name a;
     v2_ModeL3 := v2_ModeL3 a; v2_ModeL2 := v2_ModeL2 a;
     v2_ModeVwire := v2_ModeVwire a; v2_TapMode := v2_TapMode a;
     v2_HaMode := v; v2_DecryptMirrorMode := v2_DecryptMirrorMode a;
     v2_AggregateGroupMode := v2_AggregateGroupMode a;
     v2_LinkSpeed := v2_LinkSpeed a; v2_LinkDuplex := v2_LinkDuplex a;
     v2_LinkState := v2_LinkState a; v2_Comment := v2_Comment a |}.

Definition set_v2_DecryptMirrorMode (v : option emptyMode) (a : entry_v2) : entry_v2 :=
  {| v2_XMLName := v2_XMLName a; v2_Name := v2_Name a;
     v2_ModeL3 := v2_ModeL3 a; v2_ModeL2 := v2_ModeL2 a;
     v2_ModeVwire := v2_ModeVwire a; v2_TapMode := v2_TapMode a;
     v2_HaMode := v2_HaMode a; v2_DecryptMirrorMode := v;
     v2_AggregateGroupMode := v2_AggregateGroupMode a;
     v2_LinkSpeed := v2_LinkSpeed a; v2_LinkDuplex := v2_LinkDuplex a;
     v2_LinkState := v2_LinkState a; v2_Comment := v2_Comment a |}.

Definition set_v2_AggregateGroupMode (v : option emptyMode) (a : entry_v2) : entry_v2 :=
  {| v2_XMLName := v2_XMLName a; v2_Name := v2_Name a;
     v2_ModeL3 := v2_ModeL3 a; v2_ModeL2 := v2_ModeL2 a;
     v2_ModeVwire := v2_ModeVwire a; v2_TapMode := v2_TapMode a;
     v2_HaMode := v2_HaMode a;
     v2_DecryptMirrorMode := v2_DecryptMirrorMode a;
     v2_AggregateGroupMode := v; v2_LinkSpeed := v2_LinkSpeed a;
     v2_LinkDuplex := v2_LinkDuplex a; v2_LinkState := v2_LinkState a;
     v2_Comment := v2_Comment a |}.
Definition set_ipv6_Enabled (v : string) (a : ipv6) : ipv6 :=
  {| ipv6_Enabled := v; ipv6_Address := ipv6_Address a |}.

Definition set_ipv6_Address (v : option RawXml) (a : ipv6) : ipv6 :=
  {| ipv6_Enabled := ipv6_Enabled a; ipv6_Address := v |}.

Definition set_otherMode_Subinterface (v : option RawXml) (a : otherMode) : otherMode :=
  {| otherMode_LldpEnabled := otherMode_LldpEnabled a;
     otherMode_LldpProfile := otherMode_LldpProfile a;
     otherMode_NetflowProfile := otherMode_NetflowProfile a;
     otherMode_Subinterface := v |}.

Definition set_l3v1_Ipv6 (v : ipv6) (a : l3Mode_v1) : l3Mode_v1 :=
  {| l3v1_Ipv6 := v; l3v1_ManagementProfile := l3v1_ManagementProfile a;
     l3v1_Mtu := l3v1_Mtu a; l3v1_NetflowProfile := l3v1_NetflowProfile a;
     l3v1_AdjustTcpMss := l3v1_AdjustTcpMss a;
     l3v1_StaticIps := l3v1_StaticIps a; l3v1_Dhcp := l3v1_Dhcp a;
     l3v1_Arp := l3v1_Arp a; l3v1_Subinterface := l3v1_Subinterface a |}.

Definition set_l3v1_Dhcp (v : option dhcpSettings) (a : l3Mode_v1) : l3Mode_v1 :=
  {| l3v1_Ipv6 := l3v1_Ipv6 a;
     l3v1_ManagementProfile := l3v1_ManagementProfile a;
     l3v1_Mtu := l3v1_Mtu a; l3v1_NetflowProfile := l3v1_NetflowProfile a;
     l3v1_AdjustTcpMss := l3v1_AdjustTcpMss a;
     l3v1_StaticIps := l3v1_StaticIps a; l3v1_Dhcp := v;
     l3v1_Arp := l3v1_Arp a; l3v1_Subinterface := l3v1_Subinterface a |}.

Definition set_l3v1_Arp (v : option RawXml) (a : l3Mode_v1) : l3Mode_v1 :=
  {| l3v1_Ipv6 := l3v1_Ipv6 a;
     l3v1_ManagementProfile := l3v1_ManagementProfile a;
     l3v1_Mtu := l3v1_Mtu a; l3v1_NetflowProfile := l3v1_NetflowProfile a;
     l3v1_AdjustTcpMss := l3v1_AdjustTcpMss a;
     l3v1_StaticIps := l3v1_StaticIps a; l3v1_Dhcp := l3v1_Dhcp a;
     l3v1_Arp := v; l3v1_Subinterface := l3v1_Subinterface a |}.

Definition set_l3v1_Subinterface (v : option RawXml) (a : l3Mode_v1) : l3Mode_v1 :=
  {| l3v1_Ipv6 := l3v1_Ipv6 a;
     l3v1_ManagementProfile := l3v1_ManagementProfile a;
     l3v1_Mtu := l3v1_Mtu a; l3v1_NetflowProfile := l3v1_NetflowProfile a;
     l3v1_AdjustTcpMss := l3v1_AdjustTcpMss a;
     l3v1_StaticIps := l3v1_StaticIps a; l3v1_Dhcp := l3v1_Dhcp a;
     l3v1_Arp := l3v1_Arp a; l3v1_Subinterface := v |}.

Definition set_l3v2_Ipv6 (v : ipv6) (a : l3Mode_v2) : l3Mode_v2 :=
  {| l3v2_Ipv6 := v; l3v2_ManagementProfile := l3v2_ManagementProfile a;
     l3v2_Mtu := l3v2_Mtu a; l3v2_NetflowProfile := l3v2_NetflowProfile a;
     l3v2_AdjustTcpMss := l3v2_AdjustTcpMss a;
     l3v2_Ipv4MssAdjust := l3v2_Ipv4MssAdjust a;
     l3v2_Ipv6MssAdjust := l3v2_Ipv6MssAdjust a;
     l3v2_StaticIps := l3v2_StaticIps a; l3v2_Dhcp := l3v2_Dhcp a;
     l3v2_Arp := l3v2_Arp a; l3v2_Subinterface := l3v2_Subinterface a |}.

Definition set_l3v2_Dhcp (v : option dhcpSettings) (a : l3Mode_v2) : l3Mode_v2 :=
  {| l3v2_Ipv6 := l3v2_Ipv6 a;
     l3v2_ManagementProfile := l3v2_ManagementProfile a;
     l3v2_Mtu := l3v2_Mtu a; l3v2_NetflowProfile := l3v2_NetflowProfile a;
     l3v2_AdjustTcpMss := l3v2_AdjustTcpMss a;
     l3v2_Ipv4MssAdjust := l3v2_Ipv4MssAdjust a;
     l3v2_Ipv6MssAdjust := l3v2_Ipv6MssAdjust a;
     l3v2_StaticIps := l3v2_StaticIps a; l3v2_Dhcp := v;
     l3v2_Arp := l3v2_Arp a; l3v2_Subinterface := l3v2_Subinterface a |}.

Definition set_l3v2_Arp (v : option RawXml) (a : l3Mode_v2) : l3Mode_v2 :=
  {| l3v2_Ipv6 := l3v2_Ipv6 a;
     l3v2_ManagementProfile := l3v2_ManagementProfile a;
     l3v2_Mtu := l3v2_Mtu a; l3v2_NetflowProfile := l3v2_NetflowProfile a;
     l3v2_AdjustTcpMss := l3v2_AdjustTcpMss a;
     l3v2_Ipv4MssAdjust := l3v2_Ipv4MssAdjust a;
     l3v2_Ipv6MssAdjust := l3v2_Ipv6MssAdjust a;
     l3v2_StaticIps := l3v2_StaticIps a; l3v2_Dhcp := l3v2_Dhcp a;
     l3v2_Arp := v; l3v2_Subinterface := l3v2_Subinterface a |}.

Definition set_l3v2_Subinterface (v : option RawXml) (a : l3Mode_v2) : l3Mode_v2 :=
  {| l3v2_Ipv6 := l3v2_Ipv6 a;
     l3v2_ManagementProfile := l3v2_ManagementProfile a;
     l3v2_Mtu := l3v2_Mtu a; l3v2_NetflowProfile := l3v2_NetflowProfile a;
     l3v2_AdjustTcpMss := l3v2_AdjustTcpMss a;
     l3v2_Ipv4MssAdjust := l3v2_Ipv4MssAdjust a;
     l3v2_Ipv6MssAdjust := l3v2_Ipv6MssAdjust a;
     l3v2_StaticIps := l3v2_StaticIps a; l3v2_Dhcp := l3v2_Dhcp a;
     l3v2_Arp := l3v2_Arp a; l3v2_Subinterface := v |}.

(** ** Normalizer *)

(** [(o *container_v1) Normalize()]. *)
Definition Normalize_v1 (o : container_v1) : Entry :=
  let a := v1_Answer o in
  let ans :=
    {| Name := v1_Name a; Mode := ""; StaticIps := []; EnableDhcp := false;
       CreateDhcpDefaultRoute := false; DhcpDefaultRouteMetric := 0;
       Ipv6Enabled := false; ManagementProfile := ""; Mtu := 0;
       AdjustTcpMss := false; NetflowProfile := ""; LldpEnabled := false;
       LldpProfile := ""; LinkSpeed := v1_LinkSpeed a;
       LinkDuplex := v1_LinkDuplex a; LinkState := v1_LinkState a;
       AggregateGroup := ""; Comment := v1_Comment a; Ipv4MssAdjust := 0;
       Ipv6MssAdjust := 0; raw := None |} in
  let ans := set_raw (Some ∅) ans in
  let ans :=
    match v1_ModeL3 a with
    | Some m =>
      let ans := set_Mode "layer3" ans in
      let ans := set_Ipv6Enabled (AsBool (ipv6_Enabled (l3v1_Ipv6 m))) ans in
      let ans := set_ManagementProfile (l3v1_ManagementProfile m) ans in
      let ans := set_Mtu (l3v1_Mtu m) ans in
      let ans := set_NetflowProfile (l3v1_NetflowProfile m) ans in
      let ans := set_AdjustTcpMss (AsBool (l3v1_AdjustTcpMss m)) ans in
      let ans := set_StaticIps (EntToStr (l3v1_StaticIps m)) ans in
      let ans :=
        match l3v1_Dhcp m with
        | Some d =>
          let ans := set_EnableDhcp (AsBool (dhcp_Enable d)) ans in
          let ans :=
            set_CreateDhcpDefaultRoute
              (AsBool (dhcp_CreateDefaultRoute d)) ans in
          set_DhcpDefaultRouteMetric (dhcp_Metric d) ans
        | None => ans
        end in
      let ans :=
        match l3v1_Arp m with
        | Some x => raw_put "arp" (CleanRawXml (Text x)) ans
        | None => ans
        end in
      let ans :=
        match l3v1_Subinterface m with
        | Some x => raw_put "l3subinterface" (CleanRawXml (Text x)) ans
        | None => ans
        end in
      match ipv6_Address (l3v1_Ipv6 m) with
      | Some x => raw_put "ipv6" (CleanRawXml (Text x)) ans
      | None => ans
      end
    | None =>
    match v1_ModeL2 a with
    | Some m =>
      let ans := set_Mode "layer2" ans in
      let ans := set_LldpEnabled (AsBool (otherMode_LldpEnabled m)) ans in
      let ans := set_LldpProfile (otherMode_LldpProfile m) ans in
      let ans := set_NetflowProfile (otherMode_NetflowProfile m) ans in
      match otherMode_Subinterface m with
      | Some x => raw_put "l2subinterface" (CleanRawXml (Text x)) ans
      | None => ans
      end
    | None =>
    match v1_ModeVwire a with
    | Some m =>
      let ans := set_Mode "virtual-wire" ans in
      let ans := set_LldpEnabled (AsBool (otherMode_LldpEnabled m)) ans in
      let ans := set_LldpProfile (otherMode_LldpProfile m) ans in
      set_NetflowProfile (otherMode_NetflowProfile m) ans
    | None =>
    match v1_TapMode a with
    | Some _ => set_Mode "tap" ans
    | None =>
    match v1_HaMode a with
    | Some _ => set_Mode "ha" ans
    | None =>
    match v1_DecryptMirrorMode a with
    | Some _ => set_Mode "decrypt-mirror" ans
    | None =>
    match v1_AggregateGroupMode a with
    | Some _ => set_Mode "aggregate-group" ans
    | None => ans
    end end end end end end end in
  nil_if_empty ans.

(** [(o *container_v2) Normalize()]. *)
Definition Normalize_v2 (o : container_v2) : Entry :=
  let a := v2_Answer o in
  let ans :=
    {| Name := v2_Name a; Mode := ""; StaticIps := []; EnableDhcp := false;
       CreateDhcpDefaultRoute := false; DhcpDefaultRouteMetric := 0;
       Ipv6Enabled := false; ManagementProfile := ""; Mtu := 0;
       AdjustTcpMss := false; NetflowProfile := ""; LldpEnabled := false;
       LldpProfile := ""; LinkSpeed := v2_LinkSpeed a;
       LinkDuplex := v2_LinkDuplex a; LinkState := v2_LinkState a;
       AggregateGroup := ""; Comment := v2_Comment a; Ipv4MssAdjust := 0;
       Ipv6MssAdjust := 0; raw := None |} in
  let ans := set_raw (Some ∅) ans in
  let ans :=
    match v2_ModeL3 a with
    | Some m =>
      let ans := set_Mode "layer3" ans in
      let ans := set_Ipv6Enabled (AsBool (ipv6_Enabled (l3v2_Ipv6 m))) ans in
      let ans := set_ManagementProfile (l3v2_ManagementProfile m) ans in
      let ans := set_Mtu (l3v2_Mtu m) ans in
      let ans := set_NetflowProfile (l3v2_NetflowProfile m) ans in
      let ans := set_AdjustTcpMss (AsBool (l3v2_AdjustTcpMss m)) ans in
      let ans := set_Ipv4MssAdjust (l3v2_Ipv4MssAdjust m) ans in
      let ans := set_Ipv6MssAdjust (l3v2_Ipv6MssAdjust m) ans in
      let ans := set_StaticIps (EntToStr (l3v2_StaticIps m)) ans in
      let ans :=
        match l3v2_Dhcp m with
        | Some d =>
          let ans := set_EnableDhcp (AsBool (dhcp_Enable d)) ans in
          let ans :=
            set_CreateDhcpDefaultRoute
              (AsBool (dhcp_CreateDefaultRoute d)) ans in
          set_DhcpDefaultRouteMetric (dhcp_Metric d) ans
        | None => ans
        end in
      let ans :=
        match l3v2_Arp m with
        | Some x => raw_put "arp" (CleanRawXml (Text x)) ans
        | None => ans
        end in
      let ans :=
        match l3v2_Subinterface m with
        | Some x => raw_put "l3subinterface" (CleanRawXml (Text x)) ans
        | None => ans
        end in
      match ipv6_Address (l3v2_Ipv6 m) with
      | Some x => raw_put "ipv6" (CleanRawXml (Text x)) ans
      | None => ans
      end
    | None =>
    match v2_ModeL2 a with
    | Some m =>
      let ans := set_Mode "layer2" ans in
      let ans := set_LldpEnabled (AsBool (otherMode_LldpEnabled m)) ans in
      let ans := set_LldpProfile (otherMode_LldpProfile m) ans in
      let ans := set_NetflowProfile (otherMode_NetflowProfile m) ans in
      match otherMode_Subinterface m with
      | Some x => raw_put "l2subinterface" (CleanRawXml (Text x)) ans
      | None => ans
      end
    | None =>
    match v2_ModeVwire a with
    | Some m =>
      let ans := set_Mode "virtual-wire" ans in
      let ans := set_LldpEnabled (AsBool (otherMode_LldpEnabled m)) ans in
      let ans := set_LldpProfile (otherMode_LldpProfile m) ans in
      set_NetflowProfile (otherMode_NetflowProfile m) ans
    | None =>
    match v2_TapMode a with
    | Some _ => set_Mode "tap" ans
    | None =>
    match v2_HaMode a with
    | Some _ => set_Mode "ha" ans
    | None =>
    match v2_DecryptMirrorMode a with
    | Some _ => set_Mode "decrypt-mirror" ans
    | None =>
    match v2_AggregateGroupMode a with
    | Some _ => set_Mode "aggregate-group" ans
    | None => ans
    end end end end end end end in
  nil_if_empty ans.

(** The [normalizer] interface and its two implementations. *)
Inductive normalizer :=
  | N1 (c : container_v1)
  | N2 (c : container_v2).

Definition Normalize (n : normalizer) : Entry :=
  match n with
  | N1 c => Normalize_v1 c
  | N2 c => Normalize_v2 c
  end.

(** The [interface{}] that a specify function returns. *)
Inductive wire :=
  | W1 (a : entry_v1)
  | W2 (a : entry_v2).

(** [specify_v1(e Entry) interface{}]; the [switch e.Mode] is the chain of
    string comparisons it stands for. *)
Definition specify_v1 (e : Entry) : wire :=
  let ans :=
    {| v1_XMLName := xml_Name_zero; v1_Name := Name e; v1_ModeL2 := None;
       v1_ModeL3 := None; v1_ModeVwire := None; v1_TapMode := None;
       v1_HaMode := None; v1_DecryptMirrorMode := None;
       v1_AggregateGroupMode := None; v1_LinkSpeed := LinkSpeed e;
       v1_LinkDuplex := LinkDuplex e; v1_LinkState := LinkState e;
       v1_Comment := Comment e |} in
  let ans :=
    if String.eqb (Mode e) "layer3" then
      let i :=
        {| l3v1_Ipv6 := ipv6_zero;
           l3v1_ManagementProfile := ManagementProfile e;
           l3v1_Mtu := Mtu e;
           l3v1_NetflowProfile := NetflowProfile e;
           l3v1_AdjustTcpMss := YesNo (AdjustTcpMss e);
           l3v1_StaticIps := StrToEnt (StaticIps e);
           l3v1_Dhcp := None; l3v1_Arp := None;
           l3v1_Subinterface := None |} in
      let i :=
        set_l3v1_Ipv6
          (set_ipv6_Enabled (YesNo (Ipv6Enabled e)) (l3v1_Ipv6 i)) i in
      let i :=
        if EnableDhcp e || CreateDhcpDefaultRoute e
           || negb (DhcpDefaultRouteMetric e =? 0)%Z
        then
          set_l3v1_Dhcp
            (Some {| dhcp_Enable := YesNo (EnableDhcp e);
                     dhcp_CreateDefaultRoute :=
                       YesNo (CreateDhcpDefaultRoute e);
                     dhcp_Metric := DhcpDefaultRouteMetric e |}) i
        else i in
      let i :=
        match raw_get "arp" e with
        | Some text => set_l3v1_Arp (Some {| Text := text |}) i
        | None => i
        end in
      let i :=
        match raw_get "l3subinterface" e with
        | Some text => set_l3v1_Subinterface (Some {| Text := text |}) i
        | None => i
        end in
      let i :=
        match raw_get "ipv6" e with
        | Some text =>
          set_l3v1_Ipv6
            (set_ipv6_Address (Some {| Text := text |}) (l3v1_Ipv6 i)) i
        | None => i
        end in
      set_v1_ModeL3 (Some i) ans
    else if String.eqb (Mode e) "layer2" then
      let i :=
        {| otherMode_LldpEnabled := YesNo (LldpEnabled e);
           otherMode_LldpProfile := LldpProfile e;
           otherMode_NetflowProfile := NetflowProfile e;
           otherMode_Subinterface := None |} in
      let i :=
        match raw_get "l2subinterface" e with
        | Some text => set_otherMode_Subinterface (Some {| Text := text |}) i
        | None => i
        end in
      set_v1_ModeL2 (Some i) ans
    else if String.eqb (Mode e) "virtual-wire" then
      let i :=
        {| otherMode_LldpEnabled := YesNo (LldpEnabled e);
           otherMode_LldpProfile := LldpProfile e;
           otherMode_NetflowProfile := NetflowProfile e;
           otherMode_Subinterface := None |} in
      set_v1_ModeVwire (Some i) ans
    else if String.eqb (Mode e) "tap" then
      set_v1_TapMode (Some Build_emptyMode) ans
    else if String.eqb (Mode e) "ha" then
      set_v1_HaMode (Some Build_emptyMode) ans
    else if String.eqb (Mode e) "decrypt-mirror" then
      set_v1_DecryptMirrorMode (Some Build_emptyMode) ans
    else if String.eqb (Mode e) "aggregate-group" then
      set_v1_AggregateGroupMode (Some Build_emptyMode) ans
    else ans in
  W1 ans.

(** [specify_v2(e Entry) interface{}]; the [switch e.Mode] is the chain of
    string comparisons it stands for. *)
Definition specify_v2 (e : Entry) : wire :=
  let ans :=
    {| v2_XMLName := xml_Name_zero; v2_Name := Name e; v2_ModeL2 := None;
       v2_ModeL3 := None; v2_ModeVwire := None; v2_TapMode := None;
       v2_HaMode := None; v2_DecryptMirrorMode := None;
       v2_AggregateGroupMode := None; v2_LinkSpeed := LinkSpeed e;
       v2_LinkDuplex := LinkDuplex e; v2_LinkState := LinkState e;
       v2_Comment := Comment e |} in
  let ans :=
    if String.eqb (Mode e) "layer3" then
      let i :=
        {| l3v2_Ipv6 := ipv6_zero;
           l3v2_ManagementProfile := ManagementProfile e;
           l3v2_Mtu := Mtu e;
           l3v2_NetflowProfile := NetflowProfile e;
           l3v2_AdjustTcpMss := YesNo (AdjustTcpMss e);
           l3v2_Ipv4MssAdjust := Ipv4MssAdjust e;
           l3v2_Ipv6MssAdjust := Ipv6MssAdjust e;
           l3v2_StaticIps := StrToEnt (StaticIps e);
           l3v2_Dhcp := None; l3v2_Arp := None;
           l3v2_Subinterface := None |} in
      let i :=
        set_l3v2_Ipv6
          (set_ipv6_Enabled (YesNo (Ipv6Enabled e)) (l3v2_Ipv6 i)) i in
      let i :=
        if EnableDhcp e || CreateDhcpDefaultRoute e
           || negb (DhcpDefaultRouteMetric e =? 0)%Z
        then
          set_l3v2_Dhcp
            (Some {| dhcp_Enable := YesNo (EnableDhcp e);
                     dhcp_CreateDefaultRoute :=
                       YesNo (CreateDhcpDefaultRoute e);
                     dhcp_Metric := DhcpDefaultRouteMetric e |}) i
        else i in
      let i :=
        match raw_get "arp" e with
        | Some text => set_l3v2_Arp (Some {| Text := text |}) i
        | None => i
        end in
      let i :=
        match raw_get "l3subinterface" e with
        | Some text => set_l3v2_Subinterface (Some {| Text := text |}) i
        | None => i
        end in
      let i :=
        match raw_get "ipv6" e with
        | Some text =>
          set_l3v2_Ipv6
            (set_ipv6_Address (Some {| Text := text |}) (l3v2_Ipv6 i)) i
        | None => i
        end in
      set_v2_ModeL3 (Some i) ans
    else if String.eqb (Mode e) "layer2" then
      let i :=
        {| otherMode_LldpEnabled := YesNo (LldpEnabled e);
           otherMode_LldpProfile := LldpProfile e;
           otherMode_NetflowProfile := NetflowProfile e;
           otherMode_Subinterface := None |} in
      let i :=
        match raw_get "l2subinterface" e with
        | Some text => set_otherMode_Subinterface (Some {| Text := text |}) i
        | None => i
        end in
      set_v2_ModeL2 (Some i) ans
    else if String.eqb (Mode e) "virtual-wire" then
      let i :=
        {| otherMode_LldpEnabled := YesNo (LldpEnabled e);
           otherMode_LldpProfile := LldpProfile e;
           otherMode_NetflowProfile := NetflowProfile e;
           otherMode_Subinterface := None |} in
      set_v2_ModeVwire (Some i) ans
    else if String.eqb (Mode e) "tap" then
      set_v2_TapMode (Some Build_emptyMode) ans
    else if String.eqb (Mode e) "ha" then
      set_v2_HaMode (Some Build_emptyMode) ans
    else if String.eqb (Mode e) "decrypt-mirror" then
      set_v2_DecryptMirrorMode (Some Build_emptyMode) ans
    else if String.eqb (Mode e) "aggregate-group" then
      set_v2_AggregateGroupMode (Some Build_emptyMode) ans
    else ans in
  W2 ans.

End Schemas.

(** ** The client and the programs run against it *)

(** [interface{}] arguments of [Delete]: a string, an [Entry], or a value of
    any other dynamic type (a pointer, a number, ...), kept abstract. *)
Inductive iface (Other : Type) :=
  | IString (v : string)
  | IEntry (v : Entry)
  | IOther (v : Other).
Arguments IString {Other} v.
Arguments IEntry {Other} v.
Arguments IOther {Other} v.

(** Go's [error] values: the one [Delete] makes itself with [fmt.Errorf],
    and whatever the client hands back. *)
Inductive error (Other : Type) :=
  | fmt_Errorf (format : string) (a : iface Other)
  | client_error (msg : string).
Arguments fmt_Errorf {Other} format a.
Arguments client_error {Other} msg.

(** The argument that follows the format string of a log call. *)
Inductive log_arg :=
  | LName (name : string)
  | LNames (names : list string).

Section Client.

Context {U : Util} {V : VersionOrder} {Other : Type}.

(** [util.BulkElement{XMLName, Data}]. *)
Record BulkElement := { XMLName : xml_Name; Data : list wire }.

(** The body handed to the [set] and [edit] primitives: [d.Config()] of a
    bulk element (computed inside package [util]) or one specified entry. *)
Inductive payload :=
  | Config (d : BulkElement)
  | Element (w : wire).

(** The methods of [util.XapiClient] that the write operations call, indexed
    by what they return.  [Set], [Edit] and [Delete] return the raw response
    and an error; the namespace drops the response, and always passes [nil]
    for the two trailing arguments, so neither is represented. *)
Inductive xapi : Type -> Type :=
  | XVersioning : xapi version.Number
  | XLogAction (format : string) (a : log_arg) : xapi unit
  | XSet (path : list string) (body : payload) : xapi (option (error Other))
  | XEdit (path : list string) (body : payload) : xapi (option (error Other))
  | XDelete (path : list string) : xapi (option (error Other))
  | XImportInterfaces (vsys : string) (names : list string)
      : xapi (option (error Other))
  | XUnimportInterfaces (vsys : string) (names : list string)
      : xapi (option (error Other)).

(** A namespace method is a program: it returns, or calls the client and
    goes on with the answer. *)
Inductive prog (A : Type) : Type :=
  | Ret (a : A)
  | Call {X : Type} (c : xapi X) (k : X -> prog A).
Arguments Ret {A} a.
Arguments Call {A X} c k.

Fixpoint bind {A B : Type} (f : A -> prog B) (p : prog A) : prog B :=
  match p with
  | Ret a => f a
  | Call c k => Call c (fun x => bind f (k x))
  end.

#[local] Instance prog_ret : MRet prog := @Ret.
#[local] Instance prog_bind : MBind prog := @bind.

Definition call {X : Type} (c : xapi X) : prog X := Call c Ret.

(** One call as a run records it: the arguments and the answer. *)
Inductive event :=
  | EVersioning (v : version.Number)
  | ELogAction (format : string) (a : log_arg)
  | ESet (path : list string) (body : payload) (err : option (error Other))
  | EEdit (path : list string) (body : payload) (err : option (error Other))
  | EDelete (path : list string) (err : option (error Other))
  | EImport (vsys : string) (names : list string)
      (err : option (error Other))
  | EUnimport (vsys : string) (names : list string)
      (err : option (error Other)).

Definition event_of {X : Type} (c : xapi X) : X -> event :=
  match c in xapi X return X -> event with
  | XVersioning => fun v => EVersioning v
  | XLogAction f a => fun _ => ELogAction f a
  | XSet p b => fun r => ESet p b r
  | XEdit p b => fun r => EEdit p b r
  | XDelete p => fun r => EDelete p r
  | XImportInterfaces v n => fun r => EImport v n r
  | XUnimportInterfaces v n => fun r => EUnimport v n r
  end.

(** A client is a state and an answer to every call in every state. *)
Record XapiClient := {
  con_state : Type;
  con_answer : forall X : Type, xapi X -> con_state -> X * con_state
}.

(** Running a program against a client: the result, the client's final
    state and the calls made, in order. *)
Fixpoint run {A : Type} (con : XapiClient) (p : prog A) (s : con_state con)
  : A * con_state con * list event :=
  match p with
  | Ret a => (a, s, [])
  | Call c k =>
    let (x, s1) := con_answer con _ c s in
    let '(a, s2, t) := run con (k x) s1 in
    (a, s2, event_of c x :: t)
  end.

Definition result {A S : Type} (r : A * S * list event) : A := r.1.1.

Definition calls {A S : Type} (r : A * S * list event) : list event := r.2.

(** ** The namespace *)

(** [c.versioning()], from the line after [v := c.con.Versioning()]. *)
Definition versioning_of (v : version.Number)
  : normalizer * (Entry -> wire) :=
  if Gte v {| version.Major := 7; version.Minor := 1; version.Patch := 0;
              version.Suffix := "" |}
  then (N2 {| v2_Answer := entry_v2_zero |}, specify_v2)
  else (N1 {| v1_Answer := entry_v1_zero |}, specify_v1).

Definition Eth_versioning : prog (normalizer * (Entry -> wire)) :=
  v ← call XVersioning;
  mret (versioning_of v).

Definition Eth_xpath (vals : list string) : list string :=
  [ "config";
    "devices";
    AsEntryXpath ["localhost.localdomain"];
    "network";
    "interface";
    "ethernet";
    AsEntryXpath vals ].

(** The loop [for i := range e] of [Set], from index [i] on: it appends
    [fn(e[i])] to [d.Data], stores the name at [n1[i]] and appends it to [n2]
    unless the mode is "ha" or "aggregate-group". *)
Fixpoint Set_loop (fn : Entry -> wire) (e : list Entry) (i : nat)
    (d : BulkElement) (n1 n2 : list string)
  : BulkElement * list string * list string :=
  match e with
  | [] => (d, n1, n2)
  | x :: e' =>
    let d := {| XMLName := XMLName d; Data := Data d ++ [fn x] |} in
    let n1 := <[i := Name x]> n1 in
    let n2 :=
      if negb (String.eqb (Mode x) "ha")
         && negb (String.eqb (Mode x) "aggregate-group")
      then n2 ++ [Name x] else n2 in
    Set_loop fn e' (S i) d n1 n2
  end.

(** [(c *Eth) Set(vsys string, e ...Entry) error]; [None] is the nil error. *)
Definition Eth_Set (vsys : string) (e : list Entry)
  : prog (option (error Other)) :=
  if (length e =? 0)%nat then mret None else
  '(_, fn) ← Eth_versioning;
  let n1 := replicate (length e) "" in
  let n2 := [] in
  let d := {| XMLName := {| Space := ""; Local := "ethernet" |};
              Data := [] |} in
  let '(d, n1, n2) := Set_loop fn e 0 d n1 n2 in
  _ ← call (XLogAction "(set) ethernet interfaces: %v" (LNames n1));
  let path := Eth_xpath n1 in
  let path :=
    if (length e =? 1)%nat then take (length path - 1) path
    else take (length path - 2) path in
  err ← call (XSet path (Config d));
  match err with
  | Some _ => mret err
  | None =>
    if String.eqb vsys "" || (length n2 =? 0)%nat then mret None
    else call (XImportInterfaces vsys n2)
  end.

(** [(c *Eth) Edit(vsys string, e Entry) error]. *)
Definition Eth_Edit (vsys : string) (e : Entry)
  : prog (option (error Other)) :=
  '(_, fn) ← Eth_versioning;
  _ ← call (XLogAction "(edit) ethernet interface %q" (LName (Name e)));
  let path := Eth_xpath [Name e] in
  err ← call (XEdit path (Element (fn e)));
  match err with
  | Some _ => mret err
  | None =>
    if String.eqb vsys "" || String.eqb (Mode e) "ha"
       || String.eqb (Mode e) "aggregate-group"
    then mret None
    else call (XImportInterfaces vsys [Name e])
  end.

(** The loop [for i := range e] of [Delete], from index [i] on: the type
    switch stores the name at [names[i]] or returns the error. *)
Fixpoint Delete_loop (e : list (iface Other)) (i : nat) (names : list string)
  : error Other + list string :=
  match e with
  | [] => inr names
  | x :: e' =>
    match x with
    | IString v => Delete_loop e' (S i) (<[i := v]> names)
    | IEntry v => Delete_loop e' (S i) (<[i := Name v]> names)
    | IOther _ => inl (fmt_Errorf "Unknown type sent to delete: %s" x)
    end
  end.

(** [(c *Eth) Delete(vsys string, e ...interface{}) error]. *)
Definition Eth_Delete (vsys : string) (e : list (iface Other))
  : prog (option (error Other)) :=
  if (length e =? 0)%nat then mret None else
  match Delete_loop e 0 (replicate (length e) "") with
  | inl err => mret (Some err)
  | inr names =>
    _ ← call (XLogAction "(delete) ethernet interface(s): %v"
                (LNames names));
    err ← call (XUnimportInterfaces vsys names);
    match err with
    | Some _ => mret err
    | None =>
      let path := Eth_xpath names in
      call (XDelete path)
    end
  end.

End Client.

(** ** Instances to evaluate the namespace on *)

(** Modelled from the spec: package [version] is not part of the sources; the
    spec describes the device version as "a 4-component ordered version value
    (major, minor, patch, optional suffix) ... compared with a
    greater-or-equal ordering".  The suffix is optional and takes no part in
    the order. *)
Definition Gte_spec (v o : version.Number) : bool :=
  if negb (version.Major v =? version.Major o)%Z
  then (version.Major o <? version.Major v)%Z
  else if negb (version.Minor v =? version.Minor o)%Z
  then (version.Minor o <? version.Minor v)%Z
  else (version.Patch o <=? version.Patch v)%Z.

Definition spec_version : VersionOrder := {| Gte := Gte_spec |}.

(** Modelled from the spec: package [util] is not part of the sources.  The
    spec asks of it an "explicit two-valued token representation" of
    booleans, a single-entry selector for one name and a combined selector
    for several; the fragment cleaner of this instance leaves its input as it
    is.  The instance serves to evaluate examples only: the theorems below
    hold for every instance of the signature. *)
Definition selector_names (vals : list string) : string :=
  String.concat " or " (map (fun v => "@name='" +:+ v +:+ "'") vals).

Definition sample_util : Util :=
  {| EntryType := list string;
     StrToEnt := fun l => match l with [] => None | _ => Some l end;
     EntToStr := fun o => match o with Some l => l | None => [] end;
     YesNo := fun b => if b then "yes" else "no";
     AsBool := fun s => String.eqb s "yes";
     CleanRawXml := fun s => s;
     AsEntryXpath := fun vals =>
       match vals with
       | [] => "entry"
       | _ => "entry[" +:+ selector_names vals +:+ "]"
       end |}.

(** A client on which every call succeeds and which reports the given
    version; its state counts the calls it has answered. *)
Definition stub_answer {U : Util} {Other : Type} (v : version.Number)
    (X : Type) (c : xapi (Other := Other) X) (n : nat) : X * nat :=
  match c in xapi X return X * nat with
  | XVersioning => (v, S n)
  | XLogAction _ _ => (tt, S n)
  | XSet _ _ => (None, S n)
  | XEdit _ _ => (None, S n)
  | XDelete _ => (None, S n)
  | XImportInterfaces _ _ => (None, S n)
  | XUnimportInterfaces _ _ => (None, S n)
  end.

Definition stub {U : Util} {Other : Type} (v : version.Number)
  : XapiClient (Other := Other) :=
  {| con_state := nat; con_answer := stub_answer v |}.

(** A client on which the scope calls (import, unimport) fail. *)
Definition scope_failing_answer {U : Util} {Other : Type}
    (v : version.Number) (X : Type) (c : xapi (Other := Other) X) (n : nat)
  : X * nat :=
  match c in xapi X return X * nat with
  | XImportInterfaces _ _ => (Some (client_error "import refused"), S n)
  | XUnimportInterfaces _ _ => (Some (client_error "unimport refused"), S n)
  | c => stub_answer v _ c n
  end.

Definition scope_failing {U : Util} {Other : Type} (v : version.Number)
  : XapiClient (Other := Other) :=
  {| con_state := nat; con_answer := scope_failing_answer v |}.

Definition v7_0_0 : version.Number :=
  {| version.Major := 7; version.Minor := 0; version.Patch := 0;
     version.Suffix := "" |}.

Definition v7_1_0 : version.Number :=
  {| version.Major := 7; version.Minor := 1; version.Patch := 0;
     version.Suffix := "" |}.

Definition v8_0_2 : version.Number :=
  {| version.Major := 8; version.Minor := 0; version.Patch := 2;
     version.Suffix := "" |}.

(** * Properties *)

(** ** Copy *)

(** The frame property as the specification words it: after [o.Copy(s)]
    every field other than [Name], the fragment map included, is that of
    [s], and [Name] is that of [o]. *)
Definition Copy_all_but_Name (o s : Entry) : Prop :=
  let o' := Copy o s in
  Name o' = Name o /\
  Mode o' = Mode s /\
  StaticIps o' = StaticIps s /\
  EnableDhcp o' = EnableDhcp s /\
  CreateDhcpDefaultRoute o' = CreateDhcpDefaultRoute s /\
  DhcpDefaultRouteMetric o' = DhcpDefaultRouteMetric s /\
  Ipv6Enabled o' = Ipv6Enabled s /\
  ManagementProfile o' = ManagementProfile s /\
  Mtu o' = Mtu s /\
  AdjustTcpMss o' = AdjustTcpMss s /\
  NetflowProfile o' = NetflowProfile s /\
  LldpEnabled o' = LldpEnabled s /\
  LldpProfile o' = LldpProfile s /\
  LinkSpeed o' = LinkSpeed s /\
  LinkDuplex o' = LinkDuplex s /\
  LinkState o' = LinkState s /\
  AggregateGroup o' = AggregateGroup s /\
  Comment o' = Comment s /\
  Ipv4MssAdjust o' = Ipv4MssAdjust s /\
  Ipv6MssAdjust o' = Ipv6MssAdjust s /\
  raw o' = raw s.

Definition eth1_plain : Entry := set_Mode "layer3" Entry_zero.

Definition eth1_with_arp : Entry :=
  set_raw (Some {[ "arp" := "<entry name='10.0.0.1'/>" ]}) eth1_plain.

(** C7, as stated, fails: copying an entry that carries an "arp" fragment
    into one without fragments leaves the receiver without fragments. *)
Lemma Copy_fragments_counterexample :
  ~ Copy_all_but_Name eth1_plain eth1_with_arp.
Proof.
  unfold Copy_all_but_Name.
  intros H.
  do 20 (destruct H as [_ H]).
  simpl in H.
  discriminate H.
Qed.

(** C7, amended: after [o.Copy(s)] every exported field other than [Name]
    equals the field of [s]; [Name] and the fragment map [raw] are those [o]
    had before the call. *)
Theorem Copy_frame (o s : Entry) :
  let o' := Copy o s in
  Name o' = Name o /\
  raw o' = raw o /\
  Mode o' = Mode s /\
  StaticIps o' = StaticIps s /\
  EnableDhcp o' = EnableDhcp s /\
  CreateDhcpDefaultRoute o' = CreateDhcpDefaultRoute s /\
  DhcpDefaultRouteMetric o' = DhcpDefaultRouteMetric s /\
  Ipv6Enabled o' = Ipv6Enabled s /\
  ManagementProfile o' = ManagementProfile s /\
  Mtu o' = Mtu s /\
  AdjustTcpMss o' = AdjustTcpMss s /\
  NetflowProfile o' = NetflowProfile s /\
  LldpEnabled o' = LldpEnabled s /\
  LldpProfile o' = LldpProfile s /\
  LinkSpeed o' = LinkSpeed s /\
  LinkDuplex o' = LinkDuplex s /\
  LinkState o' = LinkState s /\
  AggregateGroup o' = AggregateGroup s /\
  Comment o' = Comment s /\
  Ipv4MssAdjust o' = Ipv4MssAdjust s /\
  Ipv6MssAdjust o' = Ipv6MssAdjust s.
Proof.
  cbv zeta.
  repeat split; reflexivity.
Qed.

(** ** Version selection *)

Inductive schema := schema_v1 | schema_v2.

Section Versioning.

Context {U : Util} {V : VersionOrder} {Other : Type}.

(** The schema of a normalizer, and the one selected for a version. *)
Definition schema_of (n : normalizer) : schema :=
  match n with
  | N1 _ => schema_v1
  | N2 _ => schema_v2
  end.

Definition selected (v : version.Number) : schema :=
  schema_of (versioning_of v).1.

Definition threshold : version.Number :=
  {| version.Major := 7; version.Minor := 1; version.Patch := 0;
     version.Suffix := "" |}.

Lemma versioning_of_cases (v : version.Number) :
  (Gte v threshold = true /\
   versioning_of v = (N2 {| v2_Answer := entry_v2_zero |}, specify_v2)) \/
  (Gte v threshold = false /\
   versioning_of v = (N1 {| v1_Answer := entry_v1_zero |}, specify_v1)).
Proof.
  unfold versioning_of, threshold.
  destruct (Gte v _); [left | right]; split; reflexivity.
Qed.

Lemma selected_v2_iff (v : version.Number) :
  selected v = schema_v2 <-> Gte v threshold = true.
Proof.
  unfold selected.
  destruct (versioning_of_cases v) as [[Hg ->] | [Hg ->]]; simpl;
    rewrite Hg; split; congruence.
Qed.

Lemma run_versioning (con : XapiClient (Other := Other))
    (s : con_state con) :
  run con Eth_versioning s =
  (versioning_of (con_answer con _ XVersioning s).1,
   (con_answer con _ XVersioning s).2,
   [EVersioning (con_answer con _ XVersioning s).1]).
Proof.
  unfold Eth_versioning. simpl.
  destruct (con_answer con _ XVersioning s) as [v s1].
  reflexivity.
Qed.

(** C5: selection is total and picks exactly the v2 pair at or above 7.1.0
    and the v1 pair below it, on every client; versions on the same side of
    the threshold select the same pair; and along increasing versions the
    selection moves from v1 to v2 at most once and never back. *)
Theorem versioning_total_monotone (L : VersionLaws V) :
  (forall v : version.Number,
     versioning_of v =
       (if Gte v threshold
        then (N2 {| v2_Answer := entry_v2_zero |}, specify_v2)
        else (N1 {| v1_Answer := entry_v1_zero |}, specify_v1))) /\
  (forall (con : XapiClient (Other := Other)) (s : con_state con),
     exists v s', run con Eth_versioning s
                  = (versioning_of v, s', [EVersioning v])) /\
  (forall a b : version.Number,
     Gte a threshold = Gte b threshold -> versioning_of a = versioning_of b) /\
  (forall a b : version.Number,
     Gte b a = true -> selected a = schema_v2 -> selected b = schema_v2) /\
  (forall a b : version.Number,
     Gte b a = true -> selected b = schema_v1 -> selected a = schema_v1).
Proof.
  split; [| split; [| split; [| split]]].
  - intros v. reflexivity.
  - intros con s. rewrite run_versioning. eauto.
  - intros a b Hab. unfold versioning_of. fold threshold. rewrite Hab.
    reflexivity.
  - intros a b Hba Ha.
    apply selected_v2_iff. apply selected_v2_iff in Ha.
    exact (Gte_trans _ _ _ Hba Ha).
  - intros a b Hba Hb.
    destruct (selected a) eqn:Ha; [reflexivity |].
    apply selected_v2_iff in Ha.
    pose proof (Gte_trans _ _ _ Hba Ha) as Hb2.
    apply selected_v2_iff in Hb2. congruence.
Qed.

End Versioning.

Lemma Gte_spec_trans (a b c : version.Number) :
  Gte_spec c b = true -> Gte_spec b a = true -> Gte_spec c a = true.
Proof.
  unfold Gte_spec.
  destruct a as [a1 a2 a3 ?], b as [b1 b2 b3 ?], c as [c1 c2 c3 ?]; simpl.
  repeat match goal with
         | |- context [(?x =? ?y)%Z] => destruct (Z.eqb_spec x y)
         end; simpl; lia.
Qed.

Definition spec_version_laws : VersionLaws spec_version :=
  Build_VersionLaws spec_version Gte_spec_trans.

(** The selection, at the order modelled from the spec. *)
Lemma versioning_total_monotone_witness :
  VersionLaws spec_version /\
  @selected sample_util spec_version v7_0_0 = schema_v1 /\
  @selected sample_util spec_version v8_0_2 = schema_v2 /\
  (forall a b : version.Number,
     Gte_spec b a = true ->
     @selected sample_util spec_version a = schema_v2 ->
     @selected sample_util spec_version b = schema_v2).
Proof.
  split; [exact spec_version_laws |].
  split; [reflexivity |].
  split; [reflexivity |].
  exact (proj1 (proj2 (proj2 (proj2
    (@versioning_total_monotone sample_util spec_version unit
       spec_version_laws))))).
Defined.

(** ** The write and delete operations *)

Section Operations.

Context {U : Util} {V : VersionOrder} {Other : Type}.

Abbreviation err := (option (error Other)).
Abbreviation client := (XapiClient (Other := Other)).
Abbreviation events := (list (event (Other := Other))).

(** An entity takes part in the follow-up import unless its mode is "ha" or
    "aggregate-group". *)
Definition importable (x : Entry) : Prop :=
  Mode x <> "ha" /\ Mode x <> "aggregate-group".

#[global] Instance importable_dec (x : Entry) : Decision (importable x).
Proof. unfold importable. apply _. Defined.

Lemma importable_test (x : Entry) :
  negb (String.eqb (Mode x) "ha")
  && negb (String.eqb (Mode x) "aggregate-group")
  = bool_decide (importable x).
Proof.
  unfold importable.
  destruct (String.eqb_spec (Mode x) "ha") as [E1 | E1];
    destruct (String.eqb_spec (Mode x) "aggregate-group") as [E2 | E2];
    simpl; symmetry;
    first [ apply bool_decide_eq_true; tauto
          | apply bool_decide_eq_false; tauto ].
Qed.

(** What the loop of [Set] leaves in [d.Data], [n1] and [n2]. *)
Lemma Set_loop_spec (fn : Entry -> wire) (e : list Entry) :
  forall (i : nat) (d : BulkElement) (n1 n2 : list string),
    length n1 = i + length e ->
    Set_loop fn e i d n1 n2 =
    ({| XMLName := XMLName d; Data := Data d ++ map fn e |},
     take i n1 ++ map Name e,
     n2 ++ map Name (filter importable e)).
Proof.
  induction e as [| x e IH]; intros i d n1 n2 Hlen; simpl in *.
  - rewrite !app_nil_r. rewrite take_ge by lia. destruct d; reflexivity.
  - rewrite IH by (rewrite length_insert; lia). simpl.
    rewrite <- app_assoc. simpl.
    rewrite (take_S_r _ _ (Name x))
      by (apply list_lookup_insert_eq; lia).
    rewrite take_insert_ge by lia.
    rewrite <- app_assoc. simpl.
    rewrite importable_test, filter_cons.
    destruct (decide (importable x)) as [Hx | Hx].
    + rewrite bool_decide_eq_true_2 by exact Hx.
      rewrite <- app_assoc. reflexivity.
    + rewrite bool_decide_eq_false_2 by exact Hx. reflexivity.
Qed.

(** The name an identifier of [Delete] resolves to, when it has one. *)
Definition name_of (x : iface Other) : option string :=
  match x with
  | IString v => Some v
  | IEntry v => Some (Name v)
  | IOther _ => None
  end.

(** What the loop of [Delete] returns: the names when every identifier has
    one, and otherwise the error for the first one that has none. *)
Lemma Delete_loop_names (e : list (iface Other)) :
  forall (i : nat) (names ns : list string),
    length names = i + length e ->
    mapM name_of e = Some ns ->
    Delete_loop e i names = inr (take i names ++ ns).
Proof.
  induction e as [| x e IH]; intros i names ns Hlen Hns; simpl in *.
  - injection Hns as <-. rewrite app_nil_r, take_ge by lia. reflexivity.
  - destruct x as [v | v | v]; simpl in Hns; [| | discriminate Hns];
      destruct (mapM name_of e) as [ns' |] eqn:Hm; simpl in Hns;
      try discriminate Hns; injection Hns as <-;
      (rewrite (IH (S i) _ ns') by (rewrite ?length_insert; lia || reflexivity));
      (erewrite take_S_r by (apply list_lookup_insert_eq; lia));
      rewrite take_insert_ge by lia;
      rewrite <- app_assoc; reflexivity.
Qed.

Lemma Delete_loop_error (e : list (iface Other)) :
  forall (i : nat) (names : list string)
         (pre post : list (iface Other)) (v : Other),
    e = pre ++ IOther v :: post ->
    Forall (fun x => is_Some (name_of x)) pre ->
    Delete_loop e i names =
    inl (fmt_Errorf "Unknown type sent to delete: %s" (IOther v)).
Proof.
  intros i names pre. revert e i names.
  induction pre as [| x pre IH]; intros e i names post v -> Hpre; simpl.
  - reflexivity.
  - inversion Hpre as [| ? ? [n Hn] Hpre']; subst.
    destruct x as [w | w | w]; simpl in Hn; try discriminate Hn;
      apply (IH _ _ _ post v eq_refl Hpre').
Qed.

(** Every list with an identifier of another type splits at the first one. *)
Lemma first_unknown (e : list (iface Other)) :
  (exists w, IOther w ∈ e) ->
  exists pre v post,
    e = pre ++ IOther v :: post /\
    Forall (fun x => is_Some (name_of x)) pre.
Proof.
  induction e as [| x e IH]; intros [w Hw].
  - inversion Hw.
  - destruct x as [s | s | s].
    + destruct IH as (pre & v & post & -> & Hpre).
      { exists w. apply elem_of_cons in Hw as [Hw | Hw];
        [discriminate Hw | exact Hw]. }
      exists (IString s :: pre), v, post. split; [reflexivity |].
      constructor; [simpl; eauto | assumption].
    + destruct IH as (pre & v & post & -> & Hpre).
      { exists w. apply elem_of_cons in Hw as [Hw | Hw];
        [discriminate Hw | exact Hw]. }
      exists (IEntry s :: pre), v, post. split; [reflexivity |].
      constructor; [simpl; eauto | assumption].
    + exists [], s, e. split; [reflexivity | constructor].
Qed.

(** *** The runs of the three operations, call by call *)

Definition ethernet_bulk (data : list wire) : BulkElement :=
  {| XMLName := {| Space := ""; Local := "ethernet" |}; Data := data |}.

Lemma run_Set (con : client) (s : con_state con) (vsys : string)
    (x : Entry) (e : list Entry) :
  let es := x :: e in
  let a1 := con_answer con _ XVersioning s in
  let fn := (versioning_of a1.1).2 in
  let d := ethernet_bulk (map fn es) in
  let n1 := map Name es in
  let n2 := map Name (filter importable es) in
  let a2 :=
    con_answer con _
      (XLogAction "(set) ethernet interfaces: %v" (LNames n1)) a1.2 in
  let path :=
    if (length es =? 1)%nat then take 6 (Eth_xpath n1)
    else take 5 (Eth_xpath n1) in
  let a3 := con_answer con _ (XSet path (Config d)) a2.2 in
  let a4 := con_answer con _ (XImportInterfaces vsys n2) a3.2 in
  let pre :=
    [ EVersioning a1.1;
      ELogAction "(set) ethernet interfaces: %v" (LNames n1);
      ESet path (Config d) a3.1 ] in
  run con (Eth_Set vsys es) s =
  match a3.1 with
  | Some _ => (a3.1, a3.2, pre)
  | None =>
    if String.eqb vsys "" || (length n2 =? 0)%nat then (None, a3.2, pre)
    else (a4.1, a4.2, pre ++ [EImport vsys n2 a4.1])
  end.
Proof.
  cbv zeta.
  unfold Eth_Set, Eth_versioning.
  cbn [length Nat.eqb mbind prog_bind bind call run mret prog_ret].
  destruct (con_answer con _ XVersioning s) as [v s1].
  cbn [fst snd].
  destruct (versioning_of v) as [n fn].
  cbn [fst snd].
  rewrite Set_loop_spec by (rewrite length_replicate; simpl; lia).
  rewrite take_0. cbn [app Data XMLName].
  fold (ethernet_bulk (map fn (x :: e))).
  cbn [mbind prog_bind bind call run mret prog_ret].
  destruct (con_answer con _ (XLogAction _ _) s1) as [[] s2].
  cbn [fst snd].
  change (length (Eth_xpath (map Name (x :: e))) - 1) with 6.
  change (length (Eth_xpath (map Name (x :: e))) - 2) with 5.
  destruct (con_answer con _ (XSet _ _) s2) as [[r |] s3];
    cbn [fst snd run event_of]; [reflexivity |].
  destruct (String.eqb vsys "" || (length _ =? 0)%nat);
    cbn [run]; [reflexivity |].
  unfold call. cbn [run].
  destruct (con_answer con _ (XImportInterfaces _ _) s3) as [r2 s4].
  reflexivity.
Qed.

Lemma run_Edit (con : client) (s : con_state con) (vsys : string)
    (x : Entry) :
  let a1 := con_answer con _ XVersioning s in
  let fn := (versioning_of a1.1).2 in
  let a2 :=
    con_answer con _
      (XLogAction "(edit) ethernet interface %q" (LName (Name x))) a1.2 in
  let path := Eth_xpath [Name x] in
  let a3 := con_answer con _ (XEdit path (Element (fn x))) a2.2 in
  let a4 := con_answer con _ (XImportInterfaces vsys [Name x]) a3.2 in
  let pre :=
    [ EVersioning a1.1;
      ELogAction "(edit) ethernet interface %q" (LName (Name x));
      EEdit path (Element (fn x)) a3.1 ] in
  run con (Eth_Edit vsys x) s =
  match a3.1 with
  | Some _ => (a3.1, a3.2, pre)
  | None =>
    if String.eqb vsys "" || String.eqb (Mode x) "ha"
       || String.eqb (Mode x) "aggregate-group"
    then (None, a3.2, pre)
    else (a4.1, a4.2, pre ++ [EImport vsys [Name x] a4.1])
  end.
Proof.
  cbv zeta.
  unfold Eth_Edit, Eth_versioning.
  cbn [mbind prog_bind bind call run mret prog_ret].
  destruct (con_answer con _ XVersioning s) as [v s1].
  cbn [fst snd].
  destruct (versioning_of v) as [n fn].
  cbn [fst snd mbind prog_bind bind call run mret prog_ret].
  destruct (con_answer con _ (XLogAction _ _) s1) as [[] s2].
  cbn [fst snd].
  destruct (con_answer con _ (XEdit _ _) s2) as [[r |] s3];
    cbn [fst snd run event_of]; [reflexivity |].
  destruct (String.eqb vsys "" || String.eqb (Mode x) "ha"
            || String.eqb (Mode x) "aggregate-group");
    cbn [run]; [reflexivity |].
  unfold call. cbn [run].
  destruct (con_answer con _ (XImportInterfaces _ _) s3) as [r2 s4].
  reflexivity.
Qed.

Lemma run_Delete (con : client) (s : con_state con) (vsys : string)
    (e : list (iface Other)) (names : list string) :
  e <> [] ->
  mapM name_of e = Some names ->
  let a1 :=
    con_answer con _
      (XLogAction "(delete) ethernet interface(s): %v" (LNames names)) s in
  let a2 := con_answer con _ (XUnimportInterfaces vsys names) a1.2 in
  let a3 := con_answer con _ (XDelete (Eth_xpath names)) a2.2 in
  let pre :=
    [ ELogAction "(delete) ethernet interface(s): %v" (LNames names);
      EUnimport vsys names a2.1 ] in
  run con (Eth_Delete vsys e) s =
  match a2.1 with
  | Some _ => (a2.1, a2.2, pre)
  | None => (a3.1, a3.2, pre ++ [EDelete (Eth_xpath names) a3.1])
  end.
Proof.
  intros Hne Hnames. cbv zeta.
  unfold Eth_Delete.
  destruct e as [| x e]; [congruence |].
  cbn [length Nat.eqb].
  rewrite (Delete_loop_names _ _ _ names)
    by (rewrite ?length_replicate; simpl; lia || assumption).
  rewrite take_0. cbn [app mbind prog_bind bind call run mret prog_ret].
  destruct (con_answer con _ (XLogAction _ _) s) as [[] s1].
  cbn [fst snd].
  destruct (con_answer con _ (XUnimportInterfaces _ _) s1) as [[r |] s2];
    cbn [fst snd run event_of]; [reflexivity |].
  unfold call. cbn [run].
  destruct (con_answer con _ (XDelete _) s2) as [r2 s3].
  reflexivity.
Qed.

(** *** What a run shows of each kind of call *)

Definition set_paths (t : events) : list (list string) :=
  omap (fun ev => match ev with ESet p _ _ => Some p | _ => None end) t.

Definition edit_paths (t : events) : list (list string) :=
  omap (fun ev => match ev with EEdit p _ _ => Some p | _ => None end) t.

Definition import_calls (t : events) : list (string * list string) :=
  omap (fun ev =>
          match ev with EImport v ns _ => Some (v, ns) | _ => None end) t.

Definition unimport_calls (t : events) : list (string * list string) :=
  omap (fun ev =>
          match ev with EUnimport v ns _ => Some (v, ns) | _ => None end) t.

Definition delete_paths (t : events) : list (list string) :=
  omap (fun ev => match ev with EDelete p _ => Some p | _ => None end) t.

(** The path of the "ethernet" container, and the batch rule as the
    specification words it for one entity: [Set] passes to [set] the path
    that [Edit] passes to [edit]. *)
Definition container_path : list string :=
  [ "config"; "devices"; AsEntryXpath ["localhost.localdomain"];
    "network"; "interface"; "ethernet" ].

Definition Set_single_path_as_Edit (con : client) (s : con_state con)
    (vsys : string) (x : Entry) : Prop :=
  set_paths (calls (run con (Eth_Set vsys [x]) s))
  = edit_paths (calls (run con (Eth_Edit vsys x) s)).

(** C2, amended: [Edit] passes the entry path, the container path followed
    by the selector of the entity's name.  [Set] with one entity passes the
    container path, that is the entry path without its selector; [Set] with
    two or more entities passes the container path without its last segment
    "ethernet", the bulk body being the "ethernet" element itself.  Neither
    path of [Set] is an entry path. *)
Theorem Set_path_rule (con : client) (s : con_state con) (vsys : string)
    (x y : Entry) (rest : list Entry) :
  edit_paths (calls (run con (Eth_Edit vsys x) s))
    = [container_path ++ [AsEntryXpath [Name x]]] /\
  set_paths (calls (run con (Eth_Set vsys [x]) s)) = [container_path] /\
  set_paths (calls (run con (Eth_Set vsys (x :: y :: rest)) s))
    = [[ "config"; "devices"; AsEntryXpath ["localhost.localdomain"];
         "network"; "interface" ]].
Proof.
  split; [| split].
  - rewrite run_Edit. cbv zeta.
    destruct (con_answer con _ (XEdit _ _) _).1;
      [reflexivity |].
    destruct (_ || _); reflexivity.
  - rewrite run_Set. cbv zeta.
    destruct (con_answer con _ (XSet _ _) _).1; [reflexivity |].
    destruct (_ || _); reflexivity.
  - rewrite run_Set. cbv zeta.
    destruct (con_answer con _ (XSet _ _) _).1; [reflexivity |].
    destruct (_ || _); reflexivity.
Qed.

(** C9: [Set] with no entity and [Delete] with no identifier return no
    error, make no call at all and leave the client as it was, whatever the
    scope. *)
Theorem empty_batch_noop (con : client) (s : con_state con) (vsys : string) :
  run con (Eth_Set vsys []) s = (None, s, []) /\
  run con (Eth_Delete vsys []) s = (None, s, []).
Proof. split; reflexivity. Qed.

(** C8: when some identifier is neither a string nor an [Entry], [Delete]
    returns the error made from the first such identifier, and makes no call:
    neither the log call, nor unimport, nor delete. *)
Theorem Delete_unknown_type (con : client) (s : con_state con)
    (vsys : string) (e : list (iface Other)) :
  (exists w : Other, IOther w ∈ e) ->
  exists (pre : list (iface Other)) (v : Other) (post : list (iface Other)),
    e = pre ++ IOther v :: post /\
    Forall (fun x => is_Some (name_of x)) pre /\
    run con (Eth_Delete vsys e) s =
    (Some (fmt_Errorf "Unknown type sent to delete: %s" (IOther v)), s, []).
Proof.
  intros Hbad.
  destruct (first_unknown e Hbad) as (pre & v & post & He & Hpre).
  exists pre, v, post. split; [exact He |]. split; [exact Hpre |].
  unfold Eth_Delete.
  rewrite (Delete_loop_error e 0 _ pre post v He Hpre).
  destruct e as [| x e]; [destruct pre; discriminate He |].
  reflexivity.
Qed.

(** C6: with identifiers that all resolve to names, [Delete] calls unimport
    with the scope and all the names before anything is deleted; when that
    call returns an error, [Delete] returns it and the run ends there, with
    no delete call; when it succeeds, the one delete call follows and its
    answer is returned. *)
Theorem Delete_unimport_before_delete (con : client) (s : con_state con)
    (vsys : string) (e : list (iface Other)) (names : list string) :
  e <> [] ->
  mapM name_of e = Some names ->
  let out := run con (Eth_Delete vsys e) s in
  exists (r : err) (rest : events),
    calls out =
      ELogAction "(delete) ethernet interface(s): %v" (LNames names)
      :: EUnimport vsys names r :: rest /\
    match r with
    | Some _ => rest = [] /\ result out = r /\ delete_paths (calls out) = []
    | None =>
      exists r2 : err,
        rest = [EDelete (Eth_xpath names) r2] /\ result out = r2
    end.
Proof.
  intros Hne Hnames. cbv zeta.
  rewrite (run_Delete con s vsys e names Hne Hnames). cbv zeta.
  destruct (con_answer con _ (XUnimportInterfaces _ _) _) as [[r |] s2].
  - exists (Some r), []. cbn. auto.
  - cbn [fst snd].
    destruct (con_answer con _ (XDelete _) s2) as [r2 s3].
    exists None, [EDelete (Eth_xpath names) r2]. cbn. eauto.
Qed.

(** C4: with a non-empty scope, once the set primitive has succeeded, [Set]
    makes one import call, for the scope and the names, in input order, of
    the entities whose mode is neither "ha" nor "aggregate-group"; when no
    entity is left it makes none and returns no error.  Likewise, once the
    edit primitive has succeeded, [Edit] makes the import call for its
    entity exactly when the mode is neither of the two, and otherwise
    returns no error. *)
Theorem import_exclusion (con : client) (s : con_state con) (vsys : string)
    (e : list Entry) (x : Entry) :
  vsys <> "" ->
  let outS := run con (Eth_Set vsys e) s in
  let outE := run con (Eth_Edit vsys x) s in
  let ns := map Name (filter importable e) in
  ((forall p b r, ESet p b r ∈ calls outS -> r = None) ->
   import_calls (calls outS)
     = (if decide (ns = []) then [] else [(vsys, ns)]) /\
   (ns = [] -> result outS = None)) /\
  ((forall p b r, EEdit p b r ∈ calls outE -> r = None) ->
   import_calls (calls outE)
     = (if decide (importable x) then [(vsys, [Name x])] else []) /\
   (~ importable x -> result outE = None)).
Proof.
  intros Hvsys. cbv zeta.
  assert (Hv : String.eqb vsys "" = false)
    by (apply String.eqb_neq; exact Hvsys).
  split.
  - destruct e as [| x0 e]; [intros _; split; reflexivity |].
    rewrite run_Set. cbv zeta.
    set (ns := map Name (filter importable (x0 :: e))).
    rewrite Hv. cbn [orb].
    destruct (con_answer con _ (XSet _ _) _) as [[r |] s3] eqn:E3;
      cbn [fst snd].
    + intros Hok. exfalso.
      specialize (Hok _ _ (Some r)
                    ltac:(apply list_elem_of_In; simpl; eauto)).
      discriminate Hok.
    + intros _.
      destruct ns as [| n ns']; cbn [length Nat.eqb].
      * split; reflexivity.
      * rewrite decide_False by discriminate.
        split; [reflexivity | discriminate].
  - rewrite run_Edit. cbv zeta.
    rewrite Hv. cbn [orb].
    destruct (con_answer con _ (XEdit _ _) _) as [[r |] s3] eqn:E3;
      cbn [fst snd].
    + intros Hok. exfalso.
      specialize (Hok _ _ (Some r)
                    ltac:(apply list_elem_of_In; simpl; eauto)).
      discriminate Hok.
    + intros _.
      unfold importable.
      destruct (String.eqb_spec (Mode x) "ha") as [E1 | E1];
        destruct (String.eqb_spec (Mode x) "aggregate-group") as [E2 | E2];
        cbn [orb];
        first [ rewrite decide_True by tauto; split; [reflexivity | tauto]
              | rewrite decide_False by tauto; split; reflexivity ].
Qed.

End Operations.

(** ** The operations on examples *)

Definition entry_named (name mode : string) : Entry :=
  {| Name := name; Mode := mode; StaticIps := []; EnableDhcp := false;
     CreateDhcpDefaultRoute := false; DhcpDefaultRouteMetric := 0;
     Ipv6Enabled := false; ManagementProfile := ""; Mtu := 0;
     AdjustTcpMss := false; NetflowProfile := ""; LldpEnabled := false;
     LldpProfile := ""; LinkSpeed := ""; LinkDuplex := ""; LinkState := "";
     AggregateGroup := ""; Comment := ""; Ipv4MssAdjust := 0;
     Ipv6MssAdjust := 0; raw := None |}.

Definition eth1_ha : Entry := entry_named "ethernet1/1" "ha".
Definition eth2_l3 : Entry := entry_named "ethernet1/2" "layer3".

Section Examples.

#[local] Existing Instance sample_util.
#[local] Existing Instance spec_version.

Abbreviation ok_client := (stub (Other := Z) v7_1_0).
Abbreviation bad_scope_client := (scope_failing (Other := Z) v7_1_0).

Example Set_one_example :
  calls (run ok_client (Eth_Set "vsys1" [eth2_l3]) 0%nat) =
  [ EVersioning v7_1_0;
    ELogAction "(set) ethernet interfaces: %v" (LNames ["ethernet1/2"]);
    ESet [ "config"; "devices"; "entry[@name='localhost.localdomain']";
           "network"; "interface"; "ethernet" ]
         (Config (ethernet_bulk [specify_v2 eth2_l3])) None;
    EImport "vsys1" ["ethernet1/2"] None ].
Proof. reflexivity. Qed.

Example Edit_example :
  calls (run ok_client (Eth_Edit "vsys1" eth2_l3) 0%nat) =
  [ EVersioning v7_1_0;
    ELogAction "(edit) ethernet interface %q" (LName "ethernet1/2");
    EEdit [ "config"; "devices"; "entry[@name='localhost.localdomain']";
            "network"; "interface"; "ethernet";
            "entry[@name='ethernet1/2']" ]
          (Element (specify_v2 eth2_l3)) None;
    EImport "vsys1" ["ethernet1/2"] None ].
Proof. reflexivity. Qed.

(** C2, as stated, fails: for one entity [Set] passes the container path
    (six segments) and [Edit] the entry path (seven). *)
Lemma Set_single_path_counterexample :
  ~ Set_single_path_as_Edit ok_client 0%nat "vsys1" eth2_l3.
Proof.
  unfold Set_single_path_as_Edit.
  intros H. vm_compute in H. discriminate H.
Qed.

(** C3 at the empty scope: [Delete] still calls unimport, with the empty
    scope and the name, before it deletes. *)
Lemma Delete_empty_scope_unimports :
  calls (run ok_client (Eth_Delete "" [IString "ethernet1/1"]) 0%nat) =
  [ ELogAction "(delete) ethernet interface(s): %v"
      (LNames ["ethernet1/1"]);
    EUnimport "" ["ethernet1/1"] None;
    EDelete [ "config"; "devices"; "entry[@name='localhost.localdomain']";
              "network"; "interface"; "ethernet";
              "entry[@name='ethernet1/1']" ] None ].
Proof. reflexivity. Qed.

(** The type error of [Delete], at a list whose second identifier is a
    number. *)
Lemma Delete_unknown_type_witness :
  (exists w : Z, IOther w ∈ [IString "ethernet1/1"; IOther 7%Z]) /\
  exists (pre : list (iface Z)) (v : Z) (post : list (iface Z)),
    [IString "ethernet1/1"; IOther 7%Z] = pre ++ IOther v :: post /\
    Forall (fun x => is_Some (name_of x)) pre /\
    run ok_client
      (Eth_Delete "vsys1" [IString "ethernet1/1"; IOther 7%Z]) 0%nat =
    (Some (fmt_Errorf "Unknown type sent to delete: %s" (IOther v)),
     0%nat, []).
Proof.
  assert (H : exists w : Z, IOther w ∈ [IString "ethernet1/1"; IOther 7%Z]).
  { exists 7%Z. apply list_elem_of_In. simpl. auto. }
  split; [exact H |].
  exact (Delete_unknown_type ok_client 0%nat "vsys1" _ H).
Defined.

(** The order of the calls of [Delete], on a client whose unimport fails:
    the run ends with the unimport call. *)
Lemma Delete_unimport_before_delete_witness :
  let e := [IString "ethernet1/1"; IEntry eth2_l3] in
  let names := ["ethernet1/1"; "ethernet1/2"] in
  e <> [] /\
  mapM name_of e = Some names /\
  exists (r : option (error Z)) (rest : list event),
    calls (run bad_scope_client (Eth_Delete "vsys1" e) 0%nat) =
      ELogAction "(delete) ethernet interface(s): %v" (LNames names)
      :: EUnimport "vsys1" names r :: rest /\
    match r with
    | Some _ =>
      rest = [] /\
      result (run bad_scope_client (Eth_Delete "vsys1" e) 0%nat) = r /\
      delete_paths (calls (run bad_scope_client (Eth_Delete "vsys1" e) 0%nat))
        = []
    | None =>
      exists r2 : option (error Z),
        rest = [EDelete (Eth_xpath names) r2] /\
        result (run bad_scope_client (Eth_Delete "vsys1" e) 0%nat) = r2
    end.
Proof.
  cbv zeta.
  split; [discriminate |].
  split; [reflexivity |].
  apply (Delete_unimport_before_delete bad_scope_client 0%nat "vsys1"
           [IString "ethernet1/1"; IEntry eth2_l3]
           ["ethernet1/1"; "ethernet1/2"]);
    [discriminate | reflexivity].
Defined.

(** The follow-up import at the scope "vsys1" with one "ha" and one
    "layer3" entity: the import names the layer-3 interface only, and editing the
    "ha" interface imports nothing. *)
Lemma import_exclusion_witness :
  "vsys1" <> "" /\
  import_calls (calls (run ok_client (Eth_Set "vsys1" [eth1_ha; eth2_l3])
                         0%nat))
    = [("vsys1", ["ethernet1/2"])] /\
  import_calls (calls (run ok_client (Eth_Edit "vsys1" eth1_ha) 0%nat)) = [].
Proof.
  assert (Hv : "vsys1" <> "") by discriminate.
  split; [exact Hv |].
  destruct (import_exclusion ok_client 0%nat "vsys1" [eth1_ha; eth2_l3]
              eth1_ha Hv) as [HS HE].
  split.
  - apply HS. intros p b r Hin.
    apply list_elem_of_In in Hin. simpl in Hin.
    destruct Hin as [Hin | [Hin | [Hin | [Hin | []]]]];
      inversion Hin; reflexivity.
  - apply HE. intros p b r Hin.
    apply list_elem_of_In in Hin. simpl in Hin.
    destruct Hin as [Hin | [Hin | [Hin | []]]];
      inversion Hin; reflexivity.
Defined.

End Examples.

(** * Properties of the normalizer *)

Arguments nil_if_empty : simpl never.

(** The modes, in the order [Normalize] tests their blocks. *)
Definition mode_order : list string :=
  [ "layer3"; "layer2"; "virtual-wire"; "tap"; "ha"; "decrypt-mirror";
    "aggregate-group" ].

Definition present {A : Type} (o : option A) : bool :=
  match o with
  | Some _ => true
  | None => false
  end.

(** The mode of the first block that is present; the empty string when none
    is. *)
Fixpoint first_present (blocks : list bool) (modes : list string) : string :=
  match blocks, modes with
  | true :: _, m :: _ => m
  | false :: blocks, _ :: modes => first_present blocks modes
  | _, _ => ""
  end.

(** The fragments a mode may carry. *)
Definition fragment_keys (mode : string) : gset string :=
  if String.eqb mode "layer3" then {[ "arp"; "l3subinterface"; "ipv6" ]}
  else if String.eqb mode "layer2" then {[ "l2subinterface" ]}
  else ∅.

(** Only the fields of the entry's own mode are populated: the layer-3
    fields are zero outside "layer3", the LLDP fields outside "layer2" and
    "virtual-wire", the netflow profile outside those three, the aggregate
    group outside "aggregate-group"; and the fragment map is nil or a
    non-empty map with keys of the mode only. *)
Definition populated_per_mode (e : Entry) : Prop :=
  (Mode e <> "layer3" ->
   StaticIps e = [] /\ EnableDhcp e = false /\
   CreateDhcpDefaultRoute e = false /\ DhcpDefaultRouteMetric e = 0%Z /\
   Ipv6Enabled e = false /\ ManagementProfile e = "" /\ Mtu e = 0%Z /\
   AdjustTcpMss e = false /\ Ipv4MssAdjust e = 0%Z /\
   Ipv6MssAdjust e = 0%Z) /\
  (Mode e <> "layer2" -> Mode e <> "virtual-wire" ->
   LldpEnabled e = false /\ LldpProfile e = "") /\
  (Mode e <> "layer3" -> Mode e <> "layer2" -> Mode e <> "virtual-wire" ->
   NetflowProfile e = "") /\
  (Mode e <> "aggregate-group" -> AggregateGroup e = "") /\
  match raw e with
  | None => True
  | Some m => m <> ∅ /\ dom m ⊆ fragment_keys (Mode e)
  end.

(** The last step of [Normalize] on an entry whose map is allocated. *)
Lemma nil_if_empty_Some (ans : Entry) (m : gmap string string) :
  raw ans = Some m ->
  nil_if_empty ans = set_raw (if decide (m = ∅) then None else Some m) ans.
Proof.
  intros Hm. unfold nil_if_empty, raw_len. rewrite Hm.
  destruct (decide (m = ∅)) as [-> | Hne].
  - reflexivity.
  - destruct (Nat.eqb_spec (size m) 0) as [Hs | Hs].
    + apply map_size_empty_iff in Hs. contradiction.
    + destruct ans; simpl in *. subst. reflexivity.
Qed.

(** Reduce the projections and field assignments on wire structs. *)
Ltac wire_norm :=
  cbn
    [ v1_XMLName v1_Name v1_ModeL2 v1_ModeL3 v1_ModeVwire v1_TapMode
      v1_HaMode v1_DecryptMirrorMode v1_AggregateGroupMode
      v1_LinkSpeed v1_LinkDuplex v1_LinkState v1_Comment v1_Answer
      v2_XMLName v2_Name v2_ModeL2 v2_ModeL3 v2_ModeVwire v2_TapMode
      v2_HaMode v2_DecryptMirrorMode v2_AggregateGroupMode
      v2_LinkSpeed v2_LinkDuplex v2_LinkState v2_Comment v2_Answer
      l3v1_Ipv6 l3v1_ManagementProfile l3v1_Mtu l3v1_NetflowProfile
      l3v1_AdjustTcpMss l3v1_StaticIps l3v1_Dhcp l3v1_Arp
      l3v1_Subinterface l3v2_Ipv6 l3v2_ManagementProfile l3v2_Mtu
      l3v2_NetflowProfile l3v2_AdjustTcpMss l3v2_Ipv4MssAdjust
      l3v2_Ipv6MssAdjust l3v2_StaticIps l3v2_Dhcp l3v2_Arp
      l3v2_Subinterface otherMode_LldpEnabled otherMode_LldpProfile
      otherMode_NetflowProfile otherMode_Subinterface ipv6_Enabled
      ipv6_Address dhcp_Enable dhcp_CreateDefaultRoute dhcp_Metric
      set_v1_ModeL2 set_v1_ModeL3 set_v1_ModeVwire set_v1_TapMode
      set_v1_HaMode set_v1_DecryptMirrorMode set_v1_AggregateGroupMode
      set_v2_ModeL2 set_v2_ModeL3 set_v2_ModeVwire set_v2_TapMode
      set_v2_HaMode set_v2_DecryptMirrorMode set_v2_AggregateGroupMode
      set_ipv6_Enabled set_ipv6_Address set_otherMode_Subinterface
      set_l3v1_Ipv6 set_l3v1_Dhcp set_l3v1_Arp set_l3v1_Subinterface
      set_l3v2_Ipv6 set_l3v2_Dhcp set_l3v2_Arp set_l3v2_Subinterface
      Text ipv6_zero xml_Name_zero ].

(** Reduce the field assignments on an entry to a record. *)
Ltac entry_norm :=
  cbv beta iota zeta delta
    [ Name Mode StaticIps EnableDhcp CreateDhcpDefaultRoute
       DhcpDefaultRouteMetric Ipv6Enabled ManagementProfile Mtu
       AdjustTcpMss NetflowProfile LldpEnabled LldpProfile LinkSpeed
       LinkDuplex LinkState AggregateGroup Comment Ipv4MssAdjust
       Ipv6MssAdjust raw set_Mode set_StaticIps set_EnableDhcp
       set_CreateDhcpDefaultRoute set_DhcpDefaultRouteMetric
       set_Ipv6Enabled set_ManagementProfile set_Mtu set_AdjustTcpMss
       set_NetflowProfile set_LldpEnabled set_LldpProfile
       set_LinkSpeed set_LinkDuplex set_LinkState set_AggregateGroup
       set_Comment set_Ipv4MssAdjust set_Ipv6MssAdjust set_raw raw_put
       raw_get raw_len ].

Ltac absurd_mode :=
  match goal with
  | H : ?x <> ?x |- _ => exfalso; exact (H eq_refl)
  end.

(** Resolve the last step of [Normalize] once the map is known. *)
Ltac finish_raw :=
  erewrite nil_if_empty_Some by reflexivity;
  first [ rewrite decide_True by reflexivity
        | rewrite decide_False by apply insert_non_empty ].

Ltac fragments_ok :=
  match goal with
  | |- True => exact I
  | |- _ /\ _ => split; [apply insert_non_empty | compute_done]
  end.

Ltac per_mode :=
  unfold populated_per_mode; entry_norm;
  split; [intros; first [absurd_mode | repeat split; reflexivity] |];
  split; [intros; first [absurd_mode | repeat split; reflexivity] |];
  split; [intros; first [absurd_mode | repeat split; reflexivity] |];
  split; [intros; first [absurd_mode | repeat split; reflexivity] |];
  fragments_ok.

(** ** Normalize: mode resolution *)

Section ModeResolution.

Context {U : Util}.

(** Which mode blocks of a wire entry are non-nil, in that order. *)
Definition blocks_v1 (a : entry_v1) : list bool :=
  [ present (v1_ModeL3 a); present (v1_ModeL2 a); present (v1_ModeVwire a);
    present (v1_TapMode a); present (v1_HaMode a);
    present (v1_DecryptMirrorMode a); present (v1_AggregateGroupMode a) ].

Definition blocks_v2 (a : entry_v2) : list bool :=
  [ present (v2_ModeL3 a); present (v2_ModeL2 a); present (v2_ModeVwire a);
    present (v2_TapMode a); present (v2_HaMode a);
    present (v2_DecryptMirrorMode a); present (v2_AggregateGroupMode a) ].

(** C10: in both schemas [Normalize] takes the mode of the first block
    that is non-nil in the order layer3, layer2, virtual-wire, tap, ha,
    decrypt-mirror, aggregate-group, and the empty mode when none is; the
    entry it returns has the fields of that mode only, whatever other blocks
    are present, and it always returns an entry. *)
Theorem Normalize_first_mode :
  (forall o : container_v1,
     Mode (Normalize_v1 o)
       = first_present (blocks_v1 (v1_Answer o)) mode_order /\
     populated_per_mode (Normalize_v1 o)) /\
  (forall o : container_v2,
     Mode (Normalize_v2 o)
       = first_present (blocks_v2 (v2_Answer o)) mode_order /\
     populated_per_mode (Normalize_v2 o)).
Proof.
  split.
  - intros [a]. unfold Normalize_v1, blocks_v1. cbn [v1_Answer].
    destruct (v1_ModeL3 a) as [m3 |].
    { destruct m3 as [[en ad] ? ? ? ? ? dh ar su].
      destruct dh, ar, su, ad; wire_norm; entry_norm; finish_raw.
      all: (split; [reflexivity |]).
      all: per_mode. }
    destruct (v1_ModeL2 a) as [m2 |].
    { destruct m2 as [? ? ? su].
      destruct su; wire_norm; entry_norm; finish_raw.
      all: (split; [reflexivity |]).
      all: per_mode. }
    destruct (v1_ModeVwire a), (v1_TapMode a), (v1_HaMode a),
      (v1_DecryptMirrorMode a), (v1_AggregateGroupMode a).
    all: wire_norm; entry_norm; finish_raw; (split; [reflexivity |]).
    all: per_mode.
  - intros [a]. unfold Normalize_v2, blocks_v2. cbn [v2_Answer].
    destruct (v2_ModeL3 a) as [m3 |].
    { destruct m3 as [[en ad] ? ? ? ? ? ? ? dh ar su].
      destruct dh, ar, su, ad; wire_norm; entry_norm; finish_raw.
      all: (split; [reflexivity |]).
      all: per_mode. }
    destruct (v2_ModeL2 a) as [m2 |].
    { destruct m2 as [? ? ? su].
      destruct su; wire_norm; entry_norm; finish_raw.
      all: (split; [reflexivity |]).
      all: per_mode. }
    destruct (v2_ModeVwire a), (v2_TapMode a), (v2_HaMode a),
      (v2_DecryptMirrorMode a), (v2_AggregateGroupMode a).
    all: wire_norm; entry_norm; finish_raw; (split; [reflexivity |]).
    all: per_mode.
Qed.

(** A read that carries no mode block gives the empty mode. *)
Example Normalize_no_block :
  Mode (Normalize_v1 {| v1_Answer := entry_v1_zero |}) = "" /\
  Mode (Normalize_v2 {| v2_Answer := entry_v2_zero |}) = "".
Proof. split; reflexivity. Qed.

(** With a "ha" block and a "tap" block both present, "tap" is tested
    first and wins. *)
Example Normalize_two_blocks :
  Mode (Normalize_v1
          {| v1_Answer :=
               set_v1_HaMode (Some Build_emptyMode)
                 (set_v1_TapMode (Some Build_emptyMode) entry_v1_zero) |})
  = "tap".
Proof. reflexivity. Qed.

End ModeResolution.

(** ** Normalize after specify *)

Section RoundTrip.

Context {U : Util} {V : VersionOrder}.

(** The container whose answer is a specified entry: what [Normalize] is
    applied to when the device returns the entry as it was written. *)
Definition container_of (w : wire) : normalizer :=
  match w with
  | W1 a => N1 {| v1_Answer := a |}
  | W2 a => N2 {| v2_Answer := a |}
  end.

(** [Normalize(Specify(e))] at the schema selected for version [v]. *)
Definition round_trip (v : version.Number) (e : Entry) : Entry :=
  Normalize (container_of ((versioning_of v).2 e)).

(** The fragments are as the cleaner leaves them. *)
Definition fragments_clean (e : Entry) : Prop :=
  match raw e with
  | None => True
  | Some m => map_Forall (fun _ t => CleanRawXml t = t) m
  end.

(** The round-trip law as the specification words it, at one version and
    one entry. *)
Definition round_trip_law (v : version.Number) (e : Entry) : Prop :=
  Mode e ∈ mode_order -> populated_per_mode e -> fragments_clean e ->
  round_trip v e = e.

(** Rebuilding the fragment map from its own entries. *)
Definition put_clean (k : string) (o : option string)
    (acc : gmap string string) : gmap string string :=
  match o with
  | Some t => <[k := CleanRawXml t]> acc
  | None => acc
  end.

Lemma put_clean_hit (k : string) (o : option string)
    (acc : gmap string string) :
  put_clean k o acc !! k =
  match o with Some t => Some (CleanRawXml t) | None => acc !! k end.
Proof.
  unfold put_clean. destruct o as [t |]; [| reflexivity].
  apply lookup_insert_eq.
Qed.

Lemma put_clean_miss (k k' : string) (o : option string)
    (acc : gmap string string) :
  k <> k' -> put_clean k o acc !! k' = acc !! k'.
Proof.
  intros Hne. unfold put_clean. destruct o as [t |]; [| reflexivity].
  apply lookup_insert_ne. exact Hne.
Qed.

Lemma clean_lookup (m : gmap string string) (k : string) :
  map_Forall (fun _ t => CleanRawXml t = t) m ->
  match m !! k with Some t => Some (CleanRawXml t) | None => None end
  = m !! k.
Proof.
  intros Hc. destruct (m !! k) as [t |] eqn:E; [| reflexivity].
  rewrite (Hc k t E). reflexivity.
Qed.

Lemma outside_dom (m : gmap string string) (ks : gset string) (k : string) :
  dom m ⊆ ks -> k ∉ ks -> m !! k = None.
Proof.
  intros Hd Hk. apply not_elem_of_dom. set_solver.
Qed.

Lemma l3_fragments_back (m : gmap string string) :
  dom m ⊆ fragment_keys "layer3" ->
  map_Forall (fun _ t => CleanRawXml t = t) m ->
  put_clean "ipv6" (m !! "ipv6")
    (put_clean "l3subinterface" (m !! "l3subinterface")
       (put_clean "arp" (m !! "arp") ∅)) = m.
Proof.
  intros Hd Hc. apply map_eq. intros k.
  destruct (decide ("ipv6" = k)) as [<- | N1].
  { rewrite put_clean_hit.
    rewrite !put_clean_miss, lookup_empty by discriminate.
    apply clean_lookup. exact Hc. }
  rewrite put_clean_miss by exact N1.
  destruct (decide ("l3subinterface" = k)) as [<- | N2].
  { rewrite put_clean_hit.
    rewrite !put_clean_miss, lookup_empty by discriminate.
    apply clean_lookup. exact Hc. }
  rewrite put_clean_miss by exact N2.
  destruct (decide ("arp" = k)) as [<- | N3].
  { rewrite put_clean_hit, lookup_empty.
    apply clean_lookup. exact Hc. }
  rewrite put_clean_miss by exact N3.
  rewrite lookup_empty. symmetry.
  apply (outside_dom m _ k Hd).
  change (fragment_keys "layer3")
    with ({[ "arp"; "l3subinterface"; "ipv6" ]} : gset string).
  intros Hk.
  apply elem_of_union in Hk as [Hk | Hk];
    [apply elem_of_union in Hk as [Hk | Hk] |];
    apply elem_of_singleton in Hk; congruence.
Qed.

Lemma l2_fragments_back (m : gmap string string) :
  dom m ⊆ fragment_keys "layer2" ->
  map_Forall (fun _ t => CleanRawXml t = t) m ->
  put_clean "l2subinterface" (m !! "l2subinterface") ∅ = m.
Proof.
  intros Hd Hc. apply map_eq. intros k.
  destruct (decide ("l2subinterface" = k)) as [<- | N1].
  { rewrite put_clean_hit, lookup_empty.
    apply clean_lookup. exact Hc. }
  rewrite put_clean_miss by exact N1.
  rewrite lookup_empty. symmetry.
  apply (outside_dom m _ k Hd).
  change (fragment_keys "layer2")
    with ({[ "l2subinterface" ]} : gset string).
  intros Hk. apply elem_of_singleton in Hk. congruence.
Qed.

Lemma no_fragments (m : gmap string string) :
  m <> ∅ -> dom m ⊆ (∅ : gset string) -> False.
Proof.
  intros Hne Hd. apply Hne. apply dom_empty_inv_L. set_solver.
Qed.

Context {L : UtilLaws U}.

Ltac mode_facts :=
  repeat match goal with
         | H : ?a <> ?a -> _ |- _ => clear H
         | H : ?a <> ?b -> _ |- _ => specialize (H ltac:(discriminate))
         | H : _ /\ _ |- _ => destruct H
         end.

Ltac run_specify :=
  unfold specify_v1, specify_v2;
  cbn [Mode String.eqb Ascii.eqb Bool.eqb];
  unfold raw_get; cbn [raw];
  repeat match goal with
         | H : ?m !! ?k = _ |- context [?m !! ?k] => rewrite H
         end;
  cbn [EnableDhcp CreateDhcpDefaultRoute DhcpDefaultRouteMetric];
  repeat match goal with
         | H : ?c = true |- context [if ?c then _ else _] => rewrite H
         end;
  cbn [orb negb Z.eqb container_of Normalize];
  unfold Normalize_v1, Normalize_v2;
  wire_norm; entry_norm.

(** A mode without fragments: the map is nil, and both schemas give the
    entry back. *)
Ltac no_fragment_mode :=
  mode_facts; subst;
  match goal with
  | Hraw : match ?r with Some _ => _ | None => True end |- _ =>
    destruct r as [m |];
    [destruct Hraw as [Hne Hd]; destruct (no_fragments m Hne Hd) |]
  end;
  match goal with
  | |- context [Gte ?v threshold] => destruct (Gte v threshold)
  end;
  cbn [snd]; run_specify;
  erewrite nil_if_empty_Some by reflexivity;
  rewrite decide_True by reflexivity;
  rewrite ?AsBool_YesNo;
  reflexivity.

(** C1, amended: at the schema selected for any version, [Normalize] after
    [specify] gives back every entry of one of the seven modes whose fields
    are populated per its mode, whose fragment map is nil or holds cleaned
    fragments of its mode only, and whose aggregate group is empty, provided
    that, below 7.1.0, the two MSS adjustments are zero: the v1 schema has
    no place for them. *)
Theorem Normalize_specify_round_trip (v : version.Number) (e : Entry) :
  Mode e ∈ mode_order ->
  populated_per_mode e ->
  fragments_clean e ->
  AggregateGroup e = "" ->
  (Gte v threshold = false ->
   Ipv4MssAdjust e = 0%Z /\ Ipv6MssAdjust e = 0%Z) ->
  round_trip v e = e.
Proof.
  intros Hmode Hpop Hclean Hag Hmss.
  unfold round_trip, versioning_of. fold threshold.
  destruct e as [name mode ips dh cr me i6 mp mtu adj nf le lp ls ld lst
                 ag cm m4 m6 r].
  unfold populated_per_mode, fragments_clean in *.
  cbn [Mode raw StaticIps EnableDhcp CreateDhcpDefaultRoute
       DhcpDefaultRouteMetric Ipv6Enabled ManagementProfile Mtu AdjustTcpMss
       NetflowProfile LldpEnabled LldpProfile AggregateGroup Ipv4MssAdjust
       Ipv6MssAdjust] in *.
  destruct Hpop as (H3 & H2 & Hnf & _ & Hraw).
  subst ag.
  unfold mode_order in Hmode.
  repeat (apply elem_of_cons in Hmode as [-> | Hmode]);
    [ .. | inversion Hmode].
  - (* layer3 *)
    mode_facts. subst.
    assert (Hm : Gte v threshold = false -> m4 = 0%Z /\ m6 = 0%Z)
      by exact Hmss.
    clear Hmss.
    destruct r as [m |].
    + destruct Hraw as [Hne Hd].
      pose proof (l3_fragments_back m Hd Hclean) as Hback.
      destruct (m !! "arp") as [t1 |] eqn:Ha,
               (m !! "l3subinterface") as [t2 |] eqn:Hs,
               (m !! "ipv6") as [t3 |] eqn:Hi;
        cbn [put_clean] in Hback; try (symmetry in Hback; contradiction).
      all: destruct (Gte v threshold); cbn [snd];
        [| destruct (Hm eq_refl) as [-> ->]].
      all: destruct (dh || cr || negb (me =? 0)%Z) eqn:Hc;
        [| apply orb_false_elim in Hc as [Hc Hme];
           apply orb_false_elim in Hc as [-> ->];
           apply negb_false_iff, Z.eqb_eq in Hme; subst me].
      all: run_specify.
      all: erewrite nil_if_empty_Some by reflexivity.
      all: rewrite Hback, decide_False by exact Hne.
      all: rewrite ?AsBool_YesNo, ?EntToStr_StrToEnt.
      all: reflexivity.
    + destruct (Gte v threshold); cbn [snd];
        [| destruct (Hm eq_refl) as [-> ->]].
      all: destruct (dh || cr || negb (me =? 0)%Z) eqn:Hc;
        [| apply orb_false_elim in Hc as [Hc Hme];
           apply orb_false_elim in Hc as [-> ->];
           apply negb_false_iff, Z.eqb_eq in Hme; subst me].
      all: run_specify.
      all: erewrite nil_if_empty_Some by reflexivity.
      all: rewrite decide_True by reflexivity.
      all: rewrite ?AsBool_YesNo, ?EntToStr_StrToEnt.
      all: reflexivity.
  - (* layer2 *)
    mode_facts. subst. clear Hmss.
    destruct r as [m |].
    + destruct Hraw as [Hne Hd].
      pose proof (l2_fragments_back m Hd Hclean) as Hback.
      destruct (m !! "l2subinterface") as [t1 |] eqn:Ha;
        cbn [put_clean] in Hback; try (symmetry in Hback; contradiction).
      destruct (Gte v threshold); cbn [snd].
      all: run_specify.
      all: erewrite nil_if_empty_Some by reflexivity.
      all: rewrite Hback, decide_False by exact Hne.
      all: rewrite ?AsBool_YesNo.
      all: reflexivity.
    + destruct (Gte v threshold); cbn [snd].
      all: run_specify.
      all: erewrite nil_if_empty_Some by reflexivity.
      all: rewrite decide_True by reflexivity.
      all: rewrite ?AsBool_YesNo.
      all: reflexivity.
  - (* virtual-wire *) no_fragment_mode.
  - (* tap *) no_fragment_mode.
  - (* ha *) no_fragment_mode.
  - (* decrypt-mirror *) no_fragment_mode.
  - (* aggregate-group *) no_fragment_mode.
Qed.

End RoundTrip.

(** ** The round trip on examples *)

Lemma sample_util_laws : UtilLaws sample_util.
Proof.
  split.
  - intros []; reflexivity.
  - intros []; reflexivity.
Qed.

(** A layer-3 interface with addresses, DHCP settings, MSS adjustments and
    an "arp" fragment. *)
Definition eth3_full : Entry :=
  {| Name := "ethernet1/3"; Mode := "layer3";
     StaticIps := ["10.1.1.1/24"; "10.1.2.1/24"]; EnableDhcp := false;
     CreateDhcpDefaultRoute := true; DhcpDefaultRouteMetric := 10;
     Ipv6Enabled := true; ManagementProfile := "allow-ping"; Mtu := 1500;
     AdjustTcpMss := true; NetflowProfile := "nf1"; LldpEnabled := false;
     LldpProfile := ""; LinkSpeed := "auto"; LinkDuplex := "auto";
     LinkState := "up"; AggregateGroup := ""; Comment := "uplink";
     Ipv4MssAdjust := 40; Ipv6MssAdjust := 60;
     raw := Some (<["arp" := "<entry name='10.1.1.9'/>"]> ∅) |}.

(** The same kind of interface with nothing but an IPv4 MSS adjustment. *)
Definition eth2_mss : Entry := set_Ipv4MssAdjust 1460 eth2_l3.

Lemma eth2_mss_populated : populated_per_mode eth2_mss.
Proof. unfold eth2_mss, eth2_l3, entry_named. per_mode. Qed.

(** C1, as stated, fails: below 7.1.0 the v1 schema is selected, its
    layer-3 block has no MSS adjustment, and the adjustment of a layer-3
    entry comes back as zero. *)
Lemma round_trip_v1_counterexample :
  ~ @round_trip_law sample_util spec_version v7_0_0 eth2_mss.
Proof.
  unfold round_trip_law. intros H.
  assert (Hmode : Mode eth2_mss ∈ mode_order)
    by (apply list_elem_of_In; simpl; auto).
  specialize (H Hmode eth2_mss_populated I).
  apply (f_equal Ipv4MssAdjust) in H.
  vm_compute in H. discriminate H.
Qed.

(** The aggregate group of an entry is neither written by [specify] nor
    read by [Normalize]. *)
Example aggregate_group_not_carried :
  AggregateGroup
    (@round_trip sample_util spec_version v8_0_2
       (set_AggregateGroup "ae1"
          (entry_named "ethernet1/4" "aggregate-group"))) = "".
Proof. reflexivity. Qed.

(** The round trip at version 8.0.2 and a fully populated layer-3 entry. *)
Lemma Normalize_specify_round_trip_witness :
  @round_trip sample_util spec_version v8_0_2 eth3_full = eth3_full.
Proof.
  apply (@Normalize_specify_round_trip sample_util spec_version
           sample_util_laws v8_0_2 eth3_full).
  - apply list_elem_of_In. simpl. auto.
  - unfold eth3_full. per_mode.
  - intros k t _. reflexivity.
  - reflexivity.
  - intros H. discriminate H.
Defined.

(** * Further properties of the namespace *)

(** ** The write operations: failures, scopes and batches *)

Section MoreOperations.

Context {U : Util} {V : VersionOrder} {Other : Type}.

Abbreviation err' := (option (error Other)).
Abbreviation client' := (XapiClient (Other := Other)).
Abbreviation events' := (list (event (Other := Other))).



(** When the set primitive answers with an error, [Set] returns that error
    and makes no import call, whatever the scope and the modes. *)
Theorem Set_primary_failure (con : client') (s : con_state con)
    (vsys : string) (e : list Entry) (p : list string) (b : payload)
    (err0 : error Other) :
  ESet p b (Some err0) ∈ calls (run con (Eth_Set vsys e) s) ->
  result (run con (Eth_Set vsys e) s) = Some err0 /\
  import_calls (calls (run con (Eth_Set vsys e) s)) = [].
Proof.
  destruct e as [| x e]; [intros H; inversion H |].
  rewrite run_Set. cbv zeta.
  destruct (con_answer con _ (XSet _ _) _) as [[r |] s3]; cbn [fst snd].
  - intros H. apply list_elem_of_In in H. simpl in H.
    destruct H as [H | [H | [H | []]]]; inversion H; subst.
    split; reflexivity.
  - destruct (String.eqb vsys "" || _); cbn [fst snd];
      intros H; apply list_elem_of_In in H; simpl in H.
    + destruct H as [H | [H | [H | []]]]; inversion H.
    + destruct H as [H | [H | [H | [H | []]]]]; inversion H.
Qed.

(** When the edit primitive answers with an error, [Edit] returns that
    error and makes no import call. *)
Theorem Edit_primary_failure (con : client') (s : con_state con)
    (vsys : string) (x : Entry) (p : list string) (b : payload)
    (err0 : error Other) :
  EEdit p b (Some err0) ∈ calls (run con (Eth_Edit vsys x) s) ->
  result (run con (Eth_Edit vsys x) s) = Some err0 /\
  import_calls (calls (run con (Eth_Edit vsys x) s)) = [].
Proof.
  rewrite run_Edit. cbv zeta.
  destruct (con_answer con _ (XEdit _ _) _) as [[r |] s3]; cbn [fst snd].
  - intros H. apply list_elem_of_In in H. simpl in H.
    destruct H as [H | [H | [H | []]]]; inversion H; subst.
    split; reflexivity.
  - destruct (String.eqb vsys "" || _ || _); cbn [fst snd];
      intros H; apply list_elem_of_In in H; simpl in H.
    + destruct H as [H | [H | [H | []]]]; inversion H.
    + destruct H as [H | [H | [H | [H | []]]]]; inversion H.
Qed.

(** An import call is the last call of [Set] and of [Edit], it follows a
    primitive that succeeded, and its answer, error or not, is what the
    operation returns: nothing is called after a failed import. *)
Theorem import_answer_returned (con : client') (s : con_state con)
    (vsys : string) (e : list Entry) (x : Entry) :
  (forall (v : string) (ns : list string) (r : err'),
     EImport v ns r ∈ calls (run con (Eth_Set vsys e) s) ->
     result (run con (Eth_Set vsys e) s) = r /\
     exists (pre : events') (p : list string) (b : payload),
       calls (run con (Eth_Set vsys e) s)
       = pre ++ [ESet p b None; EImport v ns r]) /\
  (forall (v : string) (ns : list string) (r : err'),
     EImport v ns r ∈ calls (run con (Eth_Edit vsys x) s) ->
     result (run con (Eth_Edit vsys x) s) = r /\
     exists (pre : events') (p : list string) (b : payload),
       calls (run con (Eth_Edit vsys x) s)
       = pre ++ [EEdit p b None; EImport v ns r]).
Proof.
  split.
  - intros v ns r.
    destruct e as [| x0 e]; [intros H; inversion H |].
    rewrite run_Set. cbv zeta.
    destruct (con_answer con _ (XSet _ _) _) as [[r0 |] s3]; cbn [fst snd].
    + intros H. apply list_elem_of_In in H. simpl in H.
      destruct H as [H | [H | [H | []]]]; inversion H.
    + destruct (String.eqb vsys "" || _); cbn [fst snd];
        intros H; apply list_elem_of_In in H; simpl in H.
      * destruct H as [H | [H | [H | []]]]; inversion H.
      * destruct H as [H | [H | [H | [H | []]]]]; inversion H; subst.
        split; [reflexivity |].
        eexists [_; _], _, _. reflexivity.
  - intros v ns r.
    rewrite run_Edit. cbv zeta.
    destruct (con_answer con _ (XEdit _ _) _) as [[r0 |] s3]; cbn [fst snd].
    + intros H. apply list_elem_of_In in H. simpl in H.
      destruct H as [H | [H | [H | []]]]; inversion H.
    + destruct (String.eqb vsys "" || _ || _); cbn [fst snd];
        intros H; apply list_elem_of_In in H; simpl in H.
      * destruct H as [H | [H | [H | []]]]; inversion H.
      * destruct H as [H | [H | [H | [H | []]]]]; inversion H; subst.
        split; [reflexivity |].
        eexists [_; _], _, _. reflexivity.
Qed.

(** With the empty scope neither [Set] nor [Edit] ever calls import,
    whatever the client answers. *)
Theorem empty_scope_no_import (con : client') (s : con_state con)
    (e : list Entry) (x : Entry) :
  import_calls (calls (run con (Eth_Set "" e) s)) = [] /\
  import_calls (calls (run con (Eth_Edit "" x) s)) = [].
Proof.
  split.
  - destruct e as [| x0 e]; [reflexivity |].
    rewrite run_Set. cbv zeta. cbn [String.eqb orb].
    destruct (con_answer con _ (XSet _ _) _) as [[r0 |] s3]; reflexivity.
  - rewrite run_Edit. cbv zeta. cbn [String.eqb orb].
    destruct (con_answer con _ (XEdit _ _) _) as [[r0 |] s3]; reflexivity.
Qed.


Lemma names_of_entries (es : list Entry) :
  mapM name_of (map (IEntry (Other := Other)) es) = Some (map Name es).
Proof.
  induction es as [| x es IH]; [reflexivity |].
  simpl. rewrite IH. reflexivity.
Qed.

Lemma names_of_strings (ns : list string) :
  mapM name_of (map (IString (Other := Other)) ns) = Some ns.
Proof.
  induction ns as [| x ns IH]; [reflexivity |].
  simpl. rewrite IH. reflexivity.
Qed.

(** [Delete] uses nothing of an [Entry] but its name: deleting entries runs
    exactly as deleting their names does. *)
Theorem Delete_entries_as_names (con : client') (s : con_state con)
    (vsys : string) (es : list Entry) :
  run con (Eth_Delete vsys (map IEntry es)) s
  = run con (Eth_Delete vsys (map IString (map Name es))) s.
Proof.
  destruct es as [| x es]; [reflexivity |].
  rewrite (run_Delete con s vsys (map IEntry (x :: es)) (map Name (x :: es)))
    by (first [discriminate | apply names_of_entries]).
  rewrite (run_Delete con s vsys (map IString (map Name (x :: es)))
             (map Name (x :: es)))
    by (first [discriminate | apply names_of_strings]).
  reflexivity.
Qed.

End MoreOperations.

(** ** The read operations *)

(** The two retrievers the namespace hands on: [c.con.Get] and
    [c.con.Show]. *)
Inductive retriever := con_Get | con_Show.

Section Reads.

Context {U : Util} {V : VersionOrder} {Other : Type}.

(** What decoding leaves in the target [obj] of a retriever: a container of
    the schema [obj] already has. *)
Definition decoded (obj : normalizer) : Type :=
  match obj with
  | N1 _ => container_v1
  | N2 _ => container_v2
  end.

Definition refill (obj : normalizer) : decoded obj -> normalizer :=
  match obj with
  | N1 _ => N1
  | N2 _ => N2
  end.

(** The methods of [util.XapiClient] that the read operations call.  A
    retriever [fn(path, nil, obj)] fills [obj] and returns the raw response,
    which the namespace drops, and an error; [EntryListUsing(fn, path)]
    returns the names and an error. *)
Inductive rapi : Type -> Type :=
  | RVersioning : rapi version.Number
  | RLogQuery (format : string) (name : option string) : rapi unit
  | RRetrieve (fn : retriever) (path : list string) (obj : normalizer)
      : rapi (decoded obj * option (error Other))
  | REntryListUsing (fn : retriever) (path : list string)
      : rapi (list string * option (error Other)).

Inductive rprog (A : Type) : Type :=
  | RRet (a : A)
  | RCall {X : Type} (c : rapi X) (k : X -> rprog A).
Arguments RRet {A} a.
Arguments RCall {A X} c k.

Fixpoint rbind {A B : Type} (f : A -> rprog B) (p : rprog A) : rprog B :=
  match p with
  | RRet a => f a
  | RCall c k => RCall c (fun x => rbind f (k x))
  end.

#[local] Instance rprog_ret : MRet rprog := @RRet.
#[local] Instance rprog_bind : MBind rprog := @rbind.

Definition rcall {X : Type} (c : rapi X) : rprog X := RCall c RRet.

(** One read call as a run records it. *)
Inductive revent :=
  | RAsked (v : version.Number)
  | RLogged (format : string) (name : option string)
  | RRetrieved (fn : retriever) (path : list string) (obj : normalizer)
      (got : normalizer) (err : option (error Other))
  | RListed (fn : retriever) (path : list string) (names : list string)
      (err : option (error Other)).

Definition revent_of {X : Type} (c : rapi X) : X -> revent :=
  match c in rapi X return X -> revent with
  | RVersioning => fun v => RAsked v
  | RLogQuery f n => fun _ => RLogged f n
  | RRetrieve fn p obj => fun r => RRetrieved fn p obj (refill obj r.1) r.2
  | REntryListUsing fn p => fun r => RListed fn p r.1 r.2
  end.

Record ReadClient := {
  rcon_state : Type;
  rcon_answer : forall X : Type, rapi X -> rcon_state -> X * rcon_state
}.

Fixpoint rrun {A : Type} (con : ReadClient) (p : rprog A)
    (s : rcon_state con) : A * rcon_state con * list revent :=
  match p with
  | RRet a => (a, s, [])
  | RCall c k =>
    let (x, s1) := rcon_answer con _ c s in
    let '(a, s2, t) := rrun con (k x) s1 in
    (a, s2, revent_of c x :: t)
  end.

(** [c.versioning()] on the read side. *)
Definition Eth_versioning_r : rprog (normalizer * (Entry -> wire)) :=
  v ← rcall RVersioning;
  mret (versioning_of v).

(** [(c *Eth) ShowList() ([]string, error)]. *)
Definition Eth_ShowList : rprog (list string * option (error Other)) :=
  _ ← rcall (RLogQuery "(show) list of ethernet interfaces" None);
  let path := Eth_xpath [] in
  rcall (REntryListUsing con_Show (take (length path - 1) path)).

(** [(c *Eth) GetList() ([]string, error)]. *)
Definition Eth_GetList : rprog (list string * option (error Other)) :=
  _ ← rcall (RLogQuery "(get) list of ethernet interfaces" None);
  let path := Eth_xpath [] in
  rcall (REntryListUsing con_Get (take (length path - 1) path)).

(** [(c *Eth) details(fn util.Retriever, name string) (Entry, error)]. *)
Definition Eth_details (fn : retriever) (name : string)
  : rprog (Entry * option (error Other)) :=
  let path := Eth_xpath [name] in
  '(obj, _) ← Eth_versioning_r;
  r ← rcall (RRetrieve fn path obj);
  match r.2 with
  | Some _ => mret (Entry_zero, r.2)
  | None =>
    let ans := Normalize (refill obj r.1) in
    mret (ans, None)
  end.

(** [(c *Eth) Get(name string) (Entry, error)]. *)
Definition Eth_Get (name : string) : rprog (Entry * option (error Other)) :=
  _ ← rcall (RLogQuery "(get) ethernet interface %q" (Some name));
  Eth_details con_Get name.

(** [(c *Eth) Show(name string) (Entry, error)]. *)
Definition Eth_Show (name : string) : rprog (Entry * option (error Other)) :=
  _ ← rcall (RLogQuery "(show) ethernet interface %q" (Some name));
  Eth_details con_Show name.

(** The operation behind a retriever, and its log format. *)
Definition Eth_read (fn : retriever) (name : string)
  : rprog (Entry * option (error Other)) :=
  match fn with
  | con_Get => Eth_Get name
  | con_Show => Eth_Show name
  end.

Definition Eth_list (fn : retriever)
  : rprog (list string * option (error Other)) :=
  match fn with
  | con_Get => Eth_GetList
  | con_Show => Eth_ShowList
  end.

Definition read_format (fn : retriever) : string :=
  match fn with
  | con_Get => "(get) ethernet interface %q"
  | con_Show => "(show) ethernet interface %q"
  end.

Definition list_format (fn : retriever) : string :=
  match fn with
  | con_Get => "(get) list of ethernet interfaces"
  | con_Show => "(show) list of ethernet interfaces"
  end.

Lemma rrun_read (con : ReadClient) (s : rcon_state con) (fn : retriever)
    (name : string) :
  let a1 := rcon_answer con _ (RLogQuery (read_format fn) (Some name)) s in
  let a2 := rcon_answer con _ RVersioning a1.2 in
  let obj := (versioning_of a2.1).1 in
  let a3 := rcon_answer con _ (RRetrieve fn (Eth_xpath [name]) obj) a2.2 in
  rrun con (Eth_read fn name) s =
  (match a3.1.2 with
   | Some _ => (Entry_zero, a3.1.2)
   | None => (Normalize (refill obj a3.1.1), None)
   end,
   a3.2,
   [ RLogged (read_format fn) (Some name);
     RAsked a2.1;
     RRetrieved fn (Eth_xpath [name]) obj (refill obj a3.1.1) a3.1.2 ]).
Proof.
  cbv zeta.
  destruct fn; unfold Eth_read, Eth_Get, Eth_Show, Eth_details,
    Eth_versioning_r, read_format;
    cbn [mbind rprog_bind rbind rcall rrun mret rprog_ret].
  all: destruct (rcon_answer con _ (RLogQuery _ _) s) as [[] s1];
    cbn [fst snd].
  all: destruct (rcon_answer con _ RVersioning s1) as [v s2];
    cbn [fst snd].
  all: destruct (versioning_of v) as [obj fn'];
    cbn [fst snd mbind rprog_bind rbind rcall rrun mret rprog_ret].
  all: destruct (rcon_answer con _ (RRetrieve _ _ obj) s2)
         as [[got [e0 |]] s3];
    cbn [fst snd rrun revent_of]; reflexivity.
Qed.

Lemma rrun_list (con : ReadClient) (s : rcon_state con) (fn : retriever) :
  let a1 := rcon_answer con _ (RLogQuery (list_format fn) None) s in
  let a2 := rcon_answer con _ (REntryListUsing fn container_path) a1.2 in
  rrun con (Eth_list fn) s =
  (a2.1, a2.2,
   [ RLogged (list_format fn) None;
     RListed fn container_path a2.1.1 a2.1.2 ]).
Proof.
  cbv zeta.
  destruct fn; unfold Eth_list, Eth_GetList, Eth_ShowList, list_format;
    cbn [mbind rprog_bind rbind rcall rrun mret rprog_ret].
  all: destruct (rcon_answer con _ (RLogQuery _ _) s) as [[] s1];
    cbn [fst snd].
  all: change (take (length (Eth_xpath []) - 1) (Eth_xpath []))
         with container_path.
  all: destruct (rcon_answer con _ (REntryListUsing _ _) s1)
         as [[names e0] s2];
    reflexivity.
Qed.

Definition retrieve_paths (t : list revent) : list (list string) :=
  omap (fun ev =>
          match ev with RRetrieved _ p _ _ _ => Some p | _ => None end) t.

Definition list_paths (t : list revent) : list (list string) :=
  omap (fun ev =>
          match ev with RListed _ p _ _ => Some p | _ => None end) t.

(** [Get] and [Show] make three calls: the log call, one version query and
    one call of their own retriever, at the entry path of the name and with
    a target of the schema selected for the version the client reports.
    When the retriever succeeds they return, with no error, [Normalize] of
    what it decoded. *)
Theorem read_one_entry (con : ReadClient) (s : rcon_state con)
    (fn : retriever) (name : string) :
  exists (v : version.Number) (got : normalizer)
         (err : option (error Other)),
    (rrun con (Eth_read fn name) s).2 =
      [ RLogged (read_format fn) (Some name);
        RAsked v;
        RRetrieved fn (container_path ++ [AsEntryXpath [name]])
          (versioning_of v).1 got err ] /\
    schema_of got = selected v /\
    (err = None ->
     (rrun con (Eth_read fn name) s).1.1 = (Normalize got, None)).
Proof.
  rewrite rrun_read. cbv zeta. cbn [fst snd].
  destruct (rcon_answer con _ (RLogQuery _ _) s) as [[] s1]; cbn [fst snd].
  destruct (rcon_answer con _ RVersioning s1) as [v s2]; cbn [fst snd].
  destruct (rcon_answer con _ (RRetrieve _ _ _) s2) as [[x e0] s3];
    cbn [fst snd].
  exists v, (refill (versioning_of v).1 x), e0.
  split; [reflexivity |].
  split.
  - unfold selected. destruct (versioning_of v).1; reflexivity.
  - intros ->. reflexivity.
Qed.

(** When the retriever answers with an error, [Get] and [Show] return the
    zero [Entry] together with that error: nothing of a half-decoded target
    reaches the caller. *)
Theorem read_failure (con : ReadClient) (s : rcon_state con)
    (fn fn' : retriever) (name : string) (p : list string)
    (obj got : normalizer) (err0 : error Other) :
  RRetrieved fn' p obj got (Some err0) ∈ (rrun con (Eth_read fn name) s).2 ->
  (rrun con (Eth_read fn name) s).1.1 = (Entry_zero, Some err0).
Proof.
  rewrite rrun_read. cbv zeta. cbn [fst snd].
  intros H. apply list_elem_of_In in H. simpl in H.
  destruct H as [H | [H | [H | []]]]; inversion H as [[Hfn Hp Hobj Hgot He]].
  rewrite He. reflexivity.
Qed.

(** [GetList] and [ShowList] make two calls, the log call and one list
    call of their own retriever at the container path, whatever selector
    the path builder gives for no name; they return the names and the error
    of that call as they are. *)
Theorem list_reads_container (con : ReadClient) (s : rcon_state con)
    (fn : retriever) :
  exists (names : list string) (err : option (error Other)),
    (rrun con (Eth_list fn) s).2 =
      [ RLogged (list_format fn) None;
        RListed fn container_path names err ] /\
    (rrun con (Eth_list fn) s).1.1 = (names, err).
Proof.
  rewrite rrun_list. cbv zeta. cbn [fst snd].
  destruct (rcon_answer con _ (REntryListUsing _ _) _) as [[names e0] s2].
  exists names, e0. split; reflexivity.
Qed.

(** Reads address what writes address: [Get] and [Show] of a name read at
    the path [Edit] writes an entry of that name to, and the list
    operations read at the path [Set] writes a single entity to. *)
Theorem reads_where_writes (rcon : ReadClient) (rs : rcon_state rcon)
    (con : XapiClient (Other := Other)) (s : con_state con)
    (fn : retriever) (vsys : string) (x : Entry) :
  retrieve_paths (rrun rcon (Eth_read fn (Name x)) rs).2
  = edit_paths (calls (run con (Eth_Edit vsys x) s)) /\
  list_paths (rrun rcon (Eth_list fn) rs).2
  = set_paths (calls (run con (Eth_Set vsys [x]) s)).
Proof.
  split.
  - rewrite rrun_read, run_Edit. cbv zeta. cbn [fst snd].
    destruct (con_answer con _ (XEdit _ _) _).1; [reflexivity |].
    destruct (_ || _); reflexivity.
  - rewrite rrun_list, run_Set. cbv zeta. cbn [fst snd].
    destruct (con_answer con _ (XSet _ _) _).1; [reflexivity |].
    destruct (_ || _); reflexivity.
Qed.

End Reads.

(** ** Normalize after specify, on arbitrary entries *)

(** The last step of [Normalize] changes the fragment map only. *)
Lemma nil_if_empty_frame (ans : Entry) :
  nil_if_empty ans = set_raw (raw (nil_if_empty ans)) ans.
Proof.
  unfold nil_if_empty.
  destruct (raw_len ans =? 0)%nat; destruct ans; reflexivity.
Qed.

(** Case analysis on the mode an entry carries: one of the seven, in the
    order of the [switch], or none of them. *)
Ltac mode_chain mode :=
  destruct (String.eqb_spec mode "layer3") as [-> | ?N3];
  [| destruct (String.eqb_spec mode "layer2") as [-> | ?N2];
  [| destruct (String.eqb_spec mode "virtual-wire") as [-> | ?Nvw];
  [| destruct (String.eqb_spec mode "tap") as [-> | ?Ntap];
  [| destruct (String.eqb_spec mode "ha") as [-> | ?Nha];
  [| destruct (String.eqb_spec mode "decrypt-mirror") as [-> | ?Ndm];
  [| destruct (String.eqb_spec mode "aggregate-group") as [-> | ?Nag]]]]]]];
  cbn [String.eqb Ascii.eqb Bool.eqb].

(** Case analysis on what [specify] reads of an entry besides its mode: the
    fragments it looks up and the DHCP test; then both mappings are run. *)
Ltac read_fragments :=
  unfold raw_get; cbn [raw];
  repeat match goal with
         | |- context [match ?r with Some m => m !! _ | None => None end] =>
           is_var r; destruct r as [?m |]
         end;
  repeat match goal with
         | |- context [?m !! ?k] => destruct (m !! k) as [?t |] eqn:?Hk
         end.

Ltac run_both :=
  cbn [EnableDhcp CreateDhcpDefaultRoute DhcpDefaultRouteMetric];
  repeat match goal with
         | |- context [(?a || ?b || negb ?c)] =>
           destruct (a || b || negb c) eqn:?Hdhcp
         end;
  wire_norm;
  cbn [container_of Normalize];
  unfold Normalize_v1, Normalize_v2;
  wire_norm; entry_norm.

Ltac trip_cases :=
  unfold round_trip, versioning_of; fold threshold;
  match goal with
  | |- context [Gte ?v threshold] => destruct (Gte v threshold) eqn:?Hgte
  end;
  cbn [snd];
  unfold specify_v1, specify_v2; cbn [Mode];
  match goal with
  | |- context [String.eqb ?mode "layer3"] => mode_chain mode
  end;
  read_fragments; run_both.

Lemma not_a_mode (mode : string) :
  mode <> "layer3" -> mode <> "layer2" -> mode <> "virtual-wire" ->
  mode <> "tap" -> mode <> "ha" -> mode <> "decrypt-mirror" ->
  mode <> "aggregate-group" -> mode ∉ mode_order.
Proof.
  intros ? ? ? ? ? ? ? H. unfold mode_order in H.
  repeat (apply elem_of_cons in H as [H | H]; [contradiction |]).
  inversion H.
Qed.

Section AnyEntry.

Context {U : Util} {V : VersionOrder}.

(** The fragments [specify] writes for an entry and [Normalize] reads back:
    those of the entry's own mode, cleaned. *)
Definition own_fragments (e : Entry) : gmap string string :=
  if String.eqb (Mode e) "layer3" then
    put_clean "ipv6" (raw_get "ipv6" e)
      (put_clean "l3subinterface" (raw_get "l3subinterface" e)
         (put_clean "arp" (raw_get "arp" e) ∅))
  else if String.eqb (Mode e) "layer2" then
    put_clean "l2subinterface" (raw_get "l2subinterface" e) ∅
  else ∅.

(** The mode blocks of a specified entry, in the order of [mode_order]. *)
Definition blocks_of (w : wire) : list bool :=
  match w with
  | W1 a => blocks_v1 a
  | W2 a => blocks_v2 a
  end.

(** Everything [Normalize] after [specify] gives back, said of the entry
    [e'] it returns for an arbitrary entry [e]: the shared fields, the mode,
    the fields of the entry's own mode (given the laws of the helpers) and
    the fragments. *)
Definition frame_spec (v : version.Number) (e e' : Entry) : Prop :=
  (Name e' = Name e /\
   LinkSpeed e' = LinkSpeed e /\
   LinkDuplex e' = LinkDuplex e /\
   LinkState e' = LinkState e /\
   Comment e' = Comment e) /\
  Mode e' = (if bool_decide (Mode e ∈ mode_order) then Mode e else "") /\
  (UtilLaws U ->
   (Mode e = "layer3" ->
    StaticIps e' = StaticIps e /\
    EnableDhcp e' = EnableDhcp e /\
    CreateDhcpDefaultRoute e' = CreateDhcpDefaultRoute e /\
    DhcpDefaultRouteMetric e' = DhcpDefaultRouteMetric e /\
    Ipv6Enabled e' = Ipv6Enabled e /\
    ManagementProfile e' = ManagementProfile e /\
    Mtu e' = Mtu e /\
    AdjustTcpMss e' = AdjustTcpMss e /\
    NetflowProfile e' = NetflowProfile e /\
    (Gte v threshold = true ->
     Ipv4MssAdjust e' = Ipv4MssAdjust e /\
     Ipv6MssAdjust e' = Ipv6MssAdjust e)) /\
   (Mode e = "layer2" \/ Mode e = "virtual-wire" ->
    LldpEnabled e' = LldpEnabled e /\
    LldpProfile e' = LldpProfile e /\
    NetflowProfile e' = NetflowProfile e)) /\
  raw e'
  = (if decide (own_fragments e = ∅) then None
     else Some (own_fragments e)).

Lemma round_trip_frame (v : version.Number) (e : Entry) :
  frame_spec v e (round_trip v e).
Proof.
  destruct e as [name mode ips dh cr me i6 mp mtu adj nf le lp ls ld lst
                 ag cm m4 m6 r].
  trip_cases.
  all: erewrite nil_if_empty_Some by reflexivity; entry_norm.
  all: unfold frame_spec, own_fragments, raw_get; entry_norm.
  all: rewrite ?Hgte;
    repeat match goal with
           | H : ?m !! ?k = _ |- _ => rewrite H
           | H : ?a <> ?b |- context [String.eqb ?a ?b] =>
             rewrite (proj2 (String.eqb_neq a b) H)
           end;
    cbn [String.eqb Ascii.eqb Bool.eqb put_clean].
  all: split; [repeat split; reflexivity |].
  all: split;
    [first [ rewrite bool_decide_eq_false_2
               by (apply not_a_mode; assumption);
             reflexivity
           | reflexivity ] |].
  all: split; [| reflexivity].
  all: intros L; split.
  all: try (intros Hm; first [discriminate Hm | contradiction]).
  all: try (intros [Hm | Hm]; first [discriminate Hm | contradiction]).
  all: intros _; rewrite ?AsBool_YesNo, ?EntToStr_StrToEnt.
  all: try (apply orb_false_elim in Hdhcp as [Hdhcp Hme];
            apply orb_false_elim in Hdhcp as [-> ->];
            apply negb_false_iff, Z.eqb_eq in Hme; subst me).
  all: repeat match goal with
              | |- _ /\ _ => split
              | |- _ = _ => reflexivity
              | |- false = true -> _ => intros Hg; discriminate Hg
              | |- true = true -> _ => intros _
              end.
Qed.

(** For every entry and at every version, whatever its mode and its other
    fields (an unknown mode included), [Normalize] after [specify] gives
    back the name, the link speed, duplex and state, and the comment. *)
Theorem round_trip_keeps_identity (v : version.Number) (e : Entry) :
  Name (round_trip v e) = Name e /\
  LinkSpeed (round_trip v e) = LinkSpeed e /\
  LinkDuplex (round_trip v e) = LinkDuplex e /\
  LinkState (round_trip v e) = LinkState e /\
  Comment (round_trip v e) = Comment e.
Proof.
  destruct (round_trip_frame v e) as (Hid & _).
  exact Hid.
Qed.

(** The mode of an entry survives [Normalize] after [specify] exactly when
    it is one of the seven modes, whatever else the entry holds; any other
    mode string is written as no block at all and reads back as the empty
    mode. *)
Theorem round_trip_mode (v : version.Number) (e : Entry) :
  Mode (round_trip v e)
  = (if bool_decide (Mode e ∈ mode_order) then Mode e else "").
Proof.
  destruct (round_trip_frame v e) as (_ & Hmode & _).
  exact Hmode.
Qed.

(** A layer-3 entry gets its layer-3 settings back from [Normalize] after
    [specify] at every version, whatever its other fields hold: the static
    addresses, the three DHCP settings, the IPv6 flag, the management
    profile, the MTU, the MSS flag and the netflow profile; from 7.1.0 on,
    the two MSS adjustments as well. *)
Theorem layer3_settings_survive (L : UtilLaws U) (v : version.Number)
    (e : Entry) :
  Mode e = "layer3" ->
  StaticIps (round_trip v e) = StaticIps e /\
  EnableDhcp (round_trip v e) = EnableDhcp e /\
  CreateDhcpDefaultRoute (round_trip v e) = CreateDhcpDefaultRoute e /\
  DhcpDefaultRouteMetric (round_trip v e) = DhcpDefaultRouteMetric e /\
  Ipv6Enabled (round_trip v e) = Ipv6Enabled e /\
  ManagementProfile (round_trip v e) = ManagementProfile e /\
  Mtu (round_trip v e) = Mtu e /\
  AdjustTcpMss (round_trip v e) = AdjustTcpMss e /\
  NetflowProfile (round_trip v e) = NetflowProfile e /\
  (Gte v threshold = true ->
   Ipv4MssAdjust (round_trip v e) = Ipv4MssAdjust e /\
   Ipv6MssAdjust (round_trip v e) = Ipv6MssAdjust e).
Proof.
  intros Hmode.
  destruct (round_trip_frame v e) as (_ & _ & Hown & _).
  destruct (Hown L) as [H3 _].
  exact (H3 Hmode).
Qed.

(** A layer-2 or virtual-wire entry gets its LLDP flag, LLDP profile and
    netflow profile back at every version, whatever its other fields
    hold. *)
Theorem lldp_settings_survive (L : UtilLaws U) (v : version.Number)
    (e : Entry) :
  Mode e = "layer2" \/ Mode e = "virtual-wire" ->
  LldpEnabled (round_trip v e) = LldpEnabled e /\
  LldpProfile (round_trip v e) = LldpProfile e /\
  NetflowProfile (round_trip v e) = NetflowProfile e.
Proof.
  intros Hmode.
  destruct (round_trip_frame v e) as (_ & _ & Hown & _).
  destruct (Hown L) as [_ H2].
  exact (H2 Hmode).
Qed.

Lemma own_fragments_lookup (e : Entry) (k : string) :
  own_fragments e !! k
  = (if bool_decide (k ∈ fragment_keys (Mode e))
     then CleanRawXml <$> raw_get k e else None).
Proof.
  unfold own_fragments, fragment_keys.
  destruct (String.eqb (Mode e) "layer3").
  - destruct (decide ("ipv6" = k)) as [<- | N1].
    { rewrite put_clean_hit, !put_clean_miss, lookup_empty by discriminate.
      rewrite bool_decide_eq_true_2 by set_solver.
      destruct (raw_get "ipv6" e); reflexivity. }
    rewrite put_clean_miss by exact N1.
    destruct (decide ("l3subinterface" = k)) as [<- | N2].
    { rewrite put_clean_hit, !put_clean_miss, lookup_empty by discriminate.
      rewrite bool_decide_eq_true_2 by set_solver.
      destruct (raw_get "l3subinterface" e); reflexivity. }
    rewrite put_clean_miss by exact N2.
    destruct (decide ("arp" = k)) as [<- | N3].
    { rewrite put_clean_hit, lookup_empty.
      rewrite bool_decide_eq_true_2 by set_solver.
      destruct (raw_get "arp" e); reflexivity. }
    rewrite put_clean_miss, lookup_empty by exact N3.
    rewrite bool_decide_eq_false_2; [reflexivity |].
    intros Hk.
    apply elem_of_union in Hk as [Hk | Hk];
      [apply elem_of_union in Hk as [Hk | Hk] |];
      apply elem_of_singleton in Hk; congruence.
  - destruct (String.eqb (Mode e) "layer2").
    + destruct (decide ("l2subinterface" = k)) as [<- | N1].
      { rewrite put_clean_hit, lookup_empty.
        rewrite bool_decide_eq_true_2 by set_solver.
        destruct (raw_get "l2subinterface" e); reflexivity. }
      rewrite put_clean_miss, lookup_empty by exact N1.
      rewrite bool_decide_eq_false_2 by set_solver.
      reflexivity.
    + rewrite lookup_empty.
      rewrite bool_decide_eq_false_2 by set_solver.
      reflexivity.
Qed.

(** Fragment pass-through: after [specify] and [Normalize], at every
    version and for every entry, a fragment key of the entry's own mode
    ("arp", "l3subinterface", "ipv6" under "layer3"; "l2subinterface" under
    "layer2") holds the cleaned text the entry had under that key, and is
    absent when the entry had none; every other key is absent, whatever the
    entry held under it. *)
Theorem round_trip_fragments (v : version.Number) (e : Entry) (k : string) :
  raw_get k (round_trip v e)
  = (if bool_decide (k ∈ fragment_keys (Mode e))
     then CleanRawXml <$> raw_get k e else None).
Proof.
  destruct (round_trip_frame v e) as (_ & _ & _ & Hraw).
  rewrite <- own_fragments_lookup.
  unfold raw_get at 1. rewrite Hraw.
  destruct (decide (own_fragments e = ∅)) as [E | E].
  - rewrite E, lookup_empty. reflexivity.
  - reflexivity.
Qed.

(** The fragment map that comes back is nil exactly when no fragment of the
    entry's own mode is there, and never an allocated empty map. *)
Theorem round_trip_fragments_nil (v : version.Number) (e : Entry) :
  raw (round_trip v e) <> Some ∅ /\
  (raw (round_trip v e) = None <->
   forall k : string, k ∈ fragment_keys (Mode e) -> raw_get k e = None).
Proof.
  destruct (round_trip_frame v e) as (_ & _ & _ & Hraw).
  rewrite Hraw.
  destruct (decide (own_fragments e = ∅)) as [E | E].
  - split; [discriminate |].
    split; [| reflexivity].
    intros _ k Hk.
    pose proof (own_fragments_lookup e k) as Hl.
    rewrite E, lookup_empty, bool_decide_eq_true_2 in Hl by exact Hk.
    destruct (raw_get k e); [discriminate Hl | reflexivity].
  - split; [congruence |].
    split; [discriminate |].
    intros Hnone. exfalso. apply E. apply map_eq. intros k.
    rewrite own_fragments_lookup, lookup_empty.
    destruct (bool_decide (k ∈ fragment_keys (Mode e))) eqn:Hb;
      [| reflexivity].
    apply bool_decide_eq_true_1 in Hb.
    rewrite (Hnone k Hb). reflexivity.
Qed.

(** [specify] fills exactly the block of the entry's mode: one block when
    the mode is one of the seven, and none otherwise. *)
Theorem specify_one_block (v : version.Number) (e : Entry) :
  blocks_of ((versioning_of v).2 e)
  = map (fun m => bool_decide (Mode e = m)) mode_order.
Proof.
  destruct e as [name mode ips dh cr me i6 mp mtu adj nf le lp ls ld lst
                 ag cm m4 m6 r].
  unfold versioning_of. fold threshold.
  destruct (Gte v threshold); cbn [snd].
  all: unfold specify_v1, specify_v2; cbn [Mode].
  all: mode_chain mode.
  all: cbn [blocks_of]; unfold blocks_v1, blocks_v2; wire_norm.
  all: cbn [present map mode_order].
  all: unfold mode_order; cbn [map].
  all: rewrite ?bool_decide_eq_false_2 by assumption.
  all: reflexivity.
Qed.

(** Neither schema carries an aggregate group, and the v1 schema carries no
    MSS adjustment: whatever the device returns, the entry read has an empty
    [AggregateGroup], and below 7.1.0 zero MSS adjustments. *)
Theorem Normalize_never_reads (n : normalizer) :
  AggregateGroup (Normalize n) = "" /\
  (schema_of n = schema_v1 ->
   Ipv4MssAdjust (Normalize n) = 0%Z /\ Ipv6MssAdjust (Normalize n) = 0%Z).
Proof.
  destruct n as [[a] | [a]]; cbn [Normalize schema_of].
  - unfold Normalize_v1. cbv zeta. rewrite nil_if_empty_frame.
    cbn [v1_Answer].
    destruct (v1_ModeL3 a) as [[[en ad] ? ? ? ? ? dh ar su] |];
      [destruct dh, ar, su, ad; wire_norm; entry_norm; auto |].
    destruct (v1_ModeL2 a) as [[? ? ? su] |];
      [destruct su; wire_norm; entry_norm; auto |].
    destruct (v1_ModeVwire a), (v1_TapMode a), (v1_HaMode a),
      (v1_DecryptMirrorMode a), (v1_AggregateGroupMode a);
      wire_norm; entry_norm; auto.
  - unfold Normalize_v2. cbv zeta. rewrite nil_if_empty_frame.
    cbn [v2_Answer].
    destruct (v2_ModeL3 a) as [[[en ad] ? ? ? ? ? ? ? dh ar su] |];
      [destruct dh, ar, su, ad; wire_norm; entry_norm;
       (split; [reflexivity | discriminate]) |].
    destruct (v2_ModeL2 a) as [[? ? ? su] |];
      [destruct su; wire_norm; entry_norm;
       (split; [reflexivity | discriminate]) |].
    destruct (v2_ModeVwire a), (v2_TapMode a), (v2_HaMode a),
      (v2_DecryptMirrorMode a), (v2_AggregateGroupMode a);
      wire_norm; entry_norm; (split; [reflexivity | discriminate]).
Qed.

Lemma schemas_agree (e : Entry) :
  (Mode e = "layer3" ->
   Ipv4MssAdjust e = 0%Z /\ Ipv6MssAdjust e = 0%Z) ->
  Normalize (container_of (specify_v1 e))
  = Normalize (container_of (specify_v2 e)).
Proof.
  destruct e as [name mode ips dh cr me i6 mp mtu adj nf le lp ls ld lst
                 ag cm m4 m6 r].
  cbn [Mode Ipv4MssAdjust Ipv6MssAdjust]. intros Hmss.
  unfold specify_v1, specify_v2; cbn [Mode].
  match goal with
  | |- context [String.eqb ?mode "layer3"] => mode_chain mode
  end.
  1: destruct (Hmss eq_refl) as [-> ->].
  all: clear Hmss.
  all: read_fragments; run_both.
  all: reflexivity.
Qed.

(** Reading back does not depend on the schema: for an entry that is not in
    mode "layer3", or whose MSS adjustments are zero, [Normalize] after
    [specify] gives the same entry at any two versions. *)
Theorem round_trip_version_independent (v v' : version.Number) (e : Entry) :
  (Mode e = "layer3" ->
   Ipv4MssAdjust e = 0%Z /\ Ipv6MssAdjust e = 0%Z) ->
  round_trip v e = round_trip v' e.
Proof.
  intros Hmss.
  pose proof (schemas_agree e Hmss) as H12.
  unfold round_trip, versioning_of. fold threshold.
  destruct (Gte v threshold), (Gte v' threshold); cbn [snd];
    congruence.
Qed.

End AnyEntry.

(** * The provider's configuration (package [panos], [provider.go]) *)

Module panos.

(** [CredsSpec], the JSON credentials file once decoded; [Port] is a
    [uint], [Timeout] an [int]. *)
Record CredsSpec := {
  cs_Hostname : string;
  cs_Username : string;
  cs_Password : string;
  cs_ApiKey : string;
  cs_Protocol : string;
  cs_Port : Z;
  cs_Timeout : Z;
  cs_Logging : list string
}.

(** The [pango.Client] literal that [providerConfigure] hands to
    [pango.Connect]. *)
Record Client := {
  Hostname : string;
  Username : string;
  Password : string;
  ApiKey : string;
  Protocol : string;
  Port : Z;
  Timeout : Z;
  Logging : Z
}.

(** What [d.Get] returns for the keys [providerConfigure] reads, at the
    types the provider's schema declares for them and the function asserts;
    "logging" may be nil. *)
Record ResourceData := {
  d_hostname : string;
  d_username : string;
  d_password : string;
  d_api_key : string;
  d_protocol : string;
  d_port : Z;
  d_timeout : Z;
  d_logging : option (list string);
  d_json_config_file : string
}.

(** The eight logging flags of package [pango], which is not part of the
    sources: [uint32] constants. *)
Record LogFlags := {
  LogQuiet : Z;
  LogAction : Z;
  LogQuery : Z;
  LogOp : Z;
  LogUid : Z;
  LogXpath : Z;
  LogSend : Z;
  LogReceive : Z
}.

(** The errors [providerConfigure] returns: the two it formats itself, with
    a string ([%s]) or a number ([%d]), and those of the calls it makes. *)
Inductive cfg_error (E : Type) :=
  | Errorf_s (format : string) (s : string)
  | Errorf_d (format : string) (v : Z)
  | external (e : E).
Arguments Errorf_s {E} format s.
Arguments Errorf_d {E} format v.
Arguments external {E} e.

(** The conversion [uint(x)] of an [int], on a 64-bit platform. *)
Definition to_uint (x : Z) : Z := (x mod 2 ^ 64)%Z.

Section Flags.

(** The flags of [pango] and the type of the errors the calls out of the
    package return. *)
Variables (F : LogFlags) (E : Type).

(** The map literal [lm]. *)
Definition lm : gmap string Z :=
  list_to_map
    [ ("quiet", LogQuiet F); ("action", LogAction F); ("query", LogQuery F);
      ("op", LogOp F); ("uid", LogUid F); ("xpath", LogXpath F);
      ("send", LogSend F); ("receive", LogReceive F) ].

(** The loop over the plan's logging names: an unknown name ends it with
    an error that carries the name. *)
Fixpoint plan_logging (ll : list string) (logging : Z)
  : cfg_error E + Z :=
  match ll with
  | [] => inr logging
  | s :: ll' =>
    match lm !! s with
    | None => inl (Errorf_s "Unknown logging artifact requested: %s" s)
    | Some v => plan_logging ll' (Z.lor logging v)
    end
  end.

(** The loop over the file's logging names: at an unknown name [v] is the
    zero value of the failed lookup, and that is what the error carries. *)
Fixpoint file_logging (ll : list string) (logging : Z)
  : cfg_error E + Z :=
  match ll with
  | [] => inr logging
  | s :: ll' =>
    match lm !! s with
    | None => inl (Errorf_d "Unknown logging artifact requested: %d" 0)
    | Some v => file_logging ll' (Z.lor logging v)
    end
  end.

(** The names [lm] knows. *)
Definition log_names : list string :=
  [ "quiet"; "action"; "query"; "op"; "uid"; "xpath"; "send"; "receive" ].

Lemma lm_known (s : string) : is_Some (lm !! s) <-> s ∈ log_names.
Proof.
  unfold lm, log_names. split.
  - intros [v Hv].
    apply elem_of_list_to_map_2 in Hv.
    apply list_elem_of_In in Hv. simpl in Hv.
    apply list_elem_of_In. simpl.
    repeat (destruct Hv as [Hv | Hv]; [inversion Hv; tauto |]).
    destruct Hv.
  - intros Hs. apply list_elem_of_In in Hs. simpl in Hs.
    repeat (destruct Hs as [<- | Hs]; [vm_compute; eauto |]).
    destruct Hs.
Qed.



Lemma file_logging_unknown (ll : list string) :
  forall acc : Z,
    (exists s, (s ∈ ll) /\ (s ∉ log_names)) ->
    file_logging ll acc
    = inl (Errorf_d "Unknown logging artifact requested: %d" 0).
Proof.
  induction ll as [| x ll IH]; intros acc (s & Hin & Hs).
  - inversion Hin.
  - simpl. destruct (lm !! x) as [v |] eqn:Hx; [| reflexivity].
    apply IH. exists s. split; [| exact Hs].
    apply elem_of_cons in Hin as [-> | Hin]; [| exact Hin].
    exfalso. apply Hs. apply lm_known. eauto.
Qed.

(** The bits of the flags a list of known names gives. *)
Lemma plan_logging_bits (ll : list string) :
  forall acc : Z,
    Forall (fun x => x ∈ log_names) ll ->
    exists r : Z,
      plan_logging ll acc = inr r /\
      forall i : Z, (0 <= i)%Z ->
        Z.testbit r i
        = Z.testbit acc i
          || existsb (fun s => Z.testbit (default 0%Z (lm !! s)) i) ll.
Proof.
  induction ll as [| x ll IH]; intros acc Hall.
  - exists acc. split; [reflexivity |].
    intros i _. simpl. rewrite orb_false_r. reflexivity.
  - inversion Hall as [| ? ? Hx Hall']; subst.
    apply lm_known in Hx as [v Hv].
    simpl. rewrite Hv.
    destruct (IH (Z.lor acc v) Hall') as (r & Hr & Hbits).
    exists r. split; [exact Hr |].
    intros i Hi. rewrite (Hbits i Hi), Z.lor_spec. simpl.
    rewrite orb_assoc. reflexivity.
Qed.

(** The logging flags do not depend on the order of the names nor on
    repetitions: two lists of known names with the same members give the
    same flags. *)
Theorem logging_flags_by_membership (l l' : list string) (acc : Z) :
  Forall (fun x => x ∈ log_names) l ->
  (forall s : string, s ∈ l <-> s ∈ l') ->
  exists r : Z, plan_logging l acc = inr r /\ plan_logging l' acc = inr r.
Proof.
  intros Hall Hsame.
  assert (Hall' : Forall (fun x => x ∈ log_names) l').
  { apply Forall_forall. intros s Hs.
    apply Hsame in Hs. revert s Hs. apply Forall_forall. exact Hall. }
  destruct (plan_logging_bits l acc Hall) as (r & Hr & Hb).
  destruct (plan_logging_bits l' acc Hall') as (r' & Hr' & Hb').
  exists r. split; [exact Hr |].
  rewrite Hr'. f_equal. apply Z.bits_inj'. intros i Hi.
  rewrite (Hb i Hi), (Hb' i Hi). f_equal.
  apply eq_true_iff_eq. rewrite !existsb_exists.
  split; intros (s & Hs & Ht); exists s; (split; [| exact Ht]);
    apply list_elem_of_In; apply Hsame || apply <- Hsame;
    apply list_elem_of_In; exact Hs.
Qed.

End Flags.

Section Configure.

(** The calls out of the package: [ioutil.ReadFile], [json.Unmarshal] into
    an empty [CredsSpec], and [pango.Connect]. *)
Variables (F : LogFlags) (E bytes Con : Type).
Variable ReadFile : string -> E + bytes.
Variable Unmarshal : bytes -> E + CredsSpec.
Variable Connect : Client -> E + Con.

(** The part of [providerConfigure] under "Pull config from the JSON
    credentials file", for a non-empty file name: the settings so far are
    in [c]. *)
Definition merge_file (filename : string) (c : Client)
  : cfg_error E + Client :=
  match ReadFile filename with
  | inl err => inl (external err)
  | inr b =>
    match Unmarshal b with
    | inl err => inl (external err)
    | inr cs =>
      let hostname :=
        if String.eqb (Hostname c) "" && negb (String.eqb (cs_Hostname cs) "")
        then cs_Hostname cs else Hostname c in
      let username :=
        if String.eqb (Username c) "" && negb (String.eqb (cs_Username cs) "")
        then cs_Username cs else Username c in
      let password :=
        if String.eqb (Password c) "" && negb (String.eqb (cs_Password cs) "")
        then cs_Password cs else Password c in
      let apiKey :=
        if String.eqb (ApiKey c) "" && negb (String.eqb (cs_ApiKey cs) "")
        then cs_ApiKey cs else ApiKey c in
      let protocol :=
        if String.eqb (Protocol c) "" && negb (String.eqb (cs_Protocol cs) "")
        then cs_Protocol cs else Protocol c in
      let port :=
        if (Port c =? 0)%Z && negb (cs_Port cs =? 0)%Z
        then cs_Port cs else Port c in
      let timeout :=
        if (Timeout c =? 0)%Z && negb (cs_Timeout cs =? 0)%Z
        then cs_Timeout cs else Timeout c in
      let logging :=
        if (Logging c =? 0)%Z && (0 <? length (cs_Logging cs))%nat
        then file_logging F E (cs_Logging cs) (Logging c)
        else inr (Logging c) in
      match logging with
      | inl err => inl err
      | inr logging =>
        inr {| Hostname := hostname; Username := username;
               Password := password; ApiKey := apiKey;
               Protocol := protocol; Port := port; Timeout := timeout;
               Logging := logging |}
      end
    end
  end.

(** [providerConfigure] up to the comment "Create the client connection":
    the [pango.Client] it is about to connect with, or the error it returns
    before. *)
Definition client_for (d : ResourceData) : cfg_error E + Client :=
  let logging := 0%Z in
  let hostname := d_hostname d in
  let username := d_username d in
  let password := d_password d in
  let apiKey := d_api_key d in
  let protocol := d_protocol d in
  let port := to_uint (d_port d) in
  let timeout := d_timeout d in
  match
    match d_logging d with
    | Some ll => plan_logging F E ll logging
    | None => inr logging
    end
  with
  | inl err => inl err
  | inr logging =>
    let c := {| Hostname := hostname; Username := username;
                Password := password; ApiKey := apiKey;
                Protocol := protocol; Port := port; Timeout := timeout;
                Logging := logging |} in
    let filename := d_json_config_file d in
    if negb (String.eqb filename "") then merge_file filename c
    else inr c
  end.

(** [providerConfigure(d) (interface{}, error)]. *)
Definition providerConfigure (d : ResourceData) : cfg_error E + Con :=
  match client_for d with
  | inl err => inl err
  | inr c =>
    match Connect c with
    | inl err => inl (external err)
    | inr con => inr con
    end
  end.

(** The choice between a plan setting and a file setting. *)
Lemma pick_string (a b : string) :
  (if String.eqb a "" && negb (String.eqb b "") then b else a)
  = (if decide (a = "") then b else a).
Proof.
  destruct (String.eqb_spec a "") as [-> | Ha];
    destruct (String.eqb_spec b "") as [-> | Hb]; simpl;
    try rewrite decide_True by reflexivity;
    try rewrite decide_False by assumption; reflexivity.
Qed.

Lemma pick_number (a b : Z) :
  (if (a =? 0)%Z && negb (b =? 0)%Z then b else a)
  = (if decide (a = 0%Z) then b else a).
Proof.
  destruct (Z.eqb_spec a 0) as [-> | Ha];
    destruct (Z.eqb_spec b 0) as [-> | Hb]; simpl;
    try rewrite decide_True by reflexivity;
    try rewrite decide_False by assumption; reflexivity.
Qed.

(** The flags the plan asks for: zero when "logging" is nil. *)
Definition plan_flags (d : ResourceData) : cfg_error E + Z :=
  match d_logging d with
  | Some ll => plan_logging F E ll 0
  | None => inr 0%Z
  end.

(** Settings of the plan file win over the credentials file: when the
    function gets as far as connecting and a credentials file is named, the
    client it connects with holds, for the hostname, the user name, the
    password, the API key and the protocol, the plan's value unless that is
    empty, and for the port and the timeout the plan's value unless that is
    zero; only then the file's value is taken. *)
Theorem plan_settings_win (d : ResourceData) (c : Client) :
  d_json_config_file d <> "" ->
  client_for d = inr c ->
  exists (b : bytes) (cs : CredsSpec),
    ReadFile (d_json_config_file d) = inr b /\
    Unmarshal b = inr cs /\
    Hostname c
      = (if decide (d_hostname d = "") then cs_Hostname cs
         else d_hostname d) /\
    Username c
      = (if decide (d_username d = "") then cs_Username cs
         else d_username d) /\
    Password c
      = (if decide (d_password d = "") then cs_Password cs
         else d_password d) /\
    ApiKey c
      = (if decide (d_api_key d = "") then cs_ApiKey cs
         else d_api_key d) /\
    Protocol c
      = (if decide (d_protocol d = "") then cs_Protocol cs
         else d_protocol d) /\
    Port c
      = (if decide (to_uint (d_port d) = 0%Z) then cs_Port cs
         else to_uint (d_port d)) /\
    Timeout c
      = (if decide (d_timeout d = 0%Z) then cs_Timeout cs
         else d_timeout d).
Proof.
  intros Hfile. unfold client_for.
  destruct (match d_logging d with
            | Some ll => plan_logging F E ll 0
            | None => inr 0%Z
            end) as [err | lg]; [discriminate |].
  apply String.eqb_neq in Hfile. rewrite Hfile. cbn [negb].
  unfold merge_file.
  destruct (ReadFile (d_json_config_file d)) as [err | b] eqn:Hread;
    [discriminate |].
  destruct (Unmarshal b) as [err | cs] eqn:Hjson; [discriminate |].
  cbn [Hostname Username Password ApiKey Protocol Port Timeout Logging].
  destruct (if (lg =? 0)%Z && (0 <? length (cs_Logging cs))%nat
            then file_logging F E (cs_Logging cs) lg else inr lg)
    as [err | lg2]; [discriminate |].
  intros Hc. injection Hc as <-.
  exists b, cs.
  cbn [Hostname Username Password ApiKey Protocol Port Timeout].
  rewrite !pick_string, !pick_number.
  split; [reflexivity |]. split; [exact Hjson |].
  repeat split; reflexivity.
Qed.


(** Logging of the plan wins as a whole: when the plan's names give
    non-zero flags, the client is connected with exactly those flags, and
    the file's "logging" list is not even looked at, so that an unknown name
    in it raises no error. *)
Theorem plan_logging_wins (d : ResourceData) (lg : Z) :
  plan_flags d = inr lg ->
  lg <> 0%Z ->
  match client_for d with
  | inr c => Logging c = lg
  | inl err =>
    exists e : E, err = external e /\
      (ReadFile (d_json_config_file d) = inl e \/
       exists b, ReadFile (d_json_config_file d) = inr b /\
                 Unmarshal b = inl e)
  end.
Proof.
  unfold plan_flags, client_for. intros Hlg Hnz.
  rewrite Hlg.
  destruct (String.eqb (d_json_config_file d) ""); cbn [negb];
    [reflexivity |].
  unfold merge_file.
  destruct (ReadFile (d_json_config_file d)) as [err | b] eqn:Hread;
    [exists err; split; [reflexivity | left; reflexivity] |].
  destruct (Unmarshal b) as [err | cs] eqn:Hjson;
    [exists err; split; [reflexivity | right; exists b; split;
                          [reflexivity | exact Hjson]] |].
  cbn [Logging].
  apply Z.eqb_neq in Hnz. rewrite Hnz. cbn [andb].
  reflexivity.
Qed.

(** When the plan gives no logging flags and the credentials file lists a
    name that is none of the eight, [providerConfigure] returns an error
    that carries the number 0, the zero value of the failed lookup, and not
    the name. *)
Theorem unknown_file_logging (d : ResourceData) (b : bytes)
    (cs : CredsSpec) :
  plan_flags d = inr 0%Z ->
  d_json_config_file d <> "" ->
  ReadFile (d_json_config_file d) = inr b ->
  Unmarshal b = inr cs ->
  (exists s, (s ∈ cs_Logging cs) /\ (s ∉ log_names)) ->
  providerConfigure d
  = inl (Errorf_d "Unknown logging artifact requested: %d" 0).
Proof.
  unfold plan_flags, providerConfigure, client_for.
  intros Hlg Hfile Hread Hjson Hbad.
  rewrite Hlg.
  apply String.eqb_neq in Hfile. rewrite Hfile. cbn [negb].
  unfold merge_file. rewrite Hread, Hjson. cbn [Logging].
  assert (Hlen : (0 <? length (cs_Logging cs))%nat = true).
  { destruct Hbad as (s & Hin & _).
    destruct (cs_Logging cs); [inversion Hin | reflexivity]. }
  rewrite Hlen. cbn [Z.eqb andb].
  rewrite (file_logging_unknown F E _ 0 Hbad). reflexivity.
Qed.

(** A credentials file that cannot be read or decoded stops the
    configuration with that error, whatever [pango.Connect] would answer. *)
Theorem file_error_returned (d : ResourceData) (lg : Z) (e : E) :
  plan_flags d = inr lg ->
  d_json_config_file d <> "" ->
  (ReadFile (d_json_config_file d) = inl e \/
   exists b, ReadFile (d_json_config_file d) = inr b /\
             Unmarshal b = inl e) ->
  providerConfigure d = inl (external e).
Proof.
  unfold plan_flags, providerConfigure, client_for.
  intros Hlg Hfile Herr.
  rewrite Hlg.
  apply String.eqb_neq in Hfile. rewrite Hfile. cbn [negb].
  unfold merge_file.
  destruct Herr as [Hr | (b & Hr & Hj)].
  - rewrite Hr. reflexivity.
  - rewrite Hr, Hj. reflexivity.
Qed.

End Configure.

End panos.

(** * The further properties on examples *)

(** A client on which the primitives set, edit and delete fail. *)
Definition primary_failing_answer {U : Util} {Other : Type}
    (v : version.Number) (X : Type) (c : xapi (Other := Other) X) (n : nat)
  : X * nat :=
  match c in xapi X return X * nat with
  | XSet _ _ => (Some (client_error "rejected"), S n)
  | XEdit _ _ => (Some (client_error "rejected"), S n)
  | XDelete _ => (Some (client_error "rejected"), S n)
  | c => stub_answer v _ c n
  end.

Definition primary_failing {U : Util} {Other : Type} (v : version.Number)
  : XapiClient (Other := Other) :=
  {| con_state := nat; con_answer := primary_failing_answer v |}.

(** A device that holds one entry, as it was specified, and answers every
    retrieve with it when the target has its schema; and a device on which
    every retrieve fails. *)
Definition holding_answer {U : Util} {Other : Type} (v : version.Number)
    (w : wire) (X : Type) (c : rapi (Other := Other) X) (n : nat)
  : X * nat :=
  match c in rapi X return X * nat with
  | RVersioning => (v, S n)
  | RLogQuery _ _ => (tt, S n)
  | RRetrieve _ _ obj =>
    (match obj return decoded obj * option (error Other) with
     | N1 c0 => (match w with W1 a => {| v1_Answer := a |} | W2 _ => c0 end,
                 None)
     | N2 c0 => (match w with W2 a => {| v2_Answer := a |} | W1 _ => c0 end,
                 None)
     end, S n)
  | REntryListUsing _ _ => ((["ethernet1/1"; "ethernet1/2"], None), S n)
  end.

Definition holding {U : Util} {Other : Type} (v : version.Number) (w : wire)
  : ReadClient (Other := Other) :=
  {| rcon_state := nat; rcon_answer := holding_answer v w |}.

Definition unreachable_answer {U : Util} {Other : Type} (v : version.Number)
    (X : Type) (c : rapi (Other := Other) X) (n : nat) : X * nat :=
  match c in rapi X return X * nat with
  | RVersioning => (v, S n)
  | RLogQuery _ _ => (tt, S n)
  | RRetrieve _ _ obj =>
    (match obj return decoded obj * option (error Other) with
     | N1 c0 => (c0, Some (client_error "no such node"))
     | N2 c0 => (c0, Some (client_error "no such node"))
     end, S n)
  | REntryListUsing _ _ => (([], Some (client_error "no such node")), S n)
  end.

Definition unreachable {U : Util} {Other : Type} (v : version.Number)
  : ReadClient (Other := Other) :=
  {| rcon_state := nat; rcon_answer := unreachable_answer v |}.

Section MoreExamples.

#[local] Existing Instance sample_util.
#[local] Existing Instance spec_version.

Abbreviation rejecting := (primary_failing (Other := Z) v7_1_0).

(** A failing set primitive: its error comes back and nothing is
    imported. *)
Lemma Set_primary_failure_witness :
  result (run rejecting (Eth_Set "vsys1" [eth1_ha; eth2_l3]) 0%nat)
    = Some (client_error "rejected") /\
  import_calls
    (calls (run rejecting (Eth_Set "vsys1" [eth1_ha; eth2_l3]) 0%nat)) = [].
Proof.
  eapply (Set_primary_failure rejecting 0%nat "vsys1" [eth1_ha; eth2_l3]).
  apply list_elem_of_In. simpl. right. right. left. reflexivity.
Defined.

Lemma Edit_primary_failure_witness :
  result (run rejecting (Eth_Edit "vsys1" eth2_l3) 0%nat)
    = Some (client_error "rejected") /\
  import_calls (calls (run rejecting (Eth_Edit "vsys1" eth2_l3) 0%nat)) = [].
Proof.
  eapply (Edit_primary_failure rejecting 0%nat "vsys1" eth2_l3).
  apply list_elem_of_In. simpl. right. right. left. reflexivity.
Defined.

(** A failing import after a successful set: the import's error is what
    [Set] returns. *)
Example import_failure_surfaces :
  result (run (scope_failing (Other := Z) v7_1_0)
            (Eth_Set "vsys1" [eth2_l3]) 0%nat)
  = Some (client_error "import refused").
Proof. reflexivity. Qed.

(** Reading back what was written: a device that returns the entry as
    [Edit] specified it gives the entry back through [Get]. *)
Example Get_after_Edit :
  (rrun (holding (Other := Z) v8_0_2 (specify_v2 eth3_full))
     (Eth_Get "ethernet1/3") 0%nat).1.1
  = (eth3_full, None).
Proof. vm_compute. reflexivity. Qed.

Lemma read_failure_witness :
  (rrun (unreachable (Other := Z) v7_0_0) (Eth_read con_Show "ethernet1/9")
     0%nat).1.1
  = (Entry_zero, Some (client_error "no such node")).
Proof.
  eapply (read_failure (unreachable (Other := Z) v7_0_0) 0%nat con_Show).
  apply list_elem_of_In. simpl. right. right. left. reflexivity.
Defined.

(** A layer-3 entry that also carries stray LLDP settings and a fragment of
    another mode keeps its layer-3 settings. *)
Definition eth3_stray : Entry :=
  set_raw (Some (<["l2subinterface" := "<entry name='ethernet1/3.1'/>"]> ∅))
    (set_LldpProfile "lldp1" (set_LldpEnabled true eth3_full)).

Lemma layer3_settings_survive_witness :
  StaticIps (round_trip v7_0_0 eth3_stray) = ["10.1.1.1/24"; "10.1.2.1/24"] /\
  Mtu (round_trip v7_0_0 eth3_stray) = 1500%Z.
Proof.
  destruct (layer3_settings_survive sample_util_laws v7_0_0 eth3_stray
              eq_refl) as (H1 & _ & _ & _ & _ & _ & H7 & _).
  split; [exact H1 | exact H7].
Defined.

Definition eth5_vwire : Entry :=
  set_Mtu 9000
    (set_NetflowProfile "nf2"
       (set_LldpProfile "lldp2"
          (set_LldpEnabled true (entry_named "ethernet1/5" "virtual-wire")))).

Lemma lldp_settings_survive_witness :
  LldpEnabled (round_trip v8_0_2 eth5_vwire) = true /\
  LldpProfile (round_trip v8_0_2 eth5_vwire) = "lldp2" /\
  NetflowProfile (round_trip v8_0_2 eth5_vwire) = "nf2".
Proof.
  apply (lldp_settings_survive sample_util_laws v8_0_2 eth5_vwire).
  right. reflexivity.
Defined.

Lemma round_trip_version_independent_witness :
  round_trip v7_0_0 eth5_vwire = round_trip v8_0_2 eth5_vwire.
Proof.
  apply (round_trip_version_independent v7_0_0 v8_0_2 eth5_vwire).
  intros H. discriminate H.
Defined.

(** The stray fragment of another mode does not come back; the own one
    does. *)
Example stray_fragment_dropped :
  raw_get "l2subinterface" (round_trip v8_0_2 eth3_stray) = None /\
  raw (round_trip v8_0_2 eth3_stray) = None.
Proof. split; vm_compute; reflexivity. Qed.

End MoreExamples.

Module panos_examples.

Import panos.

(** Sample values for the flags, one bit each. *)
Definition flags : LogFlags :=
  {| LogQuiet := 1; LogAction := 2; LogQuery := 4; LogOp := 8; LogUid := 16;
     LogXpath := 32; LogSend := 64; LogReceive := 128 |}.

Definition creds : CredsSpec :=
  {| cs_Hostname := "fw.example.com"; cs_Username := "admin";
     cs_Password := "secret"; cs_ApiKey := ""; cs_Protocol := "https";
     cs_Port := 8443; cs_Timeout := 30; cs_Logging := ["send"; "verbose"] |}.

(** One credentials file exists and decodes to [creds]; one exists and does
    not decode; every connection succeeds. *)
Definition read_file (f : string) : string + string :=
  if String.eqb f "creds.json" then inr "{...}"
  else if String.eqb f "broken.json" then inr "{"
  else inl "no such file".

Definition unmarshal (b : string) : string + CredsSpec :=
  if String.eqb b "{...}" then inr creds else inl "unexpected end of JSON".

Definition connect (c : Client) : string + Client := inr c.

Definition plan (hostname : string) (logging : option (list string))
    (file : string) : ResourceData :=
  {| d_hostname := hostname; d_username := ""; d_password := "";
     d_api_key := "key"; d_protocol := ""; d_port := 0; d_timeout := 10;
     d_logging := logging; d_json_config_file := file |}.

Lemma plan_settings_win_witness :
  exists c : Client,
    client_for flags string string read_file unmarshal
      (plan "10.0.0.1" (Some ["action"]) "creds.json") = inr c /\
    Hostname c = "10.0.0.1" /\ Username c = "admin" /\ ApiKey c = "key" /\
    Port c = 8443%Z /\ Timeout c = 10%Z.
Proof.
  eexists. split; [vm_compute; reflexivity |].
  destruct (plan_settings_win flags string string read_file unmarshal
              (plan "10.0.0.1" (Some ["action"]) "creds.json")
              _ ltac:(discriminate) ltac:(vm_compute; reflexivity))
    as (b & cs & _ & _ & _).
  repeat split; reflexivity.
Defined.


Lemma logging_flags_by_membership_witness :
  exists r : Z,
    plan_logging flags string ["send"; "receive"; "send"] 0 = inr r /\
    plan_logging flags string ["receive"; "send"] 0 = inr r.
Proof.
  apply (logging_flags_by_membership flags string).
  - repeat constructor; apply list_elem_of_In; simpl; auto 10.
  - intros s. rewrite !elem_of_cons, !elem_of_nil. tauto.
Defined.

Lemma plan_logging_wins_witness :
  match client_for flags string string read_file unmarshal
          (plan "10.0.0.1" (Some ["action"]) "creds.json") with
  | inr c => Logging c = 2%Z
  | inl _ => False
  end.
Proof.
  pose proof (plan_logging_wins flags string string read_file unmarshal
                (plan "10.0.0.1" (Some ["action"]) "creds.json") 2
                eq_refl ltac:(discriminate)) as H.
  vm_compute in H. vm_compute. exact H.
Defined.

Lemma unknown_file_logging_witness :
  providerConfigure flags string string Client read_file unmarshal connect
    (plan "" None "creds.json")
  = inl (Errorf_d "Unknown logging artifact requested: %d" 0).
Proof.
  apply (unknown_file_logging flags string string Client read_file unmarshal
           connect (plan "" None "creds.json") "{...}" creds).
  - reflexivity.
  - discriminate.
  - reflexivity.
  - reflexivity.
  - exists "verbose". split.
    + apply list_elem_of_In. simpl. auto.
    + intros H. apply list_elem_of_In in H. simpl in H.
      repeat (destruct H as [H | H]; [discriminate H |]). destruct H.
Defined.

Lemma file_error_returned_witness :
  providerConfigure flags string string Client read_file unmarshal connect
    (plan "10.0.0.1" None "broken.json")
  = inl (external "unexpected end of JSON").
Proof.
  apply (file_error_returned flags string string Client read_file unmarshal
           connect (plan "10.0.0.1" None "broken.json") 0).
  - reflexivity.
  - discriminate.
  - right. exists "{". split; reflexivity.
Defined.

End panos_examples.
